(** * cdk-email-analysis: the three Lambda handlers, embedded and verified

    The repository holds three Python handlers:
    - [src/lambda/email_parser/index.py]: raw message to stored JSON record;
    - [src/lambda/analyze_emails/index.py]: one day's records to a model
      call and an outcome published on a topic;
    - [src/lambda/slack_notification/index.py]: outcome to a chat payload.

    Each handler is embedded as Rocq functions carrying the source's names.
    Python exceptions are values of [exn] threaded through the [result]
    type; the services the handlers talk to (the bucket, the model, the
    topic, the webhook) are fields of an explicit [World].  Library parsers
    whose grammar lives outside the repository (the JSON codec, the ISO
    date parser, the MIME parser, the HTML tokenizer, the character
    codecs) are interfaces ([Class]); reference implementations of the
    ones the examples need are given further down.

    A Python [str] is held as the bytes of its UTF-8 encoding, so that
    [encode("utf-8")] is the identity and [decode("utf-8")] is a check of
    the bytes. *)

From Stdlib Require Import ZArith List String Ascii Bool Lia.
Import ListNotations.

Local Open Scope Z_scope.
Local Open Scope list_scope.
Local Open Scope string_scope.

Set Implicit Arguments.
Set Warnings "-register-all".

(** ** Python values, exceptions, results *)

(** The values [json.loads] builds and [json.dumps] accepts.  A [PyDict]
    lists its items in insertion order; a [PyFloat] keeps its literal. *)
Inductive pyobj : Type :=
| PyNone
| PyBool (b : bool)
| PyInt (n : Z)
| PyFloat (literal : string)
| PyStr (s : string)
| PyList (elements : list pyobj)
| PyDict (items : list (string * pyobj)).

Inductive exn : Type :=
| KeyError (key : string)
| TypeError
| ValueError (msg : string)
| JSONDecodeError
| LookupError
| UnicodeDecodeError
| OverflowError
| AttributeError
| ClientError (code : string)
| TransportError (msg : string).

Inductive result (A : Type) : Type :=
| Ok (a : A)
| Raise (e : exn).
Arguments Ok {A} a.
Arguments Raise {A} e.

Definition rbind {A B} (r : result A) (k : A -> result B) : result B :=
  match r with
  | Ok a => k a
  | Raise e => Raise e
  end.

Declare Scope result_scope.
Delimit Scope result_scope with result.
Notation "'let?' x ':=' r 'in' k" :=
  (rbind r (fun x => k))
  (at level 10, x name, r at level 100, k at level 200) : result_scope.

Fixpoint mapM {A B} (f : A -> result B) (l : list A) : result (list B) :=
  match l with
  | [] => Ok []
  | x :: xs =>
      match f x with
      | Ok y =>
          match mapM f xs with
          | Ok ys => Ok (y :: ys)
          | Raise e => Raise e
          end
      | Raise e => Raise e
      end
  end.

Definition returns {A} (r : result A) : Prop := exists a, r = Ok a.

(** [d[k]] on a dict built by [json.loads]. *)
Fixpoint dict_get (k : string) (items : list (string * pyobj)) : option pyobj :=
  match items with
  | [] => None
  | (k', v) :: rest => if String.eqb k k' then Some v else dict_get k rest
  end.

Definition dict_keys (items : list (string * pyobj)) : list string :=
  map fst items.

(** The subscription [o[k]] with a string key: a dict looks the key up,
    every other value raises [TypeError]. *)
Definition getitem (o : pyobj) (k : string) : result pyobj :=
  match o with
  | PyDict items =>
      match dict_get k items with
      | Some v => Ok v
      | None => Raise (KeyError k)
      end
  | _ => Raise TypeError
  end.

(** ** Text and bytes

    [utf8_valid]: the byte sequences the strict UTF-8 decoder accepts
    (no overlong forms, no surrogates, nothing above U+10FFFF). *)
Definition byte_in (lo hi : N) (c : ascii) : bool :=
  (N.leb lo (N_of_ascii c) && N.leb (N_of_ascii c) hi)%bool.

Fixpoint utf8_valid (s : string) : bool :=
  match s with
  | EmptyString => true
  | String c r =>
      if byte_in 0 127 c then utf8_valid r
      else if byte_in 194 223 c then
        match r with
        | String c1 r1 => (byte_in 128 191 c1 && utf8_valid r1)%bool
        | _ => false
        end
      else if byte_in 224 239 c then
        match r with
        | String c1 (String c2 r2) =>
            ((if byte_in 224 224 c then byte_in 160 191 c1
              else if byte_in 237 237 c then byte_in 128 159 c1
              else byte_in 128 191 c1) &&
             byte_in 128 191 c2 && utf8_valid r2)%bool
        | _ => false
        end
      else if byte_in 240 244 c then
        match r with
        | String c1 (String c2 (String c3 r3)) =>
            ((if byte_in 240 240 c then byte_in 144 191 c1
              else if byte_in 244 244 c then byte_in 128 143 c1
              else byte_in 128 191 c1) &&
             byte_in 128 191 c2 && byte_in 128 191 c3 && utf8_valid r3)%bool
        | _ => false
        end
      else false
  end.

(** [b.decode("utf-8")] on the bytes [b]. *)
Definition bytes_decode_utf8 (b : string) : result string :=
  if utf8_valid b then Ok b else Raise UnicodeDecodeError.

(** A [str] that a library hands back: bytes that are valid UTF-8. *)
Record text : Type := mkText {
  text_bytes : string;
  text_valid : utf8_valid text_bytes = true
}.

(** [for x in o]: lists yield their elements, dicts their keys, strings
    their characters; the other values are not iterable. *)
Definition iter (o : pyobj) : result (list pyobj) :=
  match o with
  | PyList l => Ok l
  | PyDict items => Ok (map (fun kv => PyStr (fst kv)) items)
  | PyStr s => Ok (map (fun c => PyStr (String c EmptyString)) (list_ascii_of_string s))
  | _ => Raise TypeError
  end.

(** ** Decimal text *)

Definition digit_char (n : Z) : ascii := ascii_of_nat (48 + Z.to_nat n).

Definition is_digit (c : ascii) : bool :=
  let n := nat_of_ascii c in (Nat.leb 48 n && Nat.leb n 57)%bool.

Definition digit_value (c : ascii) : Z := Z.of_nat (nat_of_ascii c) - 48.

(** [zfill k n]: the last [k] decimal digits of [n], as [%0kd] prints a
    number below [10^k]. *)
Fixpoint zfill (k : nat) (n : Z) : string :=
  match k with
  | O => EmptyString
  | S k' => zfill k' (n / 10) ++ String (digit_char (n mod 10)) EmptyString
  end.

Fixpoint str_nat_fuel (fuel : nat) (n : Z) : string :=
  match fuel with
  | O => EmptyString
  | S f =>
      if (n <? 10)%Z then String (digit_char n) EmptyString
      else str_nat_fuel f (n / 10) ++ String (digit_char (n mod 10)) EmptyString
  end.

(** [str(n)] for an integer. *)
Definition str_int (n : Z) : string :=
  if (n <? 0)%Z then "-" ++ str_nat_fuel (S (Z.to_nat (Z.log2 (- n)))) (- n)
  else str_nat_fuel (S (Z.to_nat (Z.log2 n))) n.

(** Reads exactly [k] digits. *)
Fixpoint parse_digits (k : nat) (acc : Z) (s : string) : option (Z * string) :=
  match k with
  | O => Some (acc, s)
  | S k' =>
      match s with
      | String c rest =>
          if is_digit c then parse_digits k' (10 * acc + digit_value c) rest
          else None
      | EmptyString => None
      end
  end.

(** ** [datetime]

    A [datetime] is its wall-clock fields together with the UTC offset its
    [tzinfo] yields for it ([None] for a naive value): the part of a
    [datetime] that [isoformat], [strftime], the key builder and the
    conversions below read.  The arithmetic follows CPython's reference
    implementation ([_ymd2ord], [_ord2ymd]). *)
Module datetime.

Record t : Type := mk {
  year : Z; month : Z; day : Z;
  hour : Z; minute : Z; second : Z; microsecond : Z;
  utcoffset : option Z
}.

Definition MINYEAR : Z := 1.
Definition MAXYEAR : Z := 9999.

Definition is_leap (y : Z) : bool :=
  ((y mod 4 =? 0)%Z && (negb (y mod 100 =? 0)%Z || (y mod 400 =? 0)%Z))%bool.

Definition days_in_month (y m : Z) : Z :=
  match m with
  | 1 => 31 | 2 => if is_leap y then 29 else 28 | 3 => 31 | 4 => 30
  | 5 => 31 | 6 => 30 | 7 => 31 | 8 => 31 | 9 => 30 | 10 => 31
  | 11 => 30 | 12 => 31 | _ => 0
  end.

Definition days_before_year (y : Z) : Z :=
  let y' := y - 1 in y' * 365 + y' / 4 - y' / 100 + y' / 400.

Definition days_before_month_table (m : Z) : Z :=
  match m with
  | 1 => 0 | 2 => 31 | 3 => 59 | 4 => 90 | 5 => 120 | 6 => 151
  | 7 => 181 | 8 => 212 | 9 => 243 | 10 => 273 | 11 => 304 | 12 => 334
  | _ => 0
  end.

Definition days_before_month (y m : Z) : Z :=
  days_before_month_table m + (if ((2 <? m)%Z && is_leap y)%bool then 1 else 0).

Definition ymd2ord (y m d : Z) : Z :=
  days_before_year y + days_before_month y m + d.

Definition DI400Y : Z := 146097.
Definition DI100Y : Z := 36524.
Definition DI4Y : Z := 1461.

(** The end of [_ord2ymd]: month and day of the [n]-th day (from 0) of
    a year, from the estimate [(n + 50) >> 5] corrected downwards. *)
Definition month_day (leapyear : bool) (n : Z) : Z * Z :=
  let m := Z.shiftr (n + 50) 5 in
  let preceding :=
    days_before_month_table m + (if ((2 <? m)%Z && leapyear)%bool then 1 else 0) in
  if (n <? preceding)%Z then
    let m' := m - 1 in
    let dim :=
      match m' with
      | 2 => if leapyear then 29 else 28
      | 4 | 6 | 9 | 11 => 30
      | _ => 31
      end in
    (m', n - (preceding - dim) + 1)
  else (m, n - preceding + 1).

Definition ord2ymd (ordinal : Z) : Z * Z * Z :=
  let n := ordinal - 1 in
  let n400 := n / DI400Y in
  let n := n mod DI400Y in
  let y := n400 * 400 + 1 in
  let n100 := n / DI100Y in
  let n := n mod DI100Y in
  let n4 := n / DI4Y in
  let n := n mod DI4Y in
  let n1 := n / 365 in
  let n := n mod 365 in
  let y := y + n100 * 100 + n4 * 4 + n1 in
  if ((n1 =? 4)%Z || (n100 =? 4)%Z)%bool then (y - 1, 12, 31)
  else
    let leapyear := ((n1 =? 3)%Z && (negb (n4 =? 24)%Z || (n100 =? 3)%Z))%bool in
    let '(m, d) := month_day leapyear n in
    (y, m, d).

(** The values the constructor accepts. *)
Definition wf (d : t) : Prop :=
  MINYEAR <= year d <= MAXYEAR /\
  1 <= month d <= 12 /\
  1 <= day d <= days_in_month (year d) (month d) /\
  0 <= hour d < 24 /\ 0 <= minute d < 60 /\ 0 <= second d < 60 /\
  0 <= microsecond d < 1000000 /\
  match utcoffset d with
  | Some off => -86400 < off < 86400
  | None => True
  end.

Definition fields_ok (y m d hh mm ss us : Z) : bool :=
  ((MINYEAR <=? y)%Z && (y <=? MAXYEAR)%Z && (1 <=? m)%Z && (m <=? 12)%Z &&
   (1 <=? d)%Z && (d <=? days_in_month y m)%Z &&
   (0 <=? hh)%Z && (hh <? 24)%Z && (0 <=? mm)%Z && (mm <? 60)%Z &&
   (0 <=? ss)%Z && (ss <? 60)%Z && (0 <=? us)%Z && (us <? 1000000)%Z)%bool.

(** [_format_offset]: [+HH:MM], with [:SS] when the offset has seconds. *)
Definition format_offset (off : Z) : string :=
  let sign := if (off <? 0)%Z then "-" else "+" in
  let a := Z.abs off in
  let hh := a / 3600 in
  let mm := (a mod 3600) / 60 in
  let ss := a mod 60 in
  sign ++ zfill 2 hh ++ ":" ++ zfill 2 mm ++
  (if (ss =? 0)%Z then EmptyString else ":" ++ zfill 2 ss).

(** [d.isoformat()]. *)
Definition isoformat (d : t) : string :=
  zfill 4 (year d) ++ "-" ++ zfill 2 (month d) ++ "-" ++ zfill 2 (day d) ++ "T" ++
  zfill 2 (hour d) ++ ":" ++ zfill 2 (minute d) ++ ":" ++ zfill 2 (second d) ++
  (if (microsecond d =? 0)%Z then EmptyString else "." ++ zfill 6 (microsecond d)) ++
  match utcoffset d with
  | Some off => format_offset off
  | None => EmptyString
  end.

(** [d.strftime("%Y/%m/%d %H:%M")] (glibc: [%Y] is not padded). *)
Definition strftime_Ymd_HM (d : t) : string :=
  str_int (year d) ++ "/" ++ zfill 2 (month d) ++ "/" ++ zfill 2 (day d) ++ " " ++
  zfill 2 (hour d) ++ ":" ++ zfill 2 (minute d).

(** Seconds from midnight of ordinal 0 to the wall clock of [d]. *)
Definition wall_seconds (d : t) : Z :=
  ymd2ord (year d) (month d) (day d) * 86400 +
  hour d * 3600 + minute d * 60 + second d.

Definition of_wall_seconds (w us : Z) (off : option Z) : t :=
  let '(y, m, dd) := ord2ymd (w / 86400) in
  let r := w mod 86400 in
  mk y m dd (r / 3600) ((r mod 3600) / 60) (r mod 60) us off.

Definition representable (w : Z) : bool :=
  ((86400 <=? w)%Z && (w <? (ymd2ord MAXYEAR 12 31 + 1) * 86400)%Z)%bool.

(** A time zone: the UTC offset in force at a UTC instant. *)
Definition tzinfo : Type := Z -> Z.

(** The instant of [d], in seconds; a naive [d] is read in the system
    zone [local], a map from its wall clock to an offset. *)
Definition utc_seconds (local : Z -> Z) (d : t) : Z :=
  match utcoffset d with
  | Some off => wall_seconds d - off
  | None => wall_seconds d - local (wall_seconds d)
  end.

(** [d.astimezone(tz)]: the same instant on the wall clock of [tz];
    [OverflowError] when the instant or its new wall clock leaves the
    supported years. *)
Definition astimezone (local : Z -> Z) (tz : tzinfo) (d : t) : result t :=
  let u := utc_seconds local d in
  if representable u then
    let off := tz u in
    if representable (u + off) then Ok (of_wall_seconds (u + off) (microsecond d) (Some off))
    else Raise OverflowError
  else Raise OverflowError.

(** [d - timedelta(days=n)]: wall-clock arithmetic, offset kept. *)
Definition sub_days (d : t) (n : Z) : result t :=
  let o := ymd2ord (year d) (month d) (day d) - n in
  if ((1 <=? o)%Z && (o <=? ymd2ord MAXYEAR 12 31)%Z)%bool then
    let '(y, m, dd) := ord2ymd o in
    Ok (mk y m dd (hour d) (minute d) (second d) (microsecond d) (utcoffset d))
  else Raise OverflowError.

End datetime.

(** ** [pathlib]

    [str(Path(s))] on a POSIX system: empty and [.] components are
    dropped, a leading slash is kept (two exactly are kept as two), and
    the empty path prints as [.]. *)
Module pathlib.

Definition slash : ascii := "/"%char.

Fixpoint split (s : string) : list string :=
  match s with
  | EmptyString => [EmptyString]
  | String c rest =>
      if Ascii.eqb c slash then EmptyString :: split rest
      else
        match split rest with
        | [] => [String c EmptyString]
        | p :: ps => String c p :: ps
        end
  end.

Definition keep (p : string) : bool :=
  (negb (String.eqb p EmptyString) && negb (String.eqb p "."))%bool.

Definition root (s : string) : string :=
  match s with
  | String "/" (String "/" (String "/" _)) => "/"
  | String "/" (String "/" _) => "//"
  | String "/" _ => "/"
  | _ => EmptyString
  end.

Definition parts (s : string) : list string := filter keep (split s).

Definition Path_str (s : string) : string :=
  match root s, parts s with
  | EmptyString, [] => "."
  | r, ps => r ++ String.concat "/" ps
  end.

End pathlib.

(** ** The object store

    One bucket: objects in key order, as [ListObjectsV2] reports them.  A
    listing holds at most [max_keys] keys and carries no [Contents] entry
    when no key matches. *)
Module s3.

Definition bucket : Type := list (string * string).

Fixpoint put_object (key body : string) (b : bucket) : bucket :=
  match b with
  | [] => [(key, body)]
  | (k, v) :: rest =>
      match String.compare key k with
      | Lt => (key, body) :: (k, v) :: rest
      | Eq => (key, body) :: rest
      | Gt => (k, v) :: put_object key body rest
      end
  end.

Fixpoint lookup (key : string) (b : bucket) : option string :=
  match b with
  | [] => None
  | (k, v) :: rest => if String.eqb key k then Some v else lookup key rest
  end.

Definition get_object (b : bucket) (key : string) : result string :=
  match lookup key b with
  | Some body => Ok body
  | None => Raise (ClientError "NoSuchKey")
  end.

Record ListObjectsV2Output : Type := {
  Contents : option (list string);
  KeyCount : nat;
  IsTruncated : bool
}.

Definition max_keys : nat := 1000.

Definition matching (b : bucket) (prefix : string) : list string :=
  filter (String.prefix prefix) (map fst b).

Definition list_objects_v2 (b : bucket) (prefix : string) : ListObjectsV2Output :=
  let all := matching b prefix in
  let page := firstn max_keys all in
  {| Contents := match page with [] => None | _ => Some page end;
     KeyCount := List.length page;
     IsTruncated := Nat.ltb max_keys (List.length all) |}.

End s3.

(** ** The world the handlers act on *)

Record World : Type := {
  objects : s3.bucket;              (* the bucket named by BUCKET_NAME *)
  model_requests : list string;     (* prompts sent to the model, oldest first *)
  topic : list string;              (* messages published on TOPIC_ARN *)
  webhook : list pyobj              (* JSON bodies posted to the chat webhook *)
}.

Definition M (A : Type) : Type := World -> result A * World.

Definition ret {A} (a : A) : M A := fun w => (Ok a, w).
Definition raise {A} (e : exn) : M A := fun w => (Raise e, w).
Definition lift {A} (r : result A) : M A := fun w => (r, w).
Definition bind {A B} (m : M A) (k : A -> M B) : M B :=
  fun w =>
    match m w with
    | (Ok a, w') => k a w'
    | (Raise e, w') => (Raise e, w')
    end.

Declare Scope M_scope.
Delimit Scope M_scope with M.
Notation "x <- m ;; k" := (bind m (fun x => k))
  (at level 61, m at next level, right associativity) : M_scope.
Notation "m ;;; k" := (bind m (fun _ => k))
  (at level 61, right associativity) : M_scope.

Fixpoint forM {A B} (l : list A) (f : A -> M B) : M (list B) :=
  match l with
  | [] => ret []
  | x :: xs => (y <- f x ;; ys <- forM xs f ;; ret (y :: ys))%M
  end.

(** ** Library interfaces *)

(** [json.loads] ([None]: it raises [JSONDecodeError]) and [json.dumps],
    which returns a [str]. *)
Class JsonCodec : Type := {
  json_loads : string -> option pyobj;
  json_dumps_text : pyobj -> text
}.

Definition json_dumps {JsonCodec : JsonCodec} (v : pyobj) : string :=
  text_bytes (json_dumps_text v).

(** [datetime.fromisoformat] ([None]: it raises [ValueError]). *)
Class IsoParser : Type := {
  fromisoformat : string -> option datetime.t
}.

(** The [email] package and [html.parser], as far as the extractor uses
    them: [BytesParser(policy=policy.default).parsebytes],
    [email.utils.parsedate_to_datetime] on a header value ([None] as a
    result: it raises [ValueError]), [bytes.decode(charset)] and the
    sequence of [handle_data] calls that [HTMLParser.feed] makes. *)
Inductive EmailMessage : Type :=
| MkEmailMessage
    (subject from_ date : option string)
    (content_type : string)
    (content_charset : option string)
    (payload : Payload)
with Payload : Type :=
| Body (raw : string)
| Parts (parts : list EmailMessage).

Class EmailLib : Type := {
  parsebytes : string -> EmailMessage;
  parsedate_to_datetime : string -> option datetime.t;
  bytes_decode : string -> string -> result string;
  handle_data_calls : string -> list string
}.

Definition set_objects (b : s3.bucket) (w : World) : World :=
  {| objects := b; model_requests := model_requests w;
     topic := topic w; webhook := webhook w |}.

Definition add_model_request (prompt : string) (w : World) : World :=
  {| objects := objects w; model_requests := (model_requests w ++ [prompt])%list;
     topic := topic w; webhook := webhook w |}.

Definition add_topic_message (msg : string) (w : World) : World :=
  {| objects := objects w; model_requests := model_requests w;
     topic := (topic w ++ [msg])%list; webhook := webhook w |}.

Definition add_webhook_post (body : pyobj) (w : World) : World :=
  {| objects := objects w; model_requests := model_requests w;
     topic := topic w; webhook := (webhook w ++ [body])%list |}.

Definition pyopt (o : option string) : pyobj :=
  match o with
  | Some s => PyStr s
  | None => PyNone
  end.

(** ** [src/lambda/analyze_emails/index.py] *)
Module analyze_emails.

Module Email.
Record t : Type := mk {
  id : pyobj; subject : pyobj; from_ : pyobj; date : datetime.t; body : pyobj
}.
End Email.

Module EmailSummary.
Record t : Type := mk {
  subject : pyobj; date : pyobj; from_ : pyobj; summary : pyobj
}.

(** [dataclasses.asdict]: one item per field, under the field's name. *)
Definition asdict (self : t) : pyobj :=
  PyDict [("subject", subject self); ("date", date self);
          ("from_", from_ self); ("summary", summary self)].
End EmailSummary.

Module Message.
Record t : Type := mk {
  success : bool; emails : list EmailSummary.t; error : option string
}.

Definition asdict (self : t) : pyobj :=
  if success self then
    PyDict [("success", PyBool (success self));
            ("emails", PyList (map EmailSummary.asdict (emails self)))]
  else
    PyDict [("success", PyBool (success self));
            ("error", pyopt (error self))].
End Message.

(** What the module reads when it is loaded and when it runs: the
    [JSON_EMAIL_PATH] variable, the clock read in the configured zone
    ([datetime.now(ZoneInfo(timezone))]), the template of
    [prompt.jinja2] as the function [Template(...).render(emails=...)]
    computes, and the model: the text of the first content block of its
    reply to a prompt, or the error of the call. *)
Record Env : Type := {
  json_email_path : string;
  now : datetime.t;
  prompt_template : list Email.t -> string;
  model : string -> result string
}.

Section Handler.
Context {J : JsonCodec} {I : IsoParser} (env : Env).

Definition Email_of_json (email_json : pyobj) : result Email.t :=
  (let? id := getitem email_json "id" in
   let? subject := getitem email_json "subject" in
   let? from_ := getitem email_json "from" in
   let? date_text := getitem email_json "date" in
   let? date :=
     match date_text with
     | PyStr s =>
         match fromisoformat s with
         | Some d => Ok d
         | None => Raise (ValueError "Invalid isoformat string")
         end
     | _ => Raise TypeError
     end in
   let? body := getitem email_json "body" in
   Ok (Email.mk id subject from_ date body))%result.

Definition get_emails (path : string) : M (list Email.t) :=
  fun w =>
    let list_response := s3.list_objects_v2 (objects w) path in
    match s3.Contents list_response with
    | None => (Raise (KeyError "Contents"), w)
    | Some contents =>
        forM contents
          (fun key =>
             (response <- lift (s3.get_object (objects w) key) ;;
              text <- lift (bytes_decode_utf8 response) ;;
              email_json <-
                lift (match json_loads text with
                      | Some v => Ok v
                      | None => Raise JSONDecodeError
                      end) ;;
              lift (Email_of_json email_json))%M) w
    end.

Definition generate_user_prompt (emails : list Email.t) : string :=
  prompt_template env emails.

Definition EmailSummary_of (email : pyobj) : result EmailSummary.t :=
  (let? subject := getitem email "subject" in
   let? date := getitem email "date" in
   let? from_ := getitem email "from" in
   let? summary := getitem email "summary" in
   Ok (EmailSummary.mk subject date from_ summary))%result.

(** The list comprehension inside the [try]. *)
Definition email_summaries (response_text : string) : result (list EmailSummary.t) :=
  match json_loads response_text with
  | None => Raise JSONDecodeError
  | Some v => (let? elements := iter v in mapM EmailSummary_of elements)%result
  end.

Definition parse_response (response_text : string) : result Message.t :=
  match email_summaries response_text with
  | Ok summaries => Ok (Message.mk true summaries None)
  | Raise JSONDecodeError | Raise (KeyError _) =>
      Ok (Message.mk false [] (Some ("Failed to parse response: " ++ response_text)))
  | Raise e => Raise e
  end.

Definition create (prompt : string) : M string :=
  fun w => (model env prompt, add_model_request prompt w).

Definition request_message (prompt : string) : M Message.t :=
  (text <- create prompt ;;
   let response_text := "[" ++ text in
   lift (parse_response response_text))%M.

Definition send_to_topic (message : Message.t) : M unit :=
  fun w => (Ok tt, add_topic_message (json_dumps (Message.asdict message)) w).

Definition day_prefix (target : datetime.t) : string :=
  pathlib.Path_str
    (json_email_path env ++ "/" ++ str_int (datetime.year target) ++ "/" ++
     str_int (datetime.month target) ++ "/" ++ str_int (datetime.day target))
  ++ "/".

(** The event carries an optional string under [path_override];
    without it the path is yesterday's partition. *)
Definition event_path (path_override : option string) : result string :=
  match path_override with
  | Some p => Ok p
  | None =>
      match datetime.sub_days (now env) 1 with
      | Ok target => Ok (day_prefix target)
      | Raise e => Raise e
      end
  end.

Definition lambda_handler (path_override : option string) : M unit :=
  (path <- lift (event_path path_override) ;;
   emails <- get_emails path ;;
   match emails with
   | [] => ret tt
   | _ :: _ =>
       message <- request_message (generate_user_prompt emails) ;;
       if (Message.success message &&
           match Message.emails message with [] => true | _ :: _ => false end)%bool
       then ret tt
       else send_to_topic message
   end)%M.

End Handler.

End analyze_emails.

(** ** [src/lambda/slack_notification/index.py]

    The dataclasses hold what their annotations say: strings.  The handler
    is taken from the decoded [Message] on. *)
Module slack_notification.

Module EmailSummary.
Record t : Type := mk {
  subject : string; date : string; from_ : string; summary : string
}.
End EmailSummary.

Module Message.
Record t : Type := mk {
  success : bool; emails : list EmailSummary.t; error : option string
}.
End Message.

Definition header_block : pyobj :=
  PyDict [("type", PyStr "section");
          ("text", PyDict [("type", PyStr "mrkdwn");
                           ("text", PyStr ":email: 新しいメールが見つかりました")])].

Section Handler.
Context {I : IsoParser}.

Definition email_blocks (email : EmailSummary.t) : result (list pyobj) :=
  match fromisoformat (EmailSummary.date email) with
  | None => Raise (ValueError "Invalid isoformat string")
  | Some d =>
      Ok [ PyDict [("type", PyStr "divider")];
           PyDict [("type", PyStr "section");
                   ("text", PyDict [("type", PyStr "mrkdwn");
                                    ("text", PyStr ("*" ++ EmailSummary.subject email ++ "*"))])];
           PyDict [("type", PyStr "section");
                   ("fields",
                    PyList [ PyDict [("type", PyStr "mrkdwn");
                                     ("text", PyStr (datetime.strftime_Ymd_HM d))];
                             PyDict [("type", PyStr "mrkdwn");
                                     ("text", PyStr (EmailSummary.from_ email))] ])];
           PyDict [("type", PyStr "section");
                   ("text", PyDict [("type", PyStr "plain_text");
                                    ("text", PyStr (EmailSummary.summary email));
                                    ("emoji", PyBool true)])] ]
  end.

Fixpoint append_blocks (blocks : list pyobj) (emails : list EmailSummary.t)
  : result (list pyobj) :=
  match emails with
  | [] => Ok blocks
  | email :: rest =>
      match email_blocks email with
      | Ok bs => append_blocks (blocks ++ bs)%list rest
      | Raise e => Raise e
      end
  end.

Definition generate_payload (emails : list EmailSummary.t) : result pyobj :=
  match append_blocks [header_block] emails with
  | Ok blocks => Ok (PyDict [("blocks", PyList blocks)])
  | Raise e => Raise e
  end.

Definition post (body : pyobj) : M unit :=
  fun w => (Ok tt, add_webhook_post body w).

Definition send_email_summaries (emails : list EmailSummary.t) : M unit :=
  (payload <- lift (generate_payload emails) ;; post payload)%M.

Definition error_payload (error : string) : pyobj :=
  PyDict [("text", PyStr ("Error: " ++ error))].

Definition send_error_message (error : string) : M unit :=
  post (error_payload error).

(** [message.error or "no error contained"]. *)
Definition error_or_default (error : option string) : string :=
  match error with
  | None | Some EmptyString => "no error contained"
  | Some e => e
  end.

(** The payload the handler builds for one message. *)
Definition render (message : Message.t) : result pyobj :=
  if Message.success message then generate_payload (Message.emails message)
  else Ok (error_payload (error_or_default (Message.error message))).

Definition handle (message : Message.t) : M unit :=
  if Message.success message then send_email_summaries (Message.emails message)
  else send_error_message (error_or_default (Message.error message)).

Definition lambda_handler (records : list Message.t) : M unit :=
  (_ <- forM records handle ;; ret tt)%M.

End Handler.

End slack_notification.

(** ** [src/lambda/email_parser/index.py] *)
Module email_parser.

Definition subject (m : EmailMessage) : option string :=
  let 'MkEmailMessage s _ _ _ _ _ := m in s.
Definition from_ (m : EmailMessage) : option string :=
  let 'MkEmailMessage _ f _ _ _ _ := m in f.
Definition date (m : EmailMessage) : option string :=
  let 'MkEmailMessage _ _ d _ _ _ := m in d.
Definition get_content_type (m : EmailMessage) : string :=
  let 'MkEmailMessage _ _ _ ct _ _ := m in ct.
Definition get_content_charset (m : EmailMessage) : option string :=
  let 'MkEmailMessage _ _ _ _ cs _ := m in cs.
Definition payload (m : EmailMessage) : Payload :=
  let 'MkEmailMessage _ _ _ _ _ p := m in p.

Definition is_multipart (m : EmailMessage) : bool :=
  match payload m with
  | Parts _ => true
  | Body _ => false
  end.

Definition iter_parts (m : EmailMessage) : list EmailMessage :=
  match payload m with
  | Parts ps => ps
  | Body _ => []
  end.

Module Email.
Record t : Type := mk {
  id : string;
  subject : option string;
  from_ : option string;
  date : datetime.t;
  body : string
}.
End Email.

(** The environment variables, with [ZoneInfo(TIMEZONE)] as the zone it
    denotes, and the zone of the host, which [astimezone] consults for a
    naive value. *)
Record Env : Type := {
  raw_email_path : string;
  json_email_path : string;
  timezone : datetime.tzinfo;
  host_zone : Z -> Z
}.

Section Parser.
Context {J : JsonCodec} {L : EmailLib} (env : Env).

Definition strip_html (html : string) : string :=
  String.concat EmptyString (handle_data_calls html).

(** [part.get_payload(decode=True).decode(part.get_content_charset())] *)
Definition decoded_text (part : EmailMessage) : result string :=
  match payload part with
  | Parts _ => Raise AttributeError
  | Body raw =>
      match get_content_charset part with
      | None => Raise TypeError
      | Some charset => bytes_decode raw charset
      end
  end.

(** The loop over [message.iter_parts()], [body] being the value of
    the variable on entry. *)
Fixpoint scan_parts (parts : list EmailMessage) (body : option string)
  : result (option string) :=
  match parts with
  | [] => Ok body
  | part :: rest =>
      if String.eqb (get_content_type part) "text/plain" then
        match decoded_text part with
        | Ok text => Ok (Some text)
        | Raise e => Raise e
        end
      else if String.eqb (get_content_type part) "text/html" then
        match decoded_text part with
        | Ok text => scan_parts rest (Some (strip_html text))
        | Raise e => Raise e
        end
      else scan_parts rest body
  end.

Definition _get_email_body (message : EmailMessage) : result string :=
  (let? body :=
     if is_multipart message then scan_parts (iter_parts message) None
     else if String.eqb (get_content_type message) "text/plain" then
       (let? text := decoded_text message in Ok (Some text))
     else if String.eqb (get_content_type message) "text/html" then
       (let? text := decoded_text message in Ok (Some (strip_html text)))
     else Ok None in
   match body with
   | None => Raise (ValueError "Email body not found")
   | Some b => Ok b
   end)%result.

(** [message["date"]] is [None] when the header is absent, and
    [parsedate_to_datetime(None)] raises [ValueError] as it does on a
    value it cannot parse. *)
Definition _get_email_date (message : EmailMessage) : result datetime.t :=
  match date message with
  | None => Raise (ValueError "Invalid date value or format")
  | Some value =>
      match parsedate_to_datetime value with
      | None => Raise (ValueError "Invalid date value or format")
      | Some d => datetime.astimezone (host_zone env) (timezone env) d
      end
  end.

Definition raw_key (email_id : string) : string :=
  pathlib.Path_str (raw_email_path env ++ "/" ++ email_id).

Definition read_email (email_id : string) : M Email.t :=
  fun w =>
    match s3.get_object (objects w) (raw_key email_id) with
    | Raise e => (Raise e, w)
    | Ok raw_email =>
        let message := parsebytes raw_email in
        ((let? date := _get_email_date message in
          let? body := _get_email_body message in
          Ok (Email.mk email_id (subject message) (from_ message) date body))%result,
         w)
    end.

Definition json_key (email : Email.t) : string :=
  pathlib.Path_str
    (json_email_path env ++ "/" ++ str_int (datetime.year (Email.date email)) ++ "/" ++
     str_int (datetime.month (Email.date email)) ++ "/" ++
     str_int (datetime.day (Email.date email)) ++ "/" ++ Email.id email ++ ".json").

Definition json_document (email : Email.t) : pyobj :=
  PyDict [("id", PyStr (Email.id email));
          ("subject", pyopt (Email.subject email));
          ("from", pyopt (Email.from_ email));
          ("date", PyStr (datetime.isoformat (Email.date email)));
          ("body", PyStr (Email.body email))].

(** The object body is [json.dumps(...).encode("utf-8")]: the bytes of
    the text [json.dumps] returns. *)
Definition write_email (email : Email.t) : M unit :=
  fun w =>
    (Ok tt,
     set_objects
       (s3.put_object (json_key email) (json_dumps (json_document email)) (objects w)) w).

(** [records]: the message ids of the event's records. *)
Definition lambda_handler (records : list string) : M unit :=
  (_ <- forM records
          (fun message_id =>
             email <- read_email message_id ;; write_email email) ;;
   ret tt)%M.

End Parser.

End email_parser.

(** ** Reference implementations of the library interfaces

    Executable instances for the examples.  Each covers a fragment of
    what the library accepts and agrees with it there; the theorems below
    are stated for every instance and use these only at concrete inputs. *)
Module reference.

Definition is_ws (c : ascii) : bool :=
  (Ascii.eqb c " " || Ascii.eqb c "009" || Ascii.eqb c "010" || Ascii.eqb c "013")%bool.

Fixpoint skip_ws (s : string) : string :=
  match s with
  | String c rest => if is_ws c then skip_ws rest else s
  | EmptyString => s
  end.

(** Assignment [d[k] = v] on a dict under construction. *)
Fixpoint dict_set (k : string) (v : pyobj) (items : list (string * pyobj))
  : list (string * pyobj) :=
  match items with
  | [] => [(k, v)]
  | (k', v') :: rest =>
      if String.eqb k k' then (k', v) :: rest else (k', v') :: dict_set k v rest
  end.

Definition dquote : ascii := "034"%char.
Definition backslash : ascii := "092"%char.
Definition quote : string := String dquote EmptyString.

(** The characters of a JSON string up to the closing quote, with the
    two-character escapes for quote, backslash, slash, newline, carriage
    return and tab. *)
Fixpoint json_string_body (s : string) : option (string * string) :=
  match s with
  | EmptyString => None
  | String c rest =>
      if Ascii.eqb c dquote then Some (EmptyString, rest)
      else if Ascii.eqb c backslash then
        match rest with
        | String e rest' =>
            let put x :=
              match json_string_body rest' with
              | Some (t, r) => Some (String x t, r)
              | None => None
              end in
            if Ascii.eqb e dquote then put dquote
            else if Ascii.eqb e backslash then put backslash
            else if Ascii.eqb e "/" then put "/"%char
            else if Ascii.eqb e "n" then put "010"%char
            else if Ascii.eqb e "r" then put "013"%char
            else if Ascii.eqb e "t" then put "009"%char
            else None
        | EmptyString => None
        end
      else if Nat.ltb (nat_of_ascii c) 32 then None
      else
        match json_string_body rest with
        | Some (t, r) => Some (String c t, r)
        | None => None
        end
  end.

Fixpoint take_digits (s : string) (acc : Z) : Z * string :=
  match s with
  | String c rest =>
      if is_digit c then take_digits rest (10 * acc + digit_value c) else (acc, s)
  | EmptyString => (acc, s)
  end.

Definition json_int (s : string) : option (pyobj * string) :=
  match s with
  | String "-" (String c rest) =>
      if is_digit c then
        let '(n, r) := take_digits rest (digit_value c) in Some (PyInt (- n), r)
      else None
  | String c rest =>
      if is_digit c then
        let '(n, r) := take_digits rest (digit_value c) in Some (PyInt n, r)
      else None
  | EmptyString => None
  end.

(** Recursive descent over null, booleans, integers, strings, arrays
    and objects. *)
Fixpoint json_value (fuel : nat) (s : string) : option (pyobj * string) :=
  match fuel with
  | O => None
  | S f =>
      match skip_ws s with
      | String "n" (String "u" (String "l" (String "l" r))) => Some (PyNone, r)
      | String "t" (String "r" (String "u" (String "e" r))) => Some (PyBool true, r)
      | String "f" (String "a" (String "l" (String "s" (String "e" r)))) =>
          Some (PyBool false, r)
      | String "034" r =>
          match json_string_body r with
          | Some (t, r') => Some (PyStr t, r')
          | None => None
          end
      | String "[" r =>
          match skip_ws r with
          | String "]" r' => Some (PyList [], r')
          | _ => json_elements f r []
          end
      | String "{" r =>
          match skip_ws r with
          | String "}" r' => Some (PyDict [], r')
          | _ => json_members f r []
          end
      | other => json_int other
      end
  end
with json_elements (fuel : nat) (s : string) (acc : list pyobj)
  : option (pyobj * string) :=
  match fuel with
  | O => None
  | S f =>
      match json_value f s with
      | Some (v, r) =>
          match skip_ws r with
          | String "," r' => json_elements f r' (v :: acc)
          | String "]" r' => Some (PyList (rev (v :: acc)), r')
          | _ => None
          end
      | None => None
      end
  end
with json_members (fuel : nat) (s : string) (acc : list (string * pyobj))
  : option (pyobj * string) :=
  match fuel with
  | O => None
  | S f =>
      match skip_ws s with
      | String "034" r =>
          match json_string_body r with
          | Some (k, r1) =>
              match skip_ws r1 with
              | String ":" r2 =>
                  match json_value f r2 with
                  | Some (v, r3) =>
                      match skip_ws r3 with
                      | String "," r4 => json_members f r4 (dict_set k v acc)
                      | String "}" r4 => Some (PyDict (dict_set k v acc), r4)
                      | _ => None
                      end
                  | None => None
                  end
              | _ => None
              end
          | None => None
          end
      | _ => None
      end
  end.

Definition loads (s : string) : option pyobj :=
  match json_value (2 * String.length s + 2) s with
  | Some (v, r) =>
      match skip_ws r with
      | EmptyString => Some v
      | _ => None
      end
  | None => None
  end.

Fixpoint escape (s : string) : string :=
  match s with
  | EmptyString => EmptyString
  | String c rest =>
      (if Ascii.eqb c dquote then String backslash quote
       else if Ascii.eqb c backslash then String backslash (String backslash EmptyString)
       else if Ascii.eqb c "010" then String backslash "n"
       else if Ascii.eqb c "013" then String backslash "r"
       else if Ascii.eqb c "009" then String backslash "t"
       else String c EmptyString) ++ escape rest
  end.

(** [json.dumps] with its default separators; strings of printable
    ASCII, newlines and tabs. *)
Fixpoint dumps (v : pyobj) : string :=
  match v with
  | PyNone => "null"
  | PyBool true => "true"
  | PyBool false => "false"
  | PyInt n => str_int n
  | PyFloat literal => literal
  | PyStr s => quote ++ escape s ++ quote
  | PyList l => "[" ++ String.concat ", " (map dumps l) ++ "]"
  | PyDict items =>
      "{" ++ String.concat ", "
               (map (fun kv => quote ++ escape (fst kv) ++ quote ++ ": " ++ dumps (snd kv))
                    items)
      ++ "}"
  end.

(** The text of [s]; bytes that are no text (the strings of the value
    were none) give the empty text. *)
Definition as_text (s : string) : text :=
  match utf8_valid s as b return (utf8_valid s = b -> text) with
  | true => fun H => mkText s H
  | false => fun _ => mkText EmptyString eq_refl
  end eq_refl.

Definition json : JsonCodec :=
  {| json_loads := loads; json_dumps_text := fun v => as_text (dumps v) |}.

Notation "'let*' x ':=' o 'in' k" :=
  (match o with Some x => k | None => None end)
  (at level 10, x pattern, o at level 100, k at level 200).

Definition expect (c : ascii) (s : string) : option string :=
  match s with
  | String c' r => if Ascii.eqb c c' then Some r else None
  | EmptyString => None
  end.

(** The offset suffix [isoformat] writes: nothing, or a sign, [HH:MM]
    and, when the offset has seconds, [:SS]. *)
Definition iso_offset (s : string) : option (option Z) :=
  match s with
  | EmptyString => Some None
  | String c r =>
      if (Ascii.eqb c "+" || Ascii.eqb c "-")%bool then
        let* (hh, r1) := parse_digits 2 0 r in
        let* r2 := expect ":" r1 in
        let* (mm, r3) := parse_digits 2 0 r2 in
        let* ss :=
          match r3 with
          | EmptyString => Some 0
          | String _ _ =>
              let* r4 := expect ":" r3 in
              let* (ss, r5) := parse_digits 2 0 r4 in
              match r5 with
              | EmptyString => Some ss
              | String _ _ => None
              end
          end in
        if ((hh <? 24)%Z && (mm <? 60)%Z && (ss <? 60)%Z)%bool then
          let a := hh * 3600 + mm * 60 + ss in
          Some (Some (if Ascii.eqb c "-" then - a else a))
        else None
      else None
  end.

(** [datetime.fromisoformat] on the extended format
    [YYYY-MM-DD], then any one character, [HH:MM:SS], an optional
    six-digit fraction and an optional offset: what [isoformat] writes.
    The library reads further spellings of the same instants. *)
Definition iso_parse (s : string) : option datetime.t :=
  let* (y, r) := parse_digits 4 0 s in
  let* r := expect "-" r in
  let* (m, r) := parse_digits 2 0 r in
  let* r := expect "-" r in
  let* (d, r) := parse_digits 2 0 r in
  match r with
  | EmptyString =>
      if datetime.fields_ok y m d 0 0 0 0 then Some (datetime.mk y m d 0 0 0 0 None)
      else None
  | String _ r =>
      let* (hh, r) := parse_digits 2 0 r in
      let* r := expect ":" r in
      let* (mm, r) := parse_digits 2 0 r in
      let* r := expect ":" r in
      let* (ss, r) := parse_digits 2 0 r in
      let* (us, r) :=
        match r with
        | String "." r' => parse_digits 6 0 r'
        | _ => Some (0, r)
        end in
      let* off := iso_offset r in
      if datetime.fields_ok y m d hh mm ss us then Some (datetime.mk y m d hh mm ss us off)
      else None
  end.

Definition iso : IsoParser := {| fromisoformat := iso_parse |}.

(** *** The [email] package *)

Definition CRLF : string := String "013" (String "010" EmptyString).

Fixpoint drop (n : nat) (s : string) : string :=
  match n, s with
  | O, _ => s
  | S n', String _ r => drop n' r
  | S _, EmptyString => EmptyString
  end.

(** [s.partition(sep)] when [sep] occurs in [s]. *)
Fixpoint cut (sep s : string) : option (string * string) :=
  if String.prefix sep s then Some (EmptyString, drop (String.length sep) s)
  else
    match s with
    | EmptyString => None
    | String c r =>
        match cut sep r with
        | Some (a, b) => Some (String c a, b)
        | None => None
        end
    end.

Fixpoint split_on (fuel : nat) (sep s : string) : list string :=
  match fuel with
  | O => [s]
  | S f =>
      match cut sep s with
      | Some (a, b) => a :: split_on f sep b
      | None => [s]
      end
  end.

Fixpoint header (name : string) (lines : list string) : option string :=
  match lines with
  | [] => None
  | l :: rest =>
      match cut ": " l with
      | Some (n, v) => if String.eqb n name then Some v else header name rest
      | None => header name rest
      end
  end.

Definition param (name value : string) : option string :=
  let* (_, after) := cut (name ++ "=") value in
  match cut ";" after with
  | Some (v, _) => Some v
  | None => Some after
  end.

Definition media_type (value : string) : string :=
  match cut ";" value with
  | Some (t, _) => t
  | None => value
  end.

Definition strip_crlf (s : string) : string :=
  let s := if String.prefix CRLF s then drop 2 s else s in
  let n := String.length s in
  if String.eqb (String.substring (n - 2) 2 s) CRLF then String.substring 0 (n - 2) s else s.

Fixpoint but_last {A} (l : list A) : list A :=
  match l with
  | [] | [_] => []
  | x :: rest => x :: but_last rest
  end.

(** Headers on CRLF-terminated lines, a blank line, the body; the parts
    of a multipart body between its boundary lines, [depth] levels
    deep. *)
Fixpoint parse_entity (depth : nat) (raw : string) : EmailMessage :=
  let '(head, body) :=
    match cut (CRLF ++ CRLF) raw with
    | Some hb => hb
    | None => (raw, EmptyString)
    end in
  let lines := split_on (String.length head) CRLF head in
  let ctype := header "Content-Type" lines in
  let mtype := match ctype with Some v => media_type v | None => "text/plain" end in
  let charset := match ctype with Some v => param "charset" v | None => None end in
  let boundary := match ctype with Some v => param "boundary" v | None => None end in
  let mk := MkEmailMessage (header "Subject" lines) (header "From" lines)
              (header "Date" lines) mtype charset in
  match depth, boundary with
  | S depth', Some b =>
      if String.prefix "multipart/" mtype then
        let segments := split_on (String.length body) ("--" ++ b) body in
        mk (Parts (map (fun seg => parse_entity depth' (strip_crlf seg))
                       (but_last (tl segments))))
      else mk (Body body)
  | _, _ => mk (Body body)
  end.

Definition month_number (name : string) : option Z :=
  if String.eqb name "Jan" then Some 1 else if String.eqb name "Feb" then Some 2
  else if String.eqb name "Mar" then Some 3 else if String.eqb name "Apr" then Some 4
  else if String.eqb name "May" then Some 5 else if String.eqb name "Jun" then Some 6
  else if String.eqb name "Jul" then Some 7 else if String.eqb name "Aug" then Some 8
  else if String.eqb name "Sep" then Some 9 else if String.eqb name "Oct" then Some 10
  else if String.eqb name "Nov" then Some 11 else if String.eqb name "Dec" then Some 12
  else None.

(** Dates in the form [format_datetime] writes:
    [Mon, 01 Jan 2024 10:00:00 +0900]; the offset [-0000] gives a naive
    value. *)
Definition parsedate (value : string) : option datetime.t :=
  let* (_, r) := cut ", " value in
  let* (d, r) := parse_digits 2 0 r in
  let* r := expect " " r in
  let* m := month_number (String.substring 0 3 r) in
  let* r := expect " " (drop 3 r) in
  let* (y, r) := parse_digits 4 0 r in
  let* r := expect " " r in
  let* (hh, r) := parse_digits 2 0 r in
  let* r := expect ":" r in
  let* (mm, r) := parse_digits 2 0 r in
  let* r := expect ":" r in
  let* (ss, r) := parse_digits 2 0 r in
  let* r := expect " " r in
  match r with
  | String sign r =>
      let* (oh, r) := parse_digits 2 0 r in
      let* (om, r) := parse_digits 2 0 r in
      match r with
      | EmptyString =>
          if datetime.fields_ok y m d hh mm ss 0 then
            let a := oh * 3600 + om * 60 in
            if Ascii.eqb sign "+" then Some (datetime.mk y m d hh mm ss 0 (Some a))
            else if Ascii.eqb sign "-" then
              Some (datetime.mk y m d hh mm ss 0 (if (a =? 0)%Z then None else Some (- a)))
            else None
          else None
      | String _ _ => None
      end
  | EmptyString => None
  end.

Definition all_ascii (s : string) : bool :=
  forallb (fun c => Nat.ltb (nat_of_ascii c) 128) (list_ascii_of_string s).

(** The codecs [ascii] and [us-ascii], and [utf-8] on ASCII payloads;
    text is kept as its bytes. *)
Definition decode (raw charset : string) : result string :=
  if (String.eqb charset "ascii" || String.eqb charset "us-ascii" ||
      String.eqb charset "utf-8")%bool then
    if all_ascii raw then Ok raw else Raise UnicodeDecodeError
  else Raise LookupError.

(** The text between tags, one [handle_data] call per run, for markup
    without character references, comments or scripts. *)
Fixpoint text_runs (s : string) (in_tag : bool) (run : string) : list string :=
  let flush r := match r with EmptyString => [] | _ => [r] end in
  match s with
  | EmptyString => if in_tag then [] else flush run
  | String c rest =>
      if in_tag then text_runs rest (negb (Ascii.eqb c ">")) EmptyString
      else if Ascii.eqb c "<" then (flush run ++ text_runs rest true EmptyString)%list
      else text_runs rest false (run ++ String c EmptyString)
  end.

Definition email : EmailLib := {|
  parsebytes := parse_entity 4;
  parsedate_to_datetime := parsedate;
  bytes_decode := decode;
  handle_data_calls := fun html => text_runs html false EmptyString
|}.

End reference.

(** ** Sample configurations *)
Module sample.

Definition world : World :=
  {| objects := []; model_requests := []; topic := []; webhook := [] |}.

Definition noon : datetime.t := datetime.mk 2024 1 2 12 0 0 0 (Some 32400).

(** An analyzer whose model answers every prompt with [completion]. *)
Definition analyzer (completion : string) : analyze_emails.Env :=
  {| analyze_emails.json_email_path := "json_emails/";
     analyze_emails.now := noon;
     analyze_emails.prompt_template :=
       fun emails => "Summarize " ++ str_int (Z.of_nat (List.length emails)) ++ " emails";
     analyze_emails.model := fun _ => Ok completion |}.

(** The extractor configured for a zone nine hours east, on a UTC host. *)
Definition extractor : email_parser.Env :=
  {| email_parser.raw_email_path := "raw_emails/";
     email_parser.json_email_path := "json_emails/";
     email_parser.timezone := fun _ => 32400;
     email_parser.host_zone := fun _ => 0 |}.

(** Raw messages. *)
Definition line (s : string) : string := s ++ reference.CRLF.

Definition plain_message : string :=
  line "Date: Mon, 01 Jan 2024 10:00:00 +0900" ++
  line "Subject: hi" ++
  line "From: a@example.com" ++
  line "Content-Type: text/plain; charset=utf-8" ++
  line EmptyString ++
  "hello".

Definition undated_message : string :=
  line "Subject: hi" ++
  line "Content-Type: text/plain; charset=utf-8" ++
  line EmptyString ++
  "hello".

Definition multipart_after (date_lines first second : string) : string :=
  date_lines ++
  line "Subject: hi" ++
  line "Content-Type: multipart/alternative; boundary=B" ++
  line EmptyString ++
  line "--B" ++ first ++ line "--B" ++ second ++ line "--B--".

Definition multipart (first second : string) : string :=
  multipart_after (line "Date: Mon, 01 Jan 2024 10:00:00 +0900") first second.

Definition part (content_type body : string) : string :=
  line ("Content-Type: " ++ content_type) ++ line EmptyString ++ line body.

(** Two markup parts, both with a charset. *)
Definition two_html : string :=
  multipart (part "text/html; charset=utf-8" "<p>a</p>")
            (part "text/html; charset=utf-8" "<b>x</b>").

(** Two markup parts, the first without a charset. *)
Definition two_html_bare : string :=
  multipart (part "text/html" "<p>a</p>")
            (part "text/html; charset=utf-8" "<b>x</b>").

(** Two markup parts with a charset, in a message without a date. *)
Definition two_html_undated : string :=
  multipart_after EmptyString
    (part "text/html; charset=utf-8" "<p>a</p>")
    (part "text/html; charset=utf-8" "<b>x</b>").



(** A world whose bucket holds one raw message. *)
Definition inbox (email_id raw : string) : World :=
  {| objects := [(email_parser.raw_key extractor email_id, raw)];
     model_requests := []; topic := []; webhook := [] |}.

(** Records of 1 January 2024 and a bucket holding a thousand of them,
    under the ids [0000] to [0999]. *)
Definition record (email_id : string) : email_parser.Email.t :=
  email_parser.Email.mk email_id (Some "hi") (Some "a@example.com")
    (datetime.mk 2024 1 1 10 0 0 0 (Some 32400)) "hello".

Definition stored (r : email_parser.Email.t) : string * string :=
  (email_parser.json_key extractor r,
   json_dumps (JsonCodec := reference.json) (email_parser.json_document r)).

Definition full_day : World :=
  {| objects := map (fun i => stored (record (zfill 4 (Z.of_nat i)))) (seq 0 1000);
     model_requests := []; topic := []; webhook := [] |}.

(** A message whose only part is an attachment, and one whose text sits
    one level down, inside a nested multipart part. *)
Definition attachment_only : string :=
  multipart (part "application/pdf" "JVBERi0=") (part "image/png" "iVBORw0=").

Definition nested_text : EmailMessage :=
  MkEmailMessage (Some "hi") None (Some "Mon, 01 Jan 2024 10:00:00 +0900")
    "multipart/mixed" None
    (Parts [MkEmailMessage None None None "multipart/alternative" None
              (Parts [MkEmailMessage None None None "text/plain" (Some "utf-8")
                        (Body "plain")]);
            MkEmailMessage None None None "application/pdf" None (Body "JVBERi0=")]).

(** A world whose bucket holds two raw messages. *)
Definition inbox2 (id1 raw1 id2 raw2 : string) : World :=
  {| objects := s3.put_object (email_parser.raw_key extractor id1) raw1
                  (s3.put_object (email_parser.raw_key extractor id2) raw2 []);
     model_requests := []; topic := []; webhook := [] |}.

(** An analyzer whose model call fails. *)
Definition failing_analyzer : analyze_emails.Env :=
  {| analyze_emails.json_email_path := "json_emails/";
     analyze_emails.now := noon;
     analyze_emails.prompt_template :=
       fun emails => "Summarize " ++ str_int (Z.of_nat (List.length emails)) ++ " emails";
     analyze_emails.model := fun _ => Raise (TransportError "timed out") |}.

(** A day with two stored records. *)
Definition two_records : World :=
  {| objects := [stored (record "a"); stored (record "b")];
     model_requests := []; topic := []; webhook := [] |}.

(** A day with a stored record and an object that is not UTF-8. *)
Definition undecodable_day : World :=
  {| objects := [stored (record "a");
                 ("json_emails/2024/1/1/b.json", String "255" "{}")];
     model_requests := []; topic := []; webhook := [] |}.

(** A day with a stored record and an object that is not JSON. *)
Definition damaged_day : World :=
  {| objects := [stored (record "a");
                 ("json_emails/2024/1/1/b.json", "{not json")];
     model_requests := []; topic := []; webhook := [] |}.


(** A message sent in the evening, UTC. *)
Definition late_message : string :=
  line "Date: Mon, 01 Jan 2024 20:00:00 +0000" ++
  line "Subject: hi" ++
  line "From: a@example.com" ++
  line "Content-Type: text/plain; charset=utf-8" ++
  line EmptyString ++
  "hello".

(** A completion carrying one summary: the JSON text of the array,
    without the bracket the request prefills. *)
Definition greeting : slack_notification.EmailSummary.t :=
  slack_notification.EmailSummary.mk "Hello" "2024-01-01T10:00:00+09:00"
    "a@example.com" "A greeting.".

Definition greeting_object : pyobj :=
  PyDict [("subject", PyStr "Hello"); ("date", PyStr "2024-01-01T10:00:00+09:00");
          ("from", PyStr "a@example.com"); ("summary", PyStr "A greeting.")].

Definition greeting_completion : string :=
  match json_dumps (JsonCodec := reference.json) (PyList [greeting_object]) with
  | String _ rest => rest
  | EmptyString => EmptyString
  end.

End sample.

(** ** Vocabulary of the statements *)

Definition is_dict (e : pyobj) : bool :=
  match e with
  | PyDict _ => true
  | _ => false
  end.

Definition has_key (k : string) (e : pyobj) : bool :=
  match e with
  | PyDict items =>
      match dict_get k items with
      | Some _ => true
      | None => false
      end
  | _ => false
  end.

(** An object carrying the four fields the summarizer reads. *)
Definition carries_fields (e : pyobj) : bool :=
  (has_key "subject" e && has_key "date" e && has_key "from" e && has_key "summary" e)%bool.

(** An object that lacks one of them. *)
Definition lacks_field (e : pyobj) : Prop :=
  is_dict e = true /\ carries_fields e = false.

Definition Failure (reason : string) : analyze_emails.Message.t :=
  analyze_emails.Message.mk false [] (Some reason).

(** The shape of an outcome payload, the sender's key being [from_key]:
    a dict with the boolean [success] and, when it is true, [emails] (a
    list of dicts with exactly the four keys) and no [error]; when it is
    false, [error] and no [emails]. *)
Definition summary_keys (from_key : string) : list string :=
  ["subject"; "date"; from_key; "summary"].

Definition is_summary_object (from_key : string) (e : pyobj) : Prop :=
  exists items, e = PyDict items /\ dict_keys items = summary_keys from_key.

Definition outcome_payload (from_key : string) (payload : pyobj) : Prop :=
  exists items b,
    payload = PyDict items /\
    dict_get "success" items = Some (PyBool b) /\
    (b = true ->
       (exists l, dict_get "emails" items = Some (PyList l) /\
                  Forall (is_summary_object from_key) l) /\
       dict_get "error" items = None) /\
    (b = false ->
       dict_get "error" items <> None /\ dict_get "emails" items = None).

(** What the summarizer handed back in a run of the daily handler, when
    the run reached it and it returned. *)
Definition summarizer_result {J : JsonCodec} {I : IsoParser}
  (env : analyze_emails.Env) (path_override : option string) (w : World)
  : option analyze_emails.Message.t :=
  let path := analyze_emails.event_path env path_override in
  match path with
  | Raise _ => None
  | Ok p =>
      match analyze_emails.get_emails p w with
      | (Ok (e :: es), w1) =>
          match analyze_emails.request_message env
                  (analyze_emails.generate_user_prompt env (e :: es)) w1 with
          | (Ok m, _) => Some m
          | (Raise _, _) => None
          end
      | _ => None
      end
  end.

Definition publishable (m : analyze_emails.Message.t) : bool :=
  (negb (analyze_emails.Message.success m) ||
   match analyze_emails.Message.emails m with [] => false | _ :: _ => true end)%bool.

(** A part the scan passes on its way to a later one: it is not plain
    text, and when it is markup it decodes. *)
Definition passable {L : EmailLib} (p : EmailMessage) : Prop :=
  email_parser.get_content_type p <> "text/plain" /\
  (email_parser.get_content_type p = "text/html" ->
   returns (email_parser.decoded_text p)).

(** The wall clock, in seconds, that the configured zone shows at the
    instant of [d]; and whether that instant lies in the supported years
    both as it is and on that wall clock. *)
Definition zone_offset (env : email_parser.Env) (d : datetime.t) : Z :=
  email_parser.timezone env (datetime.utc_seconds (email_parser.host_zone env) d).

Definition zone_wall (env : email_parser.Env) (d : datetime.t) : Z :=
  datetime.utc_seconds (email_parser.host_zone env) d + zone_offset env d.

Definition convertible (env : email_parser.Env) (d : datetime.t) : bool :=
  (datetime.representable (datetime.utc_seconds (email_parser.host_zone env) d) &&
   datetime.representable (zone_wall env d))%bool.

(** An object of the bucket that the daily handler can read back as a
    record. *)
Definition stored_record {J : JsonCodec} {I : IsoParser} (b : s3.bucket) (key : string)
  : Prop :=
  exists body text v e,
    s3.lookup key b = Some body /\
    bytes_decode_utf8 body = Ok text /\
    json_loads text = Some v /\
    analyze_emails.Email_of_json v = Ok e.

(** The record the daily handler reads for a record the extractor wrote. *)
Definition read_back (r : email_parser.Email.t) : analyze_emails.Email.t :=
  analyze_emails.Email.mk
    (PyStr (email_parser.Email.id r))
    (pyopt (email_parser.Email.subject r))
    (pyopt (email_parser.Email.from_ r))
    (email_parser.Email.date r)
    (PyStr (email_parser.Email.body r)).

(** The body of the loop of [get_emails]: reading one listed object. *)
Definition read_object {J : JsonCodec} {I : IsoParser} (b : s3.bucket) (key : string)
  : M analyze_emails.Email.t :=
  (response <- lift (s3.get_object b key) ;;
   text <- lift (bytes_decode_utf8 response) ;;
   email_json <- lift (match json_loads text with
                       | Some v => Ok v
                       | None => Raise JSONDecodeError
                       end) ;;
   lift (analyze_emails.Email_of_json email_json))%M.

(** The handler listed [n] records and none carries the id [email_id]. *)
Definition lists_without (email_id : string) (n : nat)
  (r : result (list analyze_emails.Email.t)) : bool :=
  match r with
  | Ok emails =>
      (Nat.eqb (List.length emails) n &&
       forallb (fun e => match analyze_emails.Email.id e with
                         | PyStr s => negb (String.eqb s email_id)
                         | _ => true
                         end) emails)%bool
  | Raise _ => false
  end.

(** [P] holds of the [k] integers from [z] on. *)
Fixpoint all_from (k : nat) (z : Z) (P : Z -> bool) : bool :=
  match k with
  | O => true
  | S k' => (P z && all_from k' (z + 1) P)%bool
  end.

(** Month and day computed for day [n] of a year are a calendar date
    with [n] days of the year before it. *)
Definition month_day_ok (leapyear : bool) (n : Z) : bool :=
  let '(m, d) := datetime.month_day leapyear n in
  ((1 <=? m)%Z && (m <=? 12)%Z && (1 <=? d)%Z &&
   (d <=? match m with
          | 2 => if leapyear then 29 else 28
          | 4 | 6 | 9 | 11 => 30
          | _ => 31
          end)%Z &&
   (datetime.days_before_month_table m +
    (if ((2 <? m)%Z && leapyear)%bool then 1 else 0) + d =? n + 1)%Z)%bool.

(** ** [Message.from_dict] of [src/lambda/slack_notification/index.py]

    What the notifier builds from the decoded JSON of a topic message.
    On the way in the fields hold whatever values the document held. *)
Module received.

Record EmailSummary : Type := mkEmailSummary {
  subject : pyobj; date : pyobj; from_ : pyobj; summary : pyobj
}.

Record Message : Type := mkMessage {
  success : pyobj; emails : list EmailSummary; error : pyobj
}.

Definition field_names : list string := ["subject"; "date"; "from_"; "summary"].

(** The call [EmailSummary( **email )]: [email] has to be a mapping whose
    keys are the four field names, no fewer and no others. *)
Definition EmailSummary_of_kwargs (email : pyobj) : result EmailSummary :=
  match email with
  | PyDict items =>
      if forallb (fun k => existsb (String.eqb k) field_names) (dict_keys items) then
        match dict_get "subject" items, dict_get "date" items,
              dict_get "from_" items, dict_get "summary" items with
        | Some s, Some d, Some f, Some y => Ok (mkEmailSummary s d f y)
        | _, _, _, _ => Raise TypeError
        end
      else Raise TypeError
  | _ => Raise TypeError
  end.

(** [d.get(k, default)] on a dict. *)
Definition dict_get_default (k : string) (default : pyobj) (d : pyobj) : pyobj :=
  match d with
  | PyDict items =>
      match dict_get k items with
      | Some v => v
      | None => default
      end
  | _ => default
  end.

Definition from_dict (d : pyobj) : result Message :=
  (let? success := getitem d "success" in
   let? elements := iter (dict_get_default "emails" (PyList []) d) in
   let? emails := mapM EmailSummary_of_kwargs elements in
   Ok (mkMessage success emails (dict_get_default "error" PyNone d)))%result.

Definition as_string (v : pyobj) : option string :=
  match v with
  | PyStr s => Some s
  | _ => None
  end.

Definition typed_summary (e : EmailSummary) : option slack_notification.EmailSummary.t :=
  match as_string (subject e), as_string (date e), as_string (from_ e),
        as_string (summary e) with
  | Some s, Some d, Some f, Some y => Some (slack_notification.EmailSummary.mk s d f y)
  | _, _, _, _ => None
  end.

Fixpoint typed_summaries (l : list EmailSummary)
  : option (list slack_notification.EmailSummary.t) :=
  match l with
  | [] => Some []
  | e :: rest =>
      match typed_summary e, typed_summaries rest with
      | Some t, Some ts => Some (t :: ts)
      | _, _ => None
      end
  end.

(** The message as the dataclass annotations describe it, when the
    received values are of the annotated types. *)
Definition typed (m : Message) : option slack_notification.Message.t :=
  match success m, typed_summaries (emails m) with
  | PyBool b, Some es =>
      match error m with
      | PyNone => Some (slack_notification.Message.mk b es None)
      | PyStr e => Some (slack_notification.Message.mk b es (Some e))
      | _ => None
      end
  | _, _ => None
  end.

End received.

(** The received form of a summary the analyzer built. *)
Definition received_summary (e : analyze_emails.EmailSummary.t) : received.EmailSummary :=
  received.mkEmailSummary
    (analyze_emails.EmailSummary.subject e) (analyze_emails.EmailSummary.date e)
    (analyze_emails.EmailSummary.from_ e) (analyze_emails.EmailSummary.summary e).

(** One object of an array read as a summary: its values under the four
    keys. *)
Definition summary_of_object (e : pyobj) (s : analyze_emails.EmailSummary.t) : Prop :=
  getitem e "subject" = Ok (analyze_emails.EmailSummary.subject s) /\
  getitem e "date" = Ok (analyze_emails.EmailSummary.date s) /\
  getitem e "from" = Ok (analyze_emails.EmailSummary.from_ s) /\
  getitem e "summary" = Ok (analyze_emails.EmailSummary.summary s).

(** An object of the array whose values under the four keys are the
    strings of [e], and the summary the analyzer builds from it. *)
Definition string_fields (v : pyobj) (e : slack_notification.EmailSummary.t) : Prop :=
  getitem v "subject" = Ok (PyStr (slack_notification.EmailSummary.subject e)) /\
  getitem v "date" = Ok (PyStr (slack_notification.EmailSummary.date e)) /\
  getitem v "from" = Ok (PyStr (slack_notification.EmailSummary.from_ e)) /\
  getitem v "summary" = Ok (PyStr (slack_notification.EmailSummary.summary e)).

Definition summary_of_strings (e : slack_notification.EmailSummary.t)
  : analyze_emails.EmailSummary.t :=
  analyze_emails.EmailSummary.mk
    (PyStr (slack_notification.EmailSummary.subject e))
    (PyStr (slack_notification.EmailSummary.date e))
    (PyStr (slack_notification.EmailSummary.from_ e))
    (PyStr (slack_notification.EmailSummary.summary e)).

(** A string without a slash: one path component at most. *)
Fixpoint slash_free (s : string) : bool :=
  match s with
  | EmptyString => true
  | String c rest => (negb (Ascii.eqb c pathlib.slash) && slash_free rest)%bool
  end.

(** A stored document the daily handler turns into a record. *)
Definition record_document {I : IsoParser} (v : pyobj) : Prop :=
  exists items date_text,
    v = PyDict items /\
    dict_get "id" items <> None /\ dict_get "subject" items <> None /\
    dict_get "from" items <> None /\ dict_get "body" items <> None /\
    dict_get "date" items = Some (PyStr date_text) /\
    fromisoformat date_text <> None.

(** * Theorems *)

(** ** The summarizer *)

Section Summarizer.
Context {J : JsonCodec}.
Import analyze_emails.

Lemma EmailSummary_of_carries (e : pyobj) :
  carries_fields e = true -> exists s, EmailSummary_of e = Ok s.
Proof.
  destruct e; try discriminate.
  unfold carries_fields, has_key, EmailSummary_of, getitem; simpl.
  destruct (dict_get "subject" items); try discriminate.
  destruct (dict_get "date" items); try discriminate.
  destruct (dict_get "from" items); try discriminate.
  destruct (dict_get "summary" items); try discriminate.
  intros _; eexists; reflexivity.
Qed.

Lemma EmailSummary_of_lacks (e : pyobj) :
  lacks_field e -> exists k, EmailSummary_of e = Raise (KeyError k).
Proof.
  intros [Hd Hc]. destruct e; try discriminate.
  revert Hc. unfold carries_fields, has_key, EmailSummary_of, getitem; simpl.
  destruct (dict_get "subject" items); [| intros _; eexists; reflexivity].
  destruct (dict_get "date" items); [| intros _; eexists; reflexivity].
  destruct (dict_get "from" items); [| intros _; eexists; reflexivity].
  destruct (dict_get "summary" items); [discriminate | intros _; eexists; reflexivity].
Qed.

Lemma EmailSummary_of_not_dict (e : pyobj) :
  is_dict e = false -> EmailSummary_of e = Raise TypeError.
Proof. destruct e; try discriminate; reflexivity. Qed.

Lemma mapM_first_raise {A B} (f : A -> result B) pre x post err :
  Forall (fun a => exists b, f a = Ok b) pre ->
  f x = Raise err ->
  mapM f (pre ++ x :: post)%list = Raise err.
Proof.
  induction 1 as [| a pre [b Hb] _ IH]; intros Hx; simpl.
  - rewrite Hx. reflexivity.
  - rewrite Hb, (IH Hx). reflexivity.
Qed.

Lemma carried_prefix (pre : list pyobj) :
  Forall (fun e => carries_fields e = true) pre ->
  Forall (fun e => exists s, EmailSummary_of e = Ok s) pre.
Proof. intros H; eapply Forall_impl; [| exact H]. apply EmailSummary_of_carries. Qed.

Lemma request_message_unfold env prompt w text :
  model env prompt = Ok text ->
  request_message env prompt w =
    (parse_response ("[" ++ text), add_model_request prompt w).
Proof.
  intros H. unfold request_message, bind, create, lift. rewrite H. reflexivity.
Qed.

End Summarizer.

(** C2, amended.  The reconstructed text is the forced prefix followed by
    the completion.  When it is not valid JSON, or when it is an array
    whose first element that does not carry the four fields is an object
    lacking one of them, [request_message] returns the failure whose
    reason is exactly ["Failed to parse response: "] followed by the
    whole reconstructed text, with an empty list of items. *)
Theorem request_message_failure {J : JsonCodec}
  (env : analyze_emails.Env) (prompt : string) (w : World) (completion : string) :
  analyze_emails.model env prompt = Ok completion ->
  (json_loads ("[" ++ completion) = None \/
   exists pre e post,
     json_loads ("[" ++ completion) = Some (PyList (pre ++ e :: post)%list) /\
     Forall (fun x => carries_fields x = true) pre /\
     lacks_field e) ->
  analyze_emails.request_message env prompt w =
    (Ok (Failure ("Failed to parse response: " ++ "[" ++ completion)),
     add_model_request prompt w).
Proof.
  intros Hm Hcase. rewrite (request_message_unfold _ _ _ Hm).
  f_equal. unfold analyze_emails.parse_response, analyze_emails.email_summaries.
  destruct Hcase as [Hnone | (pre & e & post & Hsome & Hpre & Hlack)].
  - rewrite Hnone. reflexivity.
  - rewrite Hsome. simpl.
    destruct (EmailSummary_of_lacks Hlack) as [k Hk].
    rewrite (mapM_first_raise _ _ post (carried_prefix Hpre) Hk). reflexivity.
Qed.

Lemma request_message_failure_witness :
  analyze_emails.request_message (J := reference.json) (sample.analyzer "{bad json")
    "prompt" sample.world =
    (Ok (Failure "Failed to parse response: [{bad json"),
     add_model_request "prompt" sample.world)
  /\
  analyze_emails.request_message (J := reference.json)
    (sample.analyzer "{}]") "prompt" sample.world =
    (Ok (Failure "Failed to parse response: [{}]"),
     add_model_request "prompt" sample.world).
Proof.
  split.
  - apply (@request_message_failure reference.json (sample.analyzer "{bad json")
             "prompt" sample.world "{bad json").
    + reflexivity.
    + left. vm_compute. reflexivity.
  - apply (@request_message_failure reference.json (sample.analyzer "{}]")
             "prompt" sample.world "{}]").
    + reflexivity.
    + right. exists [], (PyDict []), []. vm_compute. repeat split; constructor.
Defined.

(** C2 as stated fails: in [[1, {}]] the second element is an object
    lacking every field, yet the number before it makes the call end in
    [TypeError] instead of returning a failure. *)
Lemma request_message_failure_counterexample :
  json_loads (JsonCodec := reference.json) ("[" ++ "1, {}]") =
    Some (PyList [PyInt 1; PyDict []]) /\
  In (PyDict []) [PyInt 1; PyDict []] /\
  lacks_field (PyDict []) /\
  analyze_emails.request_message (J := reference.json) (sample.analyzer "1, {}]")
    "prompt" sample.world =
    (Raise TypeError, add_model_request "prompt" sample.world).
Proof.
  repeat split; try (vm_compute; reflexivity).
  right; left; reflexivity.
Qed.

Lemma mapM_raise_inv {A B} (f : A -> result B) (l : list A) (err : exn) :
  mapM f l = Raise err ->
  exists pre x post,
    l = (pre ++ x :: post)%list /\
    Forall (fun a => exists b, f a = Ok b) pre /\
    f x = Raise err.
Proof.
  induction l as [| a l IH]; simpl; [discriminate |].
  destruct (f a) as [b | e] eqn:Ha.
  - destruct (mapM f l) as [ys | e] eqn:Hl; [discriminate |].
    intros H; injection H as ->.
    destruct (IH eq_refl) as (pre & x & post & -> & Hpre & Hx).
    exists (a :: pre), x, post. repeat split; auto.
    constructor; eauto.
  - intros H; injection H as ->.
    exists [], a, l. repeat split; auto.
Qed.

Lemma EmailSummary_of_Ok_carries {J : JsonCodec} (e : pyobj) s :
  analyze_emails.EmailSummary_of e = Ok s -> carries_fields e = true.
Proof.
  destruct e; try discriminate.
  unfold carries_fields, has_key, analyze_emails.EmailSummary_of, getitem; simpl.
  destruct (dict_get "subject" items); try discriminate.
  destruct (dict_get "date" items); try discriminate.
  destruct (dict_get "from" items); try discriminate.
  destruct (dict_get "summary" items); try discriminate.
  reflexivity.
Qed.

Lemma EmailSummary_of_Raise {J : JsonCodec} (e : pyobj) err :
  analyze_emails.EmailSummary_of e = Raise err ->
  (err = TypeError /\ is_dict e = false) \/ ((exists k, err = KeyError k) /\ lacks_field e).
Proof.
  destruct e; try (intros H; injection H as <-; left; split; reflexivity).
  unfold lacks_field, carries_fields, has_key, analyze_emails.EmailSummary_of, getitem; simpl.
  destruct (dict_get "subject" items);
    [| intros H; injection H as <-; right; eauto].
  destruct (dict_get "date" items);
    [| intros H; injection H as <-; right; eauto].
  destruct (dict_get "from" items);
    [| intros H; injection H as <-; right; eauto].
  destruct (dict_get "summary" items);
    [discriminate | intros H; injection H as <-; right; eauto].
Qed.

(** C10, amended.  When the reconstructed text is a JSON array whose
    first element that does not carry the four fields is not an object,
    [request_message] returns no message: [TypeError] leaves the call.
    Conversely a returned failure comes from a parse error or from an
    object lacking a field that is the first such element: those two
    errors alone are turned into the failure outcome. *)
Theorem request_message_type_error {J : JsonCodec}
  (env : analyze_emails.Env) (prompt : string) (w : World) (completion : string) :
  analyze_emails.model env prompt = Ok completion ->
  (forall pre e post,
     json_loads ("[" ++ completion) = Some (PyList (pre ++ e :: post)%list) ->
     Forall (fun x => carries_fields x = true) pre ->
     is_dict e = false ->
     analyze_emails.request_message env prompt w =
       (Raise TypeError, add_model_request prompt w)) /\
  (forall m w',
     analyze_emails.request_message env prompt w = (Ok m, w') ->
     analyze_emails.Message.success m = false ->
     json_loads ("[" ++ completion) = None \/
     exists v pre e post,
       json_loads ("[" ++ completion) = Some v /\
       iter v = Ok (pre ++ e :: post)%list /\
       Forall (fun x => carries_fields x = true) pre /\
       lacks_field e).
Proof.
  intros Hm. split.
  - intros pre e post Hsome Hpre He.
    rewrite (request_message_unfold _ _ _ Hm). f_equal.
    unfold analyze_emails.parse_response, analyze_emails.email_summaries.
    rewrite Hsome. simpl.
    rewrite (mapM_first_raise _ _ post (carried_prefix Hpre) (EmailSummary_of_not_dict _ He)).
    reflexivity.
  - intros m w'. rewrite (request_message_unfold _ _ _ Hm).
    remember ("[" ++ completion) as text.
    intros H; injection H as Hp _. revert Hp.
    unfold analyze_emails.parse_response, analyze_emails.email_summaries.
    destruct (json_loads text) as [v |]; [| auto].
    intros Hp Hs. right. exists v.
    destruct (iter v) as [l | e] eqn:Hit; simpl in Hp.
    + destruct (mapM analyze_emails.EmailSummary_of l) as [ss | e] eqn:Hmap.
      * injection Hp as <-. discriminate Hs.
      * destruct (mapM_raise_inv _ _ Hmap) as (pre & x & post & -> & Hpre & Hx).
        exists pre, x, post. split; [reflexivity |]. split; [reflexivity |]. split.
        -- eapply Forall_impl; [| exact Hpre].
           intros a [b Hb]. exact (EmailSummary_of_Ok_carries _ Hb).
        -- destruct (EmailSummary_of_Raise _ Hx) as [[-> _] | [_ Hl]];
             [discriminate Hp | exact Hl].
    + destruct v; simpl in Hit; try discriminate Hit;
        injection Hit as <-; discriminate Hp.
Qed.

Lemma request_message_type_error_witness :
  analyze_emails.request_message (J := reference.json) (sample.analyzer "1]")
    "prompt" sample.world =
    (Raise TypeError, add_model_request "prompt" sample.world).
Proof.
  apply (proj1 (@request_message_type_error reference.json (sample.analyzer "1]")
                  "prompt" sample.world "1]" eq_refl) [] (PyInt 1) []).
  - vm_compute. reflexivity.
  - constructor.
  - reflexivity.
Defined.

(** C10 as stated fails: [[{}, 1]] is a JSON array holding the number 1,
    and the call returns a failure, because the empty object before the
    number already raised [KeyError]. *)
Lemma request_message_type_error_counterexample :
  json_loads (JsonCodec := reference.json) ("[" ++ "{}, 1]") =
    Some (PyList [PyDict []; PyInt 1]) /\
  In (PyInt 1) [PyDict []; PyInt 1] /\
  is_dict (PyInt 1) = false /\
  analyze_emails.request_message (J := reference.json) (sample.analyzer "{}, 1]")
    "prompt" sample.world =
    (Ok (Failure "Failed to parse response: [{}, 1]"),
     add_model_request "prompt" sample.world).
Proof.
  repeat split; try (vm_compute; reflexivity).
  right; left; reflexivity.
Qed.

(** ** The outcome payload *)

(** C4, amended.  The payload of every message has the boolean key
    [success] and exactly one of [emails] and [error]: with [emails],
    each element is an object whose keys are exactly [subject], [date],
    [from_] and [summary] (the dataclass field names); with [error],
    there is no [emails]. *)
Theorem asdict_outcome_payload (m : analyze_emails.Message.t) :
  outcome_payload "from_" (analyze_emails.Message.asdict m).
Proof.
  destruct m as [s es err]. unfold analyze_emails.Message.asdict; simpl.
  destruct s.
  - eexists _, true. split; [reflexivity |]. split; [reflexivity |]. split.
    + intros _. split; [| reflexivity].
      eexists. split; [reflexivity |].
      apply Forall_forall. intros x Hx. apply in_map_iff in Hx.
      destruct Hx as (e & <- & _). eexists. split; reflexivity.
    + discriminate.
  - eexists _, false. split; [reflexivity |]. split; [reflexivity |]. split.
    + discriminate.
    + intros _. split; [discriminate | reflexivity].
Qed.

(** C4 as stated fails: the elements are keyed by [from_], not [from]. *)
Lemma asdict_outcome_payload_counterexample :
  ~ outcome_payload "from"
      (analyze_emails.Message.asdict
         (analyze_emails.Message.mk true
            [analyze_emails.EmailSummary.mk (PyStr "Hello") (PyStr "2024-01-01T10:00:00+09:00")
               (PyStr "a@example.com") (PyStr "A greeting.")]
            None)).
Proof.
  intros (items & b & Heq & Hs & Ht & _).
  injection Heq as <-. simpl in Hs. injection Hs as <-.
  destruct (Ht eq_refl) as [(l & Hl & Hall) _].
  simpl in Hl. injection Hl as <-.
  inversion Hall as [| x xs (it & He & Hk) _]; subst.
  injection He as <-. discriminate Hk.
Qed.

(** ** The daily handler *)

Lemma forM_world {A B} (f : A -> M B) (l : list A) (w : World) :
  (forall x w0, snd (f x w0) = w0) -> snd (forM l f w) = w.
Proof.
  intros Hf. revert w. induction l as [| x l IH]; intros w; simpl; [reflexivity |].
  unfold bind. specialize (Hf x w). destruct (f x w) as [[y | e] w1]; simpl in Hf; subst w1.
  - specialize (IH w). destruct (forM l f w) as [[ys | e] w2]; simpl in IH; subst w2;
      reflexivity.
  - reflexivity.
Qed.

Lemma get_emails_world {J : JsonCodec} {I : IsoParser} (path : string) (w : World) :
  snd (analyze_emails.get_emails path w) = w.
Proof.
  unfold analyze_emails.get_emails.
  destruct (s3.Contents (s3.list_objects_v2 (objects w) path)); [| reflexivity].
  apply forM_world. intros key w0. unfold bind, lift.
  destruct (s3.get_object (objects w) key); [| reflexivity].
  destruct (bytes_decode_utf8 a) as [text |]; [| reflexivity].
  destruct (json_loads text); reflexivity.
Qed.

Lemma request_message_world {J : JsonCodec} env prompt (w : World) :
  snd (analyze_emails.request_message env prompt w) = add_model_request prompt w.
Proof.
  unfold analyze_emails.request_message, bind, analyze_emails.create, lift.
  destruct (analyze_emails.model env prompt); reflexivity.
Qed.

(** C5.  A run of the daily handler adds to the topic exactly the payload
    of the message the summarizer returned, and only when that message is
    a failure or a success with at least one item; a success without
    items, and a run in which the summarizer returned nothing, publish
    nothing. *)
Theorem lambda_handler_publishes {J : JsonCodec} {I : IsoParser}
  (env : analyze_emails.Env) (path_override : option string) (w : World) :
  topic (snd (analyze_emails.lambda_handler env path_override w)) =
    (topic w ++
     match summarizer_result env path_override w with
     | Some m =>
         if publishable m then [json_dumps (analyze_emails.Message.asdict m)] else []
     | None => []
     end)%list
  /\
  (forall m,
     publishable m = true <->
     analyze_emails.Message.success m = false \/
     (analyze_emails.Message.success m = true /\ analyze_emails.Message.emails m <> [])).
Proof.
  split.
  - unfold analyze_emails.lambda_handler, summarizer_result, bind, lift.
    destruct (analyze_emails.event_path env path_override) as [p | e];
      [| simpl; now rewrite app_nil_r].
    pose proof (get_emails_world p w) as Hw.
    destruct (analyze_emails.get_emails p w) as [[[| e es] | err] w1];
      simpl in Hw; subst w1; simpl; try now rewrite app_nil_r.
    pose proof (request_message_world env
                  (analyze_emails.generate_user_prompt env (e :: es)) w) as Hr.
    destruct (analyze_emails.request_message env
                (analyze_emails.generate_user_prompt env (e :: es)) w) as [[m | err] w2];
      simpl in Hr; subst w2; simpl; [| now rewrite app_nil_r].
    unfold publishable, analyze_emails.send_to_topic, ret.
    destruct (analyze_emails.Message.success m), (analyze_emails.Message.emails m);
      simpl; try reflexivity; now rewrite app_nil_r.
  - intros m. unfold publishable.
    destruct (analyze_emails.Message.success m), (analyze_emails.Message.emails m);
      simpl; split; intros H; auto; try discriminate.
    + destruct H as [H | [_ H]]; [discriminate | now elim H].
    + right. split; [reflexivity | discriminate].
Qed.

(** C1, on the code.  When no key of the bucket starts with the day's
    path the listing has no [Contents] entry, and the handler ends in
    [KeyError] before its guard on the empty list is reached; nothing is
    sent to the model or the topic. *)
Theorem lambda_handler_empty_partition {J : JsonCodec} {I : IsoParser}
  (env : analyze_emails.Env) (path_override : option string) (path : string) (w : World) :
  analyze_emails.event_path env path_override = Ok path ->
  s3.matching (objects w) path = [] ->
  analyze_emails.lambda_handler env path_override w = (Raise (KeyError "Contents"), w).
Proof.
  intros Hp Hm.
  unfold analyze_emails.lambda_handler, bind, lift. rewrite Hp.
  unfold analyze_emails.get_emails, s3.list_objects_v2. rewrite Hm. reflexivity.
Qed.

Lemma lambda_handler_empty_partition_witness :
  analyze_emails.lambda_handler (J := reference.json) (I := reference.iso)
    (sample.analyzer "]") None sample.world =
    (Raise (KeyError "Contents"), sample.world).
Proof.
  apply (@lambda_handler_empty_partition reference.json reference.iso
           (sample.analyzer "]") None "json_emails/2024/1/1/" sample.world).
  - vm_compute. reflexivity.
  - reflexivity.
Defined.

(** ** The renderer *)

Section Renderer.
Context {I : IsoParser}.
Import slack_notification.

Lemma email_blocks_returns (email : EmailSummary.t) :
  returns (email_blocks email) <-> fromisoformat (EmailSummary.date email) <> None.
Proof.
  unfold email_blocks, returns.
  destruct (fromisoformat (EmailSummary.date email)); split.
  - discriminate.
  - intros _. eexists; reflexivity.
  - intros [a H]; discriminate.
  - intros H; now elim H.
Qed.

Lemma append_blocks_returns (emails : list EmailSummary.t) (blocks : list pyobj) :
  returns (append_blocks blocks emails) <->
  Forall (fun e => fromisoformat (EmailSummary.date e) <> None) emails.
Proof.
  revert blocks. induction emails as [| e es IH]; intros blocks; simpl.
  - split; [constructor | intros _; eexists; reflexivity].
  - pose proof (email_blocks_returns e) as He.
    destruct (email_blocks e) as [bs | err].
    + rewrite IH. split.
      * intros H. constructor; [apply He; eexists; reflexivity | exact H].
      * intros H. now inversion H.
    + split.
      * intros [a H]; discriminate.
      * intros H. inversion H as [| ? ? Hd _]; subst.
        apply He in Hd. destruct Hd; discriminate.
Qed.

Lemma append_blocks_raises (emails : list EmailSummary.t) (blocks : list pyobj) err :
  append_blocks blocks emails = Raise err -> err = ValueError "Invalid isoformat string".
Proof.
  revert blocks. induction emails as [| e es IH]; intros blocks; simpl; [discriminate |].
  unfold email_blocks at 1.
  destruct (fromisoformat (EmailSummary.date e)).
  - apply IH.
  - intros H; injection H as <-. reflexivity.
Qed.

End Renderer.

(** The handler posts what [render] returns, and posts nothing when
    [render] raises. *)
Lemma handle_render {I : IsoParser} (message : slack_notification.Message.t) (w : World) :
  slack_notification.handle message w =
    match slack_notification.render message with
    | Ok payload => (Ok tt, add_webhook_post payload w)
    | Raise e => (Raise e, w)
    end.
Proof.
  unfold slack_notification.handle, slack_notification.render,
    slack_notification.send_email_summaries, slack_notification.send_error_message,
    slack_notification.post, bind, lift.
  destruct (slack_notification.Message.success message); [| reflexivity].
  destruct (slack_notification.generate_payload (slack_notification.Message.emails message));
    reflexivity.
Qed.

(** C3, amended.  Rendering a failure always returns the alert payload.
    Rendering a success returns a payload exactly when every item's date
    is a string [datetime.fromisoformat] accepts; otherwise it raises
    [ValueError].  The subject, sender and summary strings are
    unconstrained. *)
Theorem render_returns {I : IsoParser} (message : slack_notification.Message.t) :
  (slack_notification.Message.success message = false ->
   slack_notification.render message =
     Ok (slack_notification.error_payload
           (slack_notification.error_or_default (slack_notification.Message.error message))))
  /\
  (slack_notification.Message.success message = true ->
   (returns (slack_notification.render message) <->
    Forall (fun e => fromisoformat (slack_notification.EmailSummary.date e) <> None)
      (slack_notification.Message.emails message)) /\
   (forall err, slack_notification.render message = Raise err ->
                err = ValueError "Invalid isoformat string")).
Proof.
  unfold slack_notification.render, slack_notification.generate_payload.
  destruct (slack_notification.Message.success message); split; try discriminate.
  - intros _. split.
    + rewrite <- (append_blocks_returns _ [slack_notification.header_block]).
      unfold returns.
      destruct (slack_notification.append_blocks [slack_notification.header_block]
                  (slack_notification.Message.emails message)); split.
      * intros _. eexists; reflexivity.
      * intros _. eexists; reflexivity.
      * intros [a H]; discriminate.
      * intros [a H]; discriminate.
    + intros err.
      destruct (slack_notification.append_blocks [slack_notification.header_block]
                  (slack_notification.Message.emails message)) eqn:Hb; [discriminate |].
      intros H; injection H as <-. exact (append_blocks_raises _ _ Hb).
  - reflexivity.
Qed.

(** C3 as stated fails: a success whose item carries the date string
    [yesterday] is not rendered, the call ends in [ValueError]. *)
Lemma render_returns_counterexample :
  slack_notification.render (I := reference.iso)
    (slack_notification.Message.mk true
       [slack_notification.EmailSummary.mk "Hello" "yesterday" "a@example.com" "A greeting."]
       None) =
  Raise (ValueError "Invalid isoformat string").
Proof. vm_compute. reflexivity. Qed.

(** ** The extractor *)

Section Extractor.
Context {L : EmailLib}.
Import email_parser.

(** Parts that are neither plain text nor markup leave the selection as
    it is. *)
Lemma scan_parts_other (parts : list EmailMessage) (body : option string) :
  (forall p, In p parts ->
     get_content_type p <> "text/plain" /\ get_content_type p <> "text/html") ->
  scan_parts parts body = Ok body.
Proof.
  induction parts as [| p ps IH]; intros H; simpl; [reflexivity |].
  destruct (H p (or_introl eq_refl)) as [Hp Hh].
  apply String.eqb_neq in Hp. apply String.eqb_neq in Hh. rewrite Hp, Hh.
  apply IH. intros q Hq. apply H. right; exact Hq.
Qed.

Lemma scan_parts_passable (before rest : list EmailMessage) (body : option string) :
  Forall passable before ->
  exists body', scan_parts (before ++ rest)%list body = scan_parts rest body'.
Proof.
  intros H. revert body. induction H as [| p ps [Hp Hh] _ IH]; intros body; simpl.
  - exists body. reflexivity.
  - apply String.eqb_neq in Hp. rewrite Hp.
    destruct (String.eqb (get_content_type p) "text/html") eqn:E.
    + apply String.eqb_eq in E. destruct (Hh E) as [t Ht]. rewrite Ht. apply IH.
    + apply IH.
Qed.

Lemma scan_parts_html (before after : list EmailMessage) (last : EmailMessage)
  (text : string) (body : option string) :
  Forall passable before ->
  get_content_type last = "text/html" ->
  decoded_text last = Ok text ->
  (forall p, In p after ->
     get_content_type p <> "text/plain" /\ get_content_type p <> "text/html") ->
  scan_parts (before ++ last :: after)%list body = Ok (Some (strip_html text)).
Proof.
  intros Hb Ht Hd Ha.
  destruct (scan_parts_passable (last :: after) body Hb) as [b' ->].
  simpl. rewrite Ht, Hd. simpl. apply scan_parts_other. exact Ha.
Qed.



End Extractor.

(** C6, amended.  For a multipart message without a plain-text part in
    which every markup part decodes under its declared charset, the body
    selection returns the stripped text of the last markup part in
    declaration order; and when such a message is stored with a date
    header that parses and converts to the configured zone, extraction
    returns the record with that body. *)
Theorem get_email_body_last_html {L : EmailLib}
  (message : EmailMessage) (before after : list EmailMessage)
  (last : EmailMessage) (text : string) :
  email_parser.payload message = Parts (before ++ last :: after)%list ->
  Forall passable before ->
  email_parser.get_content_type last = "text/html" ->
  email_parser.decoded_text last = Ok text ->
  (forall p, In p after ->
     email_parser.get_content_type p <> "text/plain" /\
     email_parser.get_content_type p <> "text/html") ->
  email_parser._get_email_body message = Ok (email_parser.strip_html text) /\
  (forall env email_id w raw value d local,
     s3.get_object (objects w) (email_parser.raw_key env email_id) = Ok raw ->
     parsebytes raw = message ->
     email_parser.date message = Some value ->
     parsedate_to_datetime value = Some d ->
     datetime.astimezone (email_parser.host_zone env) (email_parser.timezone env) d
       = Ok local ->
     email_parser.read_email env email_id w =
       (Ok (email_parser.Email.mk email_id
              (email_parser.subject message) (email_parser.from_ message)
              local (email_parser.strip_html text)),
        w)).
Proof.
  intros Hp Hb Ht Hd Ha.
  assert (Hbody : email_parser._get_email_body message =
                  Ok (email_parser.strip_html text)).
  { unfold email_parser._get_email_body, email_parser.is_multipart,
      email_parser.iter_parts.
    rewrite Hp. rewrite (@scan_parts_html _ before after last text None Hb Ht Hd Ha).
    reflexivity. }
  split; [exact Hbody |].
  intros env email_id w raw value d local Hraw Hparse Hv Hpd Hl.
  unfold email_parser.read_email. rewrite Hraw, Hparse.
  unfold email_parser._get_email_date. rewrite Hv, Hpd, Hl, Hbody. reflexivity.
Qed.

Lemma get_email_body_last_html_witness :
  email_parser._get_email_body (L := reference.email)
    (parsebytes (EmailLib := reference.email) sample.two_html) = Ok "x".
Proof.
  apply (proj1 (@get_email_body_last_html reference.email
           (parsebytes (EmailLib := reference.email) sample.two_html)
           [MkEmailMessage None None None "text/html" (Some "utf-8") (Body "<p>a</p>")]
           []
           (MkEmailMessage None None None "text/html" (Some "utf-8") (Body "<b>x</b>"))
           "<b>x</b>"
           ltac:(vm_compute; reflexivity)
           ltac:(constructor;
                 [split; [discriminate | intros _; exists "<p>a</p>"; vm_compute; reflexivity]
                 | constructor])
           eq_refl
           ltac:(vm_compute; reflexivity)
           ltac:(intros p []))).
Defined.

(** C6 as stated fails.  Both parts of the first message are markup, the
    last one decodes and strips to [x], and the selection ends in
    [TypeError] on the first part, which declares no charset.  The
    second message has two markup parts that decode and no date header:
    its extraction ends in the [ValueError] of the date. *)
Lemma get_email_body_last_html_counterexample :
  (email_parser.payload (parsebytes (EmailLib := reference.email) sample.two_html_bare) =
     Parts [MkEmailMessage None None None "text/html" None (Body "<p>a</p>");
            MkEmailMessage None None None "text/html" (Some "utf-8") (Body "<b>x</b>")] /\
   email_parser.strip_html (L := reference.email) "<b>x</b>" = "x" /\
   email_parser._get_email_body (L := reference.email)
     (parsebytes (EmailLib := reference.email) sample.two_html_bare) = Raise TypeError /\
   email_parser.read_email (L := reference.email) sample.extractor "m1"
     (sample.inbox "m1" sample.two_html_bare) =
     (Raise TypeError, sample.inbox "m1" sample.two_html_bare))
  /\
  (email_parser._get_email_body (L := reference.email)
     (parsebytes (EmailLib := reference.email) sample.two_html_undated) = Ok "x" /\
   email_parser.read_email (L := reference.email) sample.extractor "m1"
     (sample.inbox "m1" sample.two_html_undated) =
     (Raise (ValueError "Invalid date value or format"),
      sample.inbox "m1" sample.two_html_undated)).
Proof. repeat split; vm_compute; reflexivity. Qed.




(** ** Decimal text: printing and reading back *)

Lemma digit_char_is_digit (d : Z) : 0 <= d <= 9 -> is_digit (digit_char d) = true.
Proof.
  intros H.
  assert (Hd : d = 0 \/ d = 1 \/ d = 2 \/ d = 3 \/ d = 4 \/ d = 5 \/ d = 6 \/ d = 7 \/
               d = 8 \/ d = 9) by lia.
  repeat (destruct Hd as [-> | Hd]; [reflexivity |]). subst; reflexivity.
Qed.

Lemma digit_value_digit_char (d : Z) : 0 <= d <= 9 -> digit_value (digit_char d) = d.
Proof.
  intros H.
  assert (Hd : d = 0 \/ d = 1 \/ d = 2 \/ d = 3 \/ d = 4 \/ d = 5 \/ d = 6 \/ d = 7 \/
               d = 8 \/ d = 9) by lia.
  repeat (destruct Hd as [-> | Hd]; [reflexivity |]). subst; reflexivity.
Qed.

Lemma append_assoc (a b c : string) : (a ++ b) ++ c = a ++ (b ++ c).
Proof. induction a as [| x a IH]; simpl; [reflexivity | now rewrite IH]. Qed.

Lemma append_nil_r (a : string) : a ++ EmptyString = a.
Proof. induction a as [| x a IH]; simpl; [reflexivity | now rewrite IH]. Qed.

Lemma parse_digits_snoc (k : nat) (acc : Z) (s : string) :
  parse_digits (S k) acc s =
    match parse_digits k acc s with
    | Some (v, String c r) =>
        if is_digit c then Some (10 * v + digit_value c, r) else None
    | _ => None
    end.
Proof.
  revert acc s. induction k as [| k IH]; intros acc s.
  - simpl. destruct s as [| c r]; [reflexivity |]. destruct (is_digit c); reflexivity.
  - change (parse_digits (S (S k)) acc s) with
      (match s with
       | String c rest =>
           if is_digit c then parse_digits (S k) (10 * acc + digit_value c) rest else None
       | EmptyString => None
       end).
    destruct s as [| c rest]; [reflexivity |].
    simpl (parse_digits (S k) acc (String c rest)).
    destruct (is_digit c); [apply IH | reflexivity].
Qed.

Lemma parse_digits_zfill (k : nat) (n acc : Z) (rest : string) :
  0 <= n < 10 ^ Z.of_nat k ->
  parse_digits k acc (zfill k n ++ rest) = Some (acc * 10 ^ Z.of_nat k + n, rest).
Proof.
  revert n rest. induction k as [| k IH]; intros n rest Hn.
  - simpl in *. f_equal. f_equal. lia.
  - rewrite Nat2Z.inj_succ, Z.pow_succ_r in * by lia.
    rewrite parse_digits_snoc.
    change (zfill (S k) n) with
      (zfill k (n / 10) ++ String (digit_char (n mod 10)) EmptyString).
    rewrite append_assoc. simpl (String _ EmptyString ++ rest).
    rewrite IH by (split; [apply Z.div_pos; lia | apply Z.div_lt_upper_bound; lia]).
    assert (Hm : 0 <= n mod 10 <= 9) by (pose proof (Z.mod_pos_bound n 10); lia).
    rewrite (digit_char_is_digit Hm), (digit_value_digit_char Hm).
    f_equal. f_equal. pose proof (Z.div_mod n 10). lia.
Qed.

Lemma parse_digits_zfill0 (k : nat) (n : Z) (rest : string) :
  0 <= n < 10 ^ Z.of_nat k ->
  parse_digits k 0 (zfill k n ++ rest) = Some (n, rest).
Proof. intros H. rewrite (parse_digits_zfill _ 0 rest H). reflexivity. Qed.

(** ** The ISO text of a timestamp reads back as the timestamp *)

Section IsoRoundTrip.
Local Opaque zfill parse_digits.

Lemma parse2 (n : Z) (rest : string) :
  0 <= n < 100 -> parse_digits 2 0 (zfill 2 n ++ rest) = Some (n, rest).
Proof. intros H. apply parse_digits_zfill0. change (10 ^ Z.of_nat 2) with 100. lia. Qed.

Lemma parse4 (n : Z) (rest : string) :
  0 <= n < 10000 -> parse_digits 4 0 (zfill 4 n ++ rest) = Some (n, rest).
Proof. intros H. apply parse_digits_zfill0. change (10 ^ Z.of_nat 4) with 10000. lia. Qed.

Lemma parse6 (n : Z) (rest : string) :
  0 <= n < 1000000 -> parse_digits 6 0 (zfill 6 n ++ rest) = Some (n, rest).
Proof. intros H. apply parse_digits_zfill0. change (10 ^ Z.of_nat 6) with 1000000. lia. Qed.

Lemma iso_offset_format_offset (off : Z) :
  -86400 < off < 86400 ->
  reference.iso_offset (datetime.format_offset off) = Some (Some off).
Proof.
  intros H. unfold datetime.format_offset.
  assert (Ha : 0 <= Z.abs off < 86400) by lia.
  assert (Hh : 0 <= Z.abs off / 3600 < 24) by (Z.div_mod_to_equations; lia).
  assert (Hm : 0 <= Z.abs off mod 3600 / 60 < 60) by (Z.div_mod_to_equations; lia).
  assert (B3 : 0 <= Z.abs off mod 60 < 60) by (Z.div_mod_to_equations; lia).
  assert (Hsum : Z.abs off / 3600 * 3600 + Z.abs off mod 3600 / 60 * 60 + Z.abs off mod 60
                 = Z.abs off) by (Z.div_mod_to_equations; lia).
  set (hh := Z.abs off / 3600) in *.
  set (mm := Z.abs off mod 3600 / 60) in *.
  set (ss := Z.abs off mod 60) in *.
  assert (Hchk : ((hh <? 24)%Z && (mm <? 60)%Z && (ss <? 60)%Z)%bool = true).
  { rewrite !andb_true_iff, !Z.ltb_lt. lia. }
  destruct (off <? 0)%Z eqn:Hs;
    [apply Z.ltb_lt in Hs | apply Z.ltb_ge in Hs];
    simpl; rewrite parse2 by lia; simpl; rewrite parse2 by lia;
    destruct (ss =? 0)%Z eqn:Hz;
    [apply Z.eqb_eq in Hz | apply Z.eqb_neq in Hz | apply Z.eqb_eq in Hz | apply Z.eqb_neq in Hz];
    simpl.
  - rewrite Hz in *. rewrite Hchk. f_equal. f_equal. lia.
  - rewrite <- (append_nil_r (zfill 2 ss)), parse2 by lia. rewrite Hchk. f_equal. f_equal. lia.
  - rewrite Hz in *. rewrite Hchk. f_equal. f_equal. lia.
  - rewrite <- (append_nil_r (zfill 2 ss)), parse2 by lia. rewrite Hchk. f_equal. f_equal. lia.
Qed.

Lemma fields_ok_wf (d : datetime.t) :
  datetime.wf d ->
  datetime.fields_ok (datetime.year d) (datetime.month d) (datetime.day d)
    (datetime.hour d) (datetime.minute d) (datetime.second d) (datetime.microsecond d) = true.
Proof.
  unfold datetime.wf, datetime.fields_ok. intros H.
  rewrite !andb_true_iff, !Z.leb_le, !Z.ltb_lt. tauto.
Qed.

Lemma offset_head (off : option Z) (rest : string) :
  (match off with Some o => datetime.format_offset o | None => EmptyString end) =
    String "." rest -> False.
Proof.
  destruct off as [o |]; [| discriminate].
  unfold datetime.format_offset. destruct (o <? 0)%Z; discriminate.
Qed.

(** The reference parser inverts [isoformat] on every well-formed
    timestamp, naive or aware, with or without microseconds. *)
Lemma iso_parse_isoformat (d : datetime.t) :
  datetime.wf d -> reference.iso_parse (datetime.isoformat d) = Some d.
Proof.
  intros Hwf. pose proof (fields_ok_wf Hwf) as Hok.
  destruct d as [y m dd hh mm ss us off].
  unfold datetime.wf, datetime.MINYEAR, datetime.MAXYEAR in Hwf. simpl in Hwf, Hok.
  destruct Hwf as (Hy & Hm & Hd & Hh & Hmi & Hs & Hus & Hoff).
  assert (Hd' : 1 <= dd <= 31).
  { split; [lia |]. unfold datetime.days_in_month in Hd.
    destruct Hd as [_ Hd]. revert Hd.
    destruct m as [| [ [ [ [] | [] | ] | [ [] | [] | ] | ] | [ [ [] | [] | ] | [ [] | [] | ] | ] | ] |];
      try destruct (datetime.is_leap y); lia. }
  unfold reference.iso_parse, datetime.isoformat. simpl.
  rewrite parse4 by lia. simpl.
  rewrite parse2 by lia. simpl.
  rewrite parse2 by lia. simpl.
  rewrite parse2 by lia. simpl.
  rewrite parse2 by lia. simpl.
  rewrite parse2 by lia.
  assert (Hofs : reference.iso_offset
                   (match off with Some o => datetime.format_offset o | None => EmptyString end)
                 = Some off).
  { destruct off as [o |]; [apply iso_offset_format_offset; exact Hoff | reflexivity]. }
  destruct (us =? 0)%Z eqn:Hz.
  - apply Z.eqb_eq in Hz. subst us. simpl.
    destruct (match off with Some o => datetime.format_offset o | None => EmptyString end)
      as [| c r] eqn:Ho.
    + rewrite Hofs. rewrite Hok. reflexivity.
    + destruct (Ascii.eqb c ".") eqn:Hc.
      * apply Ascii.eqb_eq in Hc. subst c. exfalso. exact (offset_head _ Ho).
      * assert (Hr : match c with
                     | "."%char => parse_digits 6 0 r
                     | _ => Some (0, String c r)
                     end = Some (0, String c r)).
        { destruct c as [[] [] [] [] [] [] [] []]; try reflexivity. discriminate Hc. }
        rewrite Hr. rewrite Hofs. rewrite Hok. reflexivity.
  - simpl. rewrite parse6 by lia. rewrite Hofs. rewrite Hok. reflexivity.
Qed.

End IsoRoundTrip.

(** ** Paths: a key lies under its day's prefix *)

Lemma prefix_append (a b : string) : String.prefix a (a ++ b) = true.
Proof.
  induction a as [| c a IH]; simpl.
  - destruct b; reflexivity.
  - destruct (ascii_dec c c) as [_ | Hn]; [exact IH | now elim Hn].
Qed.

Lemma split_nonempty (s : string) : pathlib.split s <> [].
Proof.
  destruct s as [| c r]; simpl; [discriminate |].
  destruct (Ascii.eqb c pathlib.slash); [discriminate |].
  destruct (pathlib.split r); discriminate.
Qed.

Lemma split_append_slash (a b : string) :
  pathlib.split (a ++ String pathlib.slash b) = (pathlib.split a ++ pathlib.split b)%list.
Proof.
  induction a as [| c a IH]; simpl.
  - reflexivity.
  - destruct (Ascii.eqb c pathlib.slash).
    + rewrite IH. reflexivity.
    + rewrite IH. pose proof (split_nonempty a) as Hne.
      destruct (pathlib.split a) as [| p ps]; [now elim Hne | reflexivity].
Qed.

Lemma parts_append_slash (a b : string) :
  pathlib.parts (a ++ String pathlib.slash b) = (pathlib.parts a ++ pathlib.parts b)%list.
Proof. unfold pathlib.parts. rewrite split_append_slash. apply filter_app. Qed.

Lemma root_append (a b : string) :
  (3 <= String.length a)%nat -> pathlib.root (a ++ b) = pathlib.root a.
Proof.
  destruct a as [| x [| y [| z a]]]; simpl; intros H; try lia. reflexivity.
Qed.

Lemma concat_app (sep : string) (xs ys : list string) :
  xs <> [] -> ys <> [] ->
  String.concat sep (xs ++ ys)%list = String.concat sep xs ++ sep ++ String.concat sep ys.
Proof.
  intros Hx Hy. induction xs as [| x xs IH]; [now elim Hx |].
  destruct xs as [| x' xs].
  - simpl. destruct ys; [now elim Hy | reflexivity].
  - change (String.concat sep ((x :: x' :: xs) ++ ys)%list)
      with (x ++ sep ++ String.concat sep ((x' :: xs) ++ ys)%list).
    rewrite IH by discriminate.
    change (String.concat sep (x :: x' :: xs)) with (x ++ sep ++ String.concat sep (x' :: xs)).
    now rewrite !append_assoc.
Qed.

Lemma Path_str_parts (s : string) :
  pathlib.parts s <> [] ->
  pathlib.Path_str s = pathlib.root s ++ String.concat "/" (pathlib.parts s).
Proof.
  intros H. unfold pathlib.Path_str.
  destruct (pathlib.parts s); [now elim H |].
  destruct (pathlib.root s); reflexivity.
Qed.

(** A path extended by a slash and a tail that keeps a component prints
    as the path, a slash, and the tail's components. *)
Lemma Path_str_append (p t : string) :
  (3 <= String.length p)%nat ->
  pathlib.parts p <> [] -> pathlib.parts t <> [] ->
  pathlib.Path_str (p ++ String pathlib.slash t) =
    (pathlib.Path_str p ++ "/") ++ String.concat "/" (pathlib.parts t).
Proof.
  intros Hl Hp Ht.
  assert (Hne : pathlib.parts (p ++ String pathlib.slash t) <> []).
  { rewrite parts_append_slash. destruct (pathlib.parts p); [now elim Hp | discriminate]. }
  rewrite (@Path_str_parts _ Hne), (@Path_str_parts _ Hp).
  rewrite (@root_append p _ Hl), parts_append_slash.
  rewrite (@concat_app "/" _ _ Hp Ht).
  now rewrite !append_assoc.
Qed.

(** The file name of a record keeps a component, whatever the id. *)
Lemma parts_json_name (id : string) : pathlib.parts (id ++ ".json") <> [].
Proof.
  assert (H : exists p, In p (pathlib.split (id ++ ".json")) /\ pathlib.keep p = true).
  { induction id as [| c id IH].
    - exists ".json". split; [left; reflexivity | reflexivity].
    - destruct IH as (p & Hin & Hk). simpl.
      destruct (Ascii.eqb c pathlib.slash).
      + exists p. split; [right; exact Hin | exact Hk].
      + pose proof (split_nonempty (id ++ ".json")) as Hne.
        destruct (pathlib.split (id ++ ".json")) as [| p0 ps]; [now elim Hne |].
        destruct Hin as [<- | Hin].
        * exists (String c p0). split; [left; reflexivity |].
          destruct p0 as [| c0 r0]; [discriminate Hk |].
          unfold pathlib.keep. simpl.
          destruct (Ascii.eqb c "."); reflexivity.
        * exists p. split; [right; exact Hin | exact Hk]. }
  destruct H as (p & Hin & Hk). unfold pathlib.parts.
  intros Hnil.
  assert (Hf : In p (filter pathlib.keep (pathlib.split (id ++ ".json"))))
    by (apply filter_In; split; assumption).
  rewrite Hnil in Hf. exact Hf.
Qed.

(** The day of a well-formed date prints as one kept component. *)
Lemma day_component (d : Z) :
  1 <= d <= 31 -> pathlib.parts (str_int d) = [str_int d].
Proof.
  intros H.
  assert (Hd : d = 1 \/ d = 2 \/ d = 3 \/ d = 4 \/ d = 5 \/ d = 6 \/ d = 7 \/ d = 8 \/
               d = 9 \/ d = 10 \/ d = 11 \/ d = 12 \/ d = 13 \/ d = 14 \/ d = 15 \/
               d = 16 \/ d = 17 \/ d = 18 \/ d = 19 \/ d = 20 \/ d = 21 \/ d = 22 \/
               d = 23 \/ d = 24 \/ d = 25 \/ d = 26 \/ d = 27 \/ d = 28 \/ d = 29 \/
               d = 30 \/ d = 31) by lia.
  repeat (destruct Hd as [-> | Hd]; [reflexivity |]). subst; reflexivity.
Qed.

Lemma length_append (a b : string) :
  String.length (a ++ b) = (String.length a + String.length b)%nat.
Proof. induction a as [| c a IH]; simpl; [reflexivity | now rewrite IH]. Qed.

Lemma wf_day (d : datetime.t) : datetime.wf d -> 1 <= datetime.day d <= 31.
Proof.
  intros (_ & _ & Hd & _). split; [lia |].
  unfold datetime.days_in_month in Hd. destruct Hd as [_ Hd]. revert Hd.
  destruct (datetime.month d)
    as [| [ [ [ [] | [] | ] | [ [] | [] | ] | ] | [ [ [] | [] | ] | [ [] | [] | ] | ] | ] |];
    try destruct (datetime.is_leap (datetime.year d)); lia.
Qed.

(** The key [write_email] gives a record starts with the path the daily
    handler lists for the record's date. *)
Lemma json_key_under_day_prefix
  (penv : email_parser.Env) (aenv : analyze_emails.Env) (r : email_parser.Email.t) :
  analyze_emails.json_email_path aenv = email_parser.json_email_path penv ->
  datetime.wf (email_parser.Email.date r) ->
  String.prefix (analyze_emails.day_prefix aenv (email_parser.Email.date r))
    (email_parser.json_key penv r) = true.
Proof.
  intros Hpath Hwf. unfold analyze_emails.day_prefix, email_parser.json_key.
  rewrite Hpath.
  set (base := email_parser.json_email_path penv).
  set (y := str_int (datetime.year (email_parser.Email.date r))).
  set (m := str_int (datetime.month (email_parser.Email.date r))).
  set (d := str_int (datetime.day (email_parser.Email.date r))).
  set (p := base ++ "/" ++ y ++ "/" ++ m ++ "/" ++ d).
  replace (base ++ "/" ++ y ++ "/" ++ m ++ "/" ++ d ++ "/" ++ email_parser.Email.id r ++ ".json")
    with (p ++ String pathlib.slash (email_parser.Email.id r ++ ".json")).
  2:{ unfold p. rewrite !append_assoc. reflexivity. }
  assert (Hparts : pathlib.parts p <> []).
  { unfold p.
    replace (base ++ "/" ++ y ++ "/" ++ m ++ "/" ++ d)
      with ((base ++ "/" ++ y ++ "/" ++ m) ++ String pathlib.slash d)
      by (rewrite !append_assoc; reflexivity).
    rewrite parts_append_slash. unfold d. rewrite (@day_component _ (wf_day Hwf)).
    destruct (pathlib.parts (base ++ "/" ++ y ++ "/" ++ m)); discriminate. }
  assert (Hlen : (3 <= String.length p)%nat).
  { unfold p. rewrite !length_append. simpl. lia. }
  rewrite (@Path_str_append _ _ Hlen Hparts (@parts_json_name _)).
  apply prefix_append.
Qed.

(** ** The bucket *)

Lemma lookup_put_same (key body : string) (b : s3.bucket) :
  s3.lookup key (s3.put_object key body b) = Some body.
Proof.
  induction b as [| [k v] b IH]; simpl.
  - now rewrite String.eqb_refl.
  - destruct (String.compare key k) eqn:E; simpl.
    + now rewrite String.eqb_refl.
    + now rewrite String.eqb_refl.
    + destruct (String.eqb key k) eqn:E'; [| exact IH].
      apply String.eqb_eq in E'. subst k.
      pose proof (String.compare_antisym key key) as Ha. rewrite E in Ha. discriminate Ha.
Qed.

Lemma lookup_put_other (key body key' : string) (b : s3.bucket) :
  key' <> key -> s3.lookup key' (s3.put_object key body b) = s3.lookup key' b.
Proof.
  intros Hne. apply String.eqb_neq in Hne.
  induction b as [| [k v] b IH]; simpl.
  - now rewrite Hne.
  - destruct (String.compare key k) eqn:E; simpl.
    + apply String.compare_eq_iff in E. subst k. now rewrite Hne.
    + now rewrite Hne.
    + destruct (String.eqb key' k); [reflexivity | exact IH].
Qed.

Lemma keys_put (key body key' : string) (b : s3.bucket) :
  In key' (map fst (s3.put_object key body b)) <-> key' = key \/ In key' (map fst b).
Proof.
  induction b as [| [k v] b IH]; simpl.
  - intuition.
  - destruct (String.compare key k) eqn:E; simpl.
    + apply String.compare_eq_iff in E. subst k. intuition.
    + intuition.
    + rewrite IH. intuition.
Qed.

Lemma matching_put (key body prefix key' : string) (b : s3.bucket) :
  In key' (s3.matching (s3.put_object key body b) prefix) <->
  (key' = key /\ String.prefix prefix key = true) \/ In key' (s3.matching b prefix).
Proof.
  unfold s3.matching. rewrite !filter_In, keys_put. split.
  - intros [[-> | Hin] Hp]; [left | right]; auto.
  - intros [[-> Hp] | [Hin Hp]]; auto.
Qed.

Lemma forM_all_ok {A B} (f : A -> M B) (l : list A) (w : World) :
  (forall x, In x l -> exists y, f x w = (Ok y, w)) ->
  exists ys, forM l f w = (Ok ys, w) /\ Forall2 (fun x y => f x w = (Ok y, w)) l ys.
Proof.
  induction l as [| x l IH]; intros H; simpl.
  - exists []. split; [reflexivity | constructor].
  - destruct (H x (or_introl eq_refl)) as [y Hy].
    destruct IH as (ys & Hys & Hall); [intros z Hz; apply H; right; exact Hz |].
    exists (y :: ys). unfold bind. rewrite Hy, Hys. split; [reflexivity |].
    constructor; assumption.
Qed.

Lemma Forall2_In_l {A B} (R : A -> B -> Prop) (l : list A) (l' : list B) (x : A) :
  Forall2 R l l' -> In x l -> exists y, In y l' /\ R x y.
Proof.
  induction 1 as [| a b l l' Hab _ IH]; intros Hin; [destruct Hin |].
  destruct Hin as [-> | Hin].
  - exists b. split; [left; reflexivity | exact Hab].
  - destruct (IH Hin) as (y & Hy & Hr). exists y. split; [right; exact Hy | exact Hr].
Qed.

(** The text [json.dumps] returns decodes from its bytes as itself. *)
Lemma json_dumps_decodes {J : JsonCodec} (v : pyobj) :
  bytes_decode_utf8 (json_dumps v) = Ok (json_dumps v).
Proof.
  unfold bytes_decode_utf8, json_dumps. rewrite text_valid. reflexivity.
Qed.

Lemma read_object_stored {J : JsonCodec} {I : IsoParser}
  (b : s3.bucket) (key body text : string) (v : pyobj) (e : analyze_emails.Email.t)
  (w : World) :
  s3.lookup key b = Some body ->
  bytes_decode_utf8 body = Ok text ->
  json_loads text = Some v ->
  analyze_emails.Email_of_json v = Ok e ->
  read_object b key w = (Ok e, w).
Proof.
  intros Hl Hd Hj He. unfold read_object, bind, lift, s3.get_object.
  rewrite Hl, Hd, Hj, He. reflexivity.
Qed.

Lemma Email_of_json_document {J : JsonCodec} {I : IsoParser} (r : email_parser.Email.t) :
  fromisoformat (datetime.isoformat (email_parser.Email.date r)) =
    Some (email_parser.Email.date r) ->
  analyze_emails.Email_of_json (email_parser.json_document r) = Ok (read_back r).
Proof.
  intros H. unfold analyze_emails.Email_of_json, email_parser.json_document. simpl.
  rewrite H. reflexivity.
Qed.

(** ** Writing a record and listing its day *)

(** C9, amended.  Let the extractor and the daily handler share the
    location of the records, let the JSON codec read back the document
    of the record and the date parser invert [isoformat].  After
    [write_email] has stored a record with a well-formed timestamp in a
    bucket whose objects under the record's day can be read as records,
    and provided that day then holds at most one listing page of
    objects (1000), [get_emails] on the day's path returns a list that
    contains the record with the same id, subject, sender, timestamp
    and body. *)
Theorem write_email_then_get_emails {J : JsonCodec} {I : IsoParser}
  (penv : email_parser.Env) (aenv : analyze_emails.Env)
  (r : email_parser.Email.t) (w : World) :
  analyze_emails.json_email_path aenv = email_parser.json_email_path penv ->
  datetime.wf (email_parser.Email.date r) ->
  (forall d, datetime.wf d -> fromisoformat (datetime.isoformat d) = Some d) ->
  json_loads (json_dumps (email_parser.json_document r)) =
    Some (email_parser.json_document r) ->
  (forall key,
     In key (s3.matching (objects w)
               (analyze_emails.day_prefix aenv (email_parser.Email.date r))) ->
     stored_record (objects w) key) ->
  (List.length
     (s3.matching (objects (snd (email_parser.write_email penv r w)))
        (analyze_emails.day_prefix aenv (email_parser.Email.date r))) <= s3.max_keys)%nat ->
  exists emails,
    analyze_emails.get_emails
      (analyze_emails.day_prefix aenv (email_parser.Email.date r))
      (snd (email_parser.write_email penv r w)) =
      (Ok emails, snd (email_parser.write_email penv r w)) /\
    In (read_back r) emails.
Proof.
  intros Hpath Hwf Hiso Hjson Hold Hpage.
  set (prefix := analyze_emails.day_prefix aenv (email_parser.Email.date r)) in *.
  set (key := email_parser.json_key penv r).
  set (body := json_dumps (email_parser.json_document r)).
  set (w' := snd (email_parser.write_email penv r w)) in *.
  assert (Hobj : objects w' = s3.put_object key body (objects w)) by reflexivity.
  assert (Hpre : String.prefix prefix key = true)
    by (apply json_key_under_day_prefix; assumption).
  assert (Hkey : In key (s3.matching (objects w') prefix)).
  { rewrite Hobj. apply matching_put. left. split; [reflexivity | exact Hpre]. }
  assert (Hread_key : read_object (objects w') key w' = (Ok (read_back r), w')).
  { apply (@read_object_stored _ _ (objects w') key body body
             (email_parser.json_document r)).
    - rewrite Hobj. apply lookup_put_same.
    - apply json_dumps_decodes.
    - exact Hjson.
    - apply Email_of_json_document. apply Hiso. exact Hwf. }
  assert (Hread : forall k, In k (s3.matching (objects w') prefix) ->
                            exists e, read_object (objects w') k w' = (Ok e, w')).
  { intros k Hk. destruct (string_dec k key) as [-> | Hne].
    - exists (read_back r). exact Hread_key.
    - rewrite Hobj in Hk. apply matching_put in Hk.
      destruct Hk as [[Heq _] | Hk]; [now elim Hne |].
      destruct (Hold k Hk) as (b0 & t0 & v & e & Hl & Hd & Hj & He).
      exists e. apply (@read_object_stored _ _ (objects w') k b0 t0 v e); auto.
      rewrite Hobj, lookup_put_other by exact Hne. exact Hl. }
  destruct (@forM_all_ok _ _ (read_object (objects w')) _ w' Hread)
    as (emails & Hrun & Hall).
  exists emails. split.
  - unfold analyze_emails.get_emails, s3.list_objects_v2.
    fold (s3.matching (objects w') prefix).
    rewrite (@firstn_all2 _ _ _ Hpage).
    destruct (s3.matching (objects w') prefix) as [| k ks] eqn:Hm; [destruct Hkey |].
    exact Hrun.
  - destruct (@Forall2_In_l _ _ _ _ _ key Hall Hkey) as (e & Hin & He).
    rewrite Hread_key in He. injection He as <-. exact Hin.
Qed.

Lemma write_email_then_get_emails_witness :
  exists emails,
    analyze_emails.get_emails (J := reference.json) (I := reference.iso)
      (analyze_emails.day_prefix (sample.analyzer "]")
         (email_parser.Email.date (sample.record "m1")))
      (snd (email_parser.write_email (J := reference.json) sample.extractor
              (sample.record "m1") sample.world)) =
      (Ok emails,
       snd (email_parser.write_email (J := reference.json) sample.extractor
              (sample.record "m1") sample.world)) /\
    In (read_back (sample.record "m1")) emails.
Proof.
  apply (@write_email_then_get_emails reference.json reference.iso
           sample.extractor (sample.analyzer "]") (sample.record "m1") sample.world).
  - reflexivity.
  - repeat split; vm_compute; (discriminate || reflexivity).
  - intros d Hd. exact (iso_parse_isoformat Hd).
  - vm_compute. reflexivity.
  - intros key [].
  - apply Nat.leb_le. vm_compute. reflexivity.
Defined.

(** C9 as stated fails: in a bucket that already holds a thousand
    records of the day, a record written under the id [z] is stored, and
    the listing of the day, one page of a thousand keys, comes back with
    a thousand records, none of them with the id [z]. *)
Lemma write_email_then_get_emails_counterexample :
  s3.lookup (email_parser.json_key sample.extractor (sample.record "z"))
    (objects (snd (email_parser.write_email (J := reference.json) sample.extractor
                     (sample.record "z") sample.full_day))) =
    Some (json_dumps (JsonCodec := reference.json)
            (email_parser.json_document (sample.record "z"))) /\
  lists_without "z" 1000
    (fst (analyze_emails.get_emails (J := reference.json) (I := reference.iso)
            (analyze_emails.day_prefix (sample.analyzer "]")
               (email_parser.Email.date (sample.record "z")))
            (snd (email_parser.write_email (J := reference.json) sample.extractor
                    (sample.record "z") sample.full_day)))) = true.
Proof. split; vm_compute; reflexivity. Qed.

(** ** The calendar: an ordinal and its date *)

Lemma all_from_spec (P : Z -> bool) (k : nat) (z : Z) :
  all_from k z P = true -> forall x, z <= x < z + Z.of_nat k -> P x = true.
Proof.
  revert z. induction k as [| k IH]; intros z H x Hx.
  - simpl in Hx. lia.
  - simpl in H. apply andb_prop in H. destruct H as [H0 H1].
    destruct (Z.eq_dec x z) as [-> | Hne]; [exact H0 |].
    apply (IH (z + 1) H1). lia.
Qed.

Lemma month_day_checked (leapyear : bool) (n : Z) :
  0 <= n < 365 -> month_day_ok leapyear n = true.
Proof.
  intros H.
  assert (Hall : all_from 365 0 (month_day_ok leapyear) = true)
    by (destruct leapyear; vm_compute; reflexivity).
  apply (@all_from_spec _ 365 0 Hall). simpl. lia.
Qed.

Lemma is_leap_spec (n400 n100 n4 n1 : Z) :
  0 <= n100 <= 3 -> 0 <= n4 <= 24 -> 0 <= n1 <= 3 ->
  datetime.is_leap (n400 * 400 + 1 + n100 * 100 + n4 * 4 + n1) =
    ((n1 =? 3)%Z && (negb (n4 =? 24)%Z || (n100 =? 3)%Z))%bool.
Proof.
  intros H100 H4 H1. unfold datetime.is_leap.
  set (y := n400 * 400 + 1 + n100 * 100 + n4 * 4 + n1).
  assert (E4 : y mod 4 = (n1 + 1) mod 4).
  { unfold y. replace (n400 * 400 + 1 + n100 * 100 + n4 * 4 + n1)
      with (n1 + 1 + (n400 * 100 + n100 * 25 + n4) * 4) by ring.
    apply Z.mod_add. lia. }
  assert (E100 : y mod 100 = (n4 * 4 + n1 + 1) mod 100).
  { unfold y. replace (n400 * 400 + 1 + n100 * 100 + n4 * 4 + n1)
      with (n4 * 4 + n1 + 1 + (n400 * 4 + n100) * 100) by ring.
    apply Z.mod_add. lia. }
  assert (E400 : y mod 400 = (n100 * 100 + n4 * 4 + n1 + 1) mod 400).
  { unfold y. replace (n400 * 400 + 1 + n100 * 100 + n4 * 4 + n1)
      with (n100 * 100 + n4 * 4 + n1 + 1 + n400 * 400) by ring.
    apply Z.mod_add. lia. }
  rewrite E4, E100, E400.
  destruct (n1 =? 3)%Z eqn:B1; [apply Z.eqb_eq in B1 | apply Z.eqb_neq in B1].
  - subst n1. change ((3 + 1) mod 4) with 0. simpl.
    destruct (n4 =? 24)%Z eqn:B4; [apply Z.eqb_eq in B4 | apply Z.eqb_neq in B4].
    + subst n4. change ((24 * 4 + 3 + 1) mod 100) with 0. simpl.
      destruct (n100 =? 3)%Z eqn:B100; [apply Z.eqb_eq in B100 | apply Z.eqb_neq in B100].
      * subst n100. reflexivity.
      * apply Z.eqb_neq. intros E. Z.div_mod_to_equations. lia.
    + simpl. assert (Hne : (n4 * 4 + 3 + 1) mod 100 <> 0)
        by (Z.div_mod_to_equations; lia).
      apply Z.eqb_neq in Hne. rewrite Hne. reflexivity.
  - assert (Hne : (n1 + 1) mod 4 <> 0) by (Z.div_mod_to_equations; lia).
    apply Z.eqb_neq in Hne. rewrite Hne. reflexivity.
Qed.

Lemma days_before_year_cycle (n400 n100 n4 n1 : Z) :
  0 <= n100 <= 3 -> 0 <= n4 <= 24 -> 0 <= n1 <= 3 ->
  datetime.days_before_year (n400 * 400 + 1 + n100 * 100 + n4 * 4 + n1) =
    146097 * n400 + 36524 * n100 + 1461 * n4 + 365 * n1.
Proof.
  intros H100 H4 H1. unfold datetime.days_before_year. cbv zeta.
  replace (n400 * 400 + 1 + n100 * 100 + n4 * 4 + n1 - 1)
    with (n400 * 400 + n100 * 100 + n4 * 4 + n1) by ring.
  set (y := n400 * 400 + n100 * 100 + n4 * 4 + n1).
  assert (E4 : y / 4 = n400 * 100 + n100 * 25 + n4).
  { unfold y. symmetry. apply (Z.div_unique _ 4 _ n1); lia. }
  assert (E100 : y / 100 = n400 * 4 + n100).
  { unfold y. symmetry. apply (Z.div_unique _ 100 _ (n4 * 4 + n1)); lia. }
  assert (E400 : y / 400 = n400).
  { unfold y. symmetry. apply (Z.div_unique _ 400 _ (n100 * 100 + n4 * 4 + n1)); lia. }
  rewrite E4, E100, E400. unfold y. ring.
Qed.

Lemma days_in_month_flag (y m : Z) :
  1 <= m <= 12 ->
  datetime.days_in_month y m =
    match m with
    | 2 => if datetime.is_leap y then 29 else 28
    | 4 | 6 | 9 | 11 => 30
    | _ => 31
    end.
Proof.
  intros H.
  assert (Hm : m = 1 \/ m = 2 \/ m = 3 \/ m = 4 \/ m = 5 \/ m = 6 \/ m = 7 \/ m = 8 \/
               m = 9 \/ m = 10 \/ m = 11 \/ m = 12) by lia.
  repeat (destruct Hm as [-> | Hm]; [reflexivity |]). subst; reflexivity.
Qed.

(** [_ord2ymd] inverts [_ymd2ord]: the date of an ordinal is a calendar
    date whose ordinal it is, and the supported ordinals give the
    supported years. *)
Lemma ord2ymd_spec (n : Z) :
  1 <= n ->
  let '(y, m, d) := datetime.ord2ymd n in
  datetime.ymd2ord y m d = n /\
  1 <= m <= 12 /\ 1 <= d <= datetime.days_in_month y m /\
  1 <= y /\ (n <= 3652059 -> y <= 9999).
Proof.
  intros Hn. unfold datetime.ord2ymd, datetime.DI400Y, datetime.DI100Y, datetime.DI4Y.
  cbv zeta.
  pose proof (Z.div_mod (n - 1) 146097 ltac:(lia)) as E400.
  pose proof (Z.mod_pos_bound (n - 1) 146097 ltac:(lia)) as B400.
  set (n400 := (n - 1) / 146097) in *. set (r400 := (n - 1) mod 146097) in *.
  pose proof (Z.div_mod r400 36524 ltac:(lia)) as E100.
  pose proof (Z.mod_pos_bound r400 36524 ltac:(lia)) as B100.
  set (n100 := r400 / 36524) in *. set (r100 := r400 mod 36524) in *.
  pose proof (Z.div_mod r100 1461 ltac:(lia)) as E4.
  pose proof (Z.mod_pos_bound r100 1461 ltac:(lia)) as B4.
  set (n4 := r100 / 1461) in *. set (r4 := r100 mod 1461) in *.
  pose proof (Z.div_mod r4 365 ltac:(lia)) as E1.
  pose proof (Z.mod_pos_bound r4 365 ltac:(lia)) as B1.
  set (n1 := r4 / 365) in *. set (r1 := r4 mod 365) in *.
  clearbody n400 r400 n100 r100 n4 r4 n1 r1.
  assert (H400 : 0 <= n400) by lia.
  assert (H100 : 0 <= n100 <= 4) by lia.
  assert (H4 : 0 <= n4 <= 24) by lia.
  assert (H1 : 0 <= n1 <= 4) by lia.
  destruct ((n1 =? 4)%Z || (n100 =? 4)%Z)%bool eqn:Hend.
  - (* the last day of a leap year *)
    assert (Hcase : (n100 = 4 /\ n4 = 0 /\ n1 = 0 /\ r1 = 0) \/
                    (n100 <= 3 /\ n4 <= 23 /\ n1 = 4 /\ r1 = 0)).
    { apply orb_true_iff in Hend. destruct Hend as [H | H]; apply Z.eqb_eq in H; lia. }
    assert (Hy : exists c100 c4,
               0 <= c100 <= 3 /\ 0 <= c4 <= 24 /\ (c4 = 24 -> c100 = 3) /\
               n400 * 400 + 1 + n100 * 100 + n4 * 4 + n1 - 1 =
                 n400 * 400 + 1 + c100 * 100 + c4 * 4 + 3 /\
               146097 * n400 + 36524 * c100 + 1461 * c4 + 365 * 3 + 365 = n - 1).
    { destruct Hcase as [(-> & -> & -> & ->) | (A & B & -> & ->)].
      - exists 3, 24. lia.
      - exists n100, n4. lia. }
    destruct Hy as (c100 & c4 & Hc100 & Hc4 & Hc & -> & Hsum).
    unfold datetime.ymd2ord, datetime.days_before_month.
    rewrite days_before_year_cycle by lia.
    change (datetime.days_in_month (n400 * 400 + 1 + c100 * 100 + c4 * 4 + 3) 12) with 31.
    rewrite is_leap_spec by lia.
    assert (Hleap : ((3 =? 3)%Z && (negb (c4 =? 24)%Z || (c100 =? 3)%Z))%bool = true).
    { simpl. destruct (c4 =? 24)%Z eqn:E; [| reflexivity].
      apply Z.eqb_eq in E. simpl. apply Z.eqb_eq. auto. }
    rewrite Hleap. simpl ((2 <? 12)%Z && true)%bool. cbv iota.
    change (datetime.days_before_month_table 12) with 334.
    repeat split; try lia.
  - (* any other day *)
    apply orb_false_iff in Hend. destruct Hend as [Hn1 Hn100].
    apply Z.eqb_neq in Hn1. apply Z.eqb_neq in Hn100.
    assert (Hr1 : 0 <= r1 < 365) by lia.
    pose proof (month_day_checked ((n1 =? 3)%Z && (negb (n4 =? 24)%Z || (n100 =? 3)%Z))%bool
                  Hr1) as Hmd.
    unfold month_day_ok in Hmd.
    rewrite <- (@is_leap_spec n400 n100 n4 n1) in * by lia.
    set (y := n400 * 400 + 1 + n100 * 100 + n4 * 4 + n1) in *.
    destruct (datetime.month_day (datetime.is_leap y) r1) as [m d].
    rewrite !andb_true_iff, !Z.leb_le, Z.eqb_eq in Hmd.
    destruct Hmd as ((((Hm1 & Hm2) & Hd1) & Hd2) & Hsum).
    unfold datetime.ymd2ord, datetime.days_before_month.
    unfold y at 1. rewrite days_before_year_cycle by lia.
    rewrite (days_in_month_flag y (m := m)) by lia.
    repeat split; lia.
Qed.

Lemma of_wall_seconds_spec (w us : Z) (off : option Z) :
  datetime.representable w = true ->
  datetime.wall_seconds (datetime.of_wall_seconds w us off) = w /\
  datetime.utcoffset (datetime.of_wall_seconds w us off) = off /\
  datetime.microsecond (datetime.of_wall_seconds w us off) = us /\
  (0 <= us < 1000000 ->
   match off with Some o => -86400 < o < 86400 | None => True end ->
   datetime.wf (datetime.of_wall_seconds w us off)).
Proof.
  unfold datetime.representable. change (datetime.ymd2ord datetime.MAXYEAR 12 31) with 3652059.
  rewrite andb_true_iff, Z.leb_le, Z.ltb_lt. intros [Hlo Hhi].
  unfold datetime.of_wall_seconds.
  assert (Hn : 1 <= w / 86400 <= 3652059) by (Z.div_mod_to_equations; lia).
  pose proof (@ord2ymd_spec (w / 86400) ltac:(lia)) as Hspec.
  destruct (datetime.ord2ymd (w / 86400)) as [[y m] dd].
  destruct Hspec as (Hord & Hm & Hd & Hy & Hmax).
  unfold datetime.wall_seconds, datetime.wf, datetime.MINYEAR, datetime.MAXYEAR. simpl.
  rewrite Hord.
  assert (Hr : 0 <= w mod 86400 < 86400) by (apply Z.mod_pos_bound; lia).
  pose proof (Z.div_mod w 86400 ltac:(lia)) as Ew.
  set (r := w mod 86400) in *. set (q := w / 86400) in *.
  clearbody r q.
  assert (Hh : 0 <= r / 3600 < 24) by (Z.div_mod_to_equations; lia).
  assert (Hmi : 0 <= r mod 3600 / 60 < 60) by (Z.div_mod_to_equations; lia).
  assert (Hs : 0 <= r mod 60 < 60) by (Z.div_mod_to_equations; lia).
  assert (Hsum : r / 3600 * 3600 + r mod 3600 / 60 * 60 + r mod 60 = r)
    by (Z.div_mod_to_equations; lia).
  repeat split; try lia; try assumption; apply Hmax; lia.
Qed.

(** [astimezone] keeps the instant and the microseconds, attaches the
    offset the zone has at that instant, and yields a well-formed value. *)
Lemma astimezone_spec (local : Z -> Z) (tz : datetime.tzinfo) (d d' : datetime.t) :
  datetime.astimezone local tz d = Ok d' ->
  datetime.utc_seconds local d' = datetime.utc_seconds local d /\
  datetime.utcoffset d' = Some (tz (datetime.utc_seconds local d)) /\
  datetime.microsecond d' = datetime.microsecond d /\
  (0 <= datetime.microsecond d < 1000000 ->
   -86400 < tz (datetime.utc_seconds local d) < 86400 ->
   datetime.wf d').
Proof.
  unfold datetime.astimezone.
  destruct (datetime.representable (datetime.utc_seconds local d)); [| discriminate].
  destruct (datetime.representable
              (datetime.utc_seconds local d + tz (datetime.utc_seconds local d))) eqn:Hr;
    [| discriminate].
  intros H; injection H as <-.
  destruct (@of_wall_seconds_spec _ (datetime.microsecond d)
              (Some (tz (datetime.utc_seconds local d))) Hr) as (Hw & Ho & Hu & Hwf).
  split; [| split; [exact Ho | split; [exact Hu | exact Hwf]]].
  unfold datetime.utc_seconds at 1. rewrite Ho, Hw. lia.
Qed.

(** ** The timestamp of an extracted record *)

Lemma astimezone_convertible (env : email_parser.Env) (d : datetime.t) :
  datetime.astimezone (email_parser.host_zone env) (email_parser.timezone env) d =
    if convertible env d
    then Ok (datetime.of_wall_seconds (zone_wall env d) (datetime.microsecond d)
               (Some (zone_offset env d)))
    else Raise OverflowError.
Proof.
  unfold datetime.astimezone, convertible, zone_wall, zone_offset.
  destruct (datetime.representable (datetime.utc_seconds (email_parser.host_zone env) d));
    [| reflexivity].
  destruct (datetime.representable _); reflexivity.
Qed.

(** C8.  For a stored raw message whose date header is absent or is not
    accepted by the date parser, extraction fails with the [ValueError]
    of the date and the handler writes no record: the world is
    unchanged.  When the header parses to an instant that lies in the
    supported years, as it is and on the wall clock of the configured
    zone, the conversion yields a timestamp at that same instant: its
    wall clock is the instant moved by the offset the zone has at it,
    it carries that offset and the microseconds of the header, and it is
    a calendar time; extraction returns the record with that timestamp
    whenever the body is found.  Outside the supported years extraction
    ends in [OverflowError].  The timestamp of any record extraction
    returns is the converted one. *)
Theorem read_email_date {J : JsonCodec} {L : EmailLib}
  (env : email_parser.Env) (email_id : string) (w : World) (raw : string) :
  s3.get_object (objects w) (email_parser.raw_key env email_id) = Ok raw ->
  ((email_parser.date (parsebytes raw) = None \/
    exists value,
      email_parser.date (parsebytes raw) = Some value /\
      parsedate_to_datetime value = None) ->
   email_parser.read_email env email_id w =
     (Raise (ValueError "Invalid date value or format"), w) /\
   email_parser.lambda_handler env [email_id] w =
     (Raise (ValueError "Invalid date value or format"), w))
  /\
  (forall value d,
     email_parser.date (parsebytes raw) = Some value ->
     parsedate_to_datetime value = Some d ->
     (convertible env d = true ->
      exists local,
        datetime.astimezone (email_parser.host_zone env) (email_parser.timezone env) d
          = Ok local /\
        datetime.wall_seconds local = zone_wall env d /\
        datetime.utcoffset local = Some (zone_offset env d) /\
        datetime.wall_seconds local - zone_offset env d =
          datetime.utc_seconds (email_parser.host_zone env) d /\
        datetime.microsecond local = datetime.microsecond d /\
        (0 <= datetime.microsecond d < 1000000 ->
         -86400 < zone_offset env d < 86400 ->
         datetime.wf local) /\
        (forall body,
           email_parser._get_email_body (parsebytes raw) = Ok body ->
           email_parser.read_email env email_id w =
             (Ok (email_parser.Email.mk email_id
                    (email_parser.subject (parsebytes raw))
                    (email_parser.from_ (parsebytes raw)) local body), w))) /\
     (convertible env d = false ->
      email_parser.read_email env email_id w = (Raise OverflowError, w)) /\
     (forall local body,
        datetime.astimezone (email_parser.host_zone env) (email_parser.timezone env) d
          = Ok local ->
        email_parser._get_email_body (parsebytes raw) = Ok body ->
        email_parser.read_email env email_id w =
          (Ok (email_parser.Email.mk email_id
                 (email_parser.subject (parsebytes raw))
                 (email_parser.from_ (parsebytes raw)) local body), w)) /\
     (forall e w',
        email_parser.read_email env email_id w = (Ok e, w') ->
        datetime.astimezone (email_parser.host_zone env) (email_parser.timezone env) d
          = Ok (email_parser.Email.date e) /\
        datetime.wall_seconds (email_parser.Email.date e) = zone_wall env d /\
        datetime.utc_seconds (email_parser.host_zone env) (email_parser.Email.date e) =
          datetime.utc_seconds (email_parser.host_zone env) d /\
        datetime.utcoffset (email_parser.Email.date e) =
          Some (email_parser.timezone env
                  (datetime.utc_seconds (email_parser.host_zone env) d)))).
Proof.
  intros Hraw. split.
  - intros Hbad.
    assert (Hd : email_parser._get_email_date env (parsebytes raw) =
                 Raise (ValueError "Invalid date value or format")).
    { unfold email_parser._get_email_date.
      destruct Hbad as [-> | (value & -> & ->)]; reflexivity. }
    assert (Hread : email_parser.read_email env email_id w =
                    (Raise (ValueError "Invalid date value or format"), w)).
    { unfold email_parser.read_email. rewrite Hraw, Hd. reflexivity. }
    split; [exact Hread |].
    unfold email_parser.lambda_handler. simpl. unfold bind. rewrite Hread. reflexivity.
  - intros value d Hv Hp.
    assert (Hdate : email_parser._get_email_date env (parsebytes raw) =
                    datetime.astimezone (email_parser.host_zone env)
                      (email_parser.timezone env) d).
    { unfold email_parser._get_email_date. rewrite Hv, Hp. reflexivity. }
    split; [| split; [| split]].
    + intros Hc. pose proof (astimezone_convertible env d) as Ha. rewrite Hc in Ha.
      assert (Hr : datetime.representable (zone_wall env d) = true).
      { unfold convertible in Hc. apply andb_prop in Hc. exact (proj2 Hc). }
      destruct (@of_wall_seconds_spec (zone_wall env d) (datetime.microsecond d)
                  (Some (zone_offset env d)) Hr) as (Hw & Ho & Hu & Hwf).
      eexists. split; [exact Ha |].
      split; [exact Hw |]. split; [exact Ho |].
      split; [rewrite Hw; unfold zone_wall; lia |].
      split; [exact Hu |]. split; [exact Hwf |].
      intros body Hb. unfold email_parser.read_email.
      rewrite Hraw, Hdate, Ha, Hb. reflexivity.
    + intros Hc. pose proof (astimezone_convertible env d) as Ha. rewrite Hc in Ha.
      unfold email_parser.read_email. rewrite Hraw, Hdate, Ha. reflexivity.
    + intros local body Hl Hb.
      unfold email_parser.read_email. rewrite Hraw, Hdate, Hl, Hb. reflexivity.
    + intros e w'. unfold email_parser.read_email. rewrite Hraw, Hdate.
      destruct (datetime.astimezone (email_parser.host_zone env)
                  (email_parser.timezone env) d) as [local | err] eqn:Hl;
        [| discriminate].
      simpl. destruct (email_parser._get_email_body (parsebytes raw)); [| discriminate].
      simpl. intros H; injection H as <- _. simpl.
      destruct (astimezone_spec _ _ _ Hl) as (Hi & Ho & _).
      split; [reflexivity |]. split; [| split; [exact Hi | exact Ho]].
      rewrite astimezone_convertible in Hl.
      destruct (convertible env d) eqn:Hc; [| discriminate].
      injection Hl as <-.
      assert (Hr : datetime.representable (zone_wall env d) = true).
      { unfold convertible in Hc. apply andb_prop in Hc. exact (proj2 Hc). }
      exact (proj1 (@of_wall_seconds_spec (zone_wall env d) (datetime.microsecond d)
                      (Some (zone_offset env d)) Hr)).
Qed.

Lemma read_email_date_witness :
  email_parser.read_email (L := reference.email) sample.extractor "m1"
    (sample.inbox "m1" sample.undated_message) =
    (Raise (ValueError "Invalid date value or format"),
     sample.inbox "m1" sample.undated_message)
  /\
  (exists local,
     datetime.astimezone (email_parser.host_zone sample.extractor)
       (email_parser.timezone sample.extractor)
       (datetime.mk 2024 1 1 20 0 0 0 (Some 0)) = Ok local /\
     datetime.wall_seconds local =
       zone_wall sample.extractor (datetime.mk 2024 1 1 20 0 0 0 (Some 0)) /\
     datetime.utcoffset local = Some 32400 /\
     datetime.wall_seconds local - 32400 =
       datetime.wall_seconds (datetime.mk 2024 1 1 20 0 0 0 (Some 0)) - 0 /\
     datetime.microsecond local = 0 /\
     (0 <= 0 < 1000000 -> -86400 < 32400 < 86400 -> datetime.wf local) /\
     (forall body,
        email_parser._get_email_body (L := reference.email)
          (parsebytes (EmailLib := reference.email) sample.late_message) = Ok body ->
        email_parser.read_email (L := reference.email) sample.extractor "m1"
          (sample.inbox "m1" sample.late_message) =
          (Ok (email_parser.Email.mk "m1" (Some "hi") (Some "a@example.com") local body),
           sample.inbox "m1" sample.late_message)))
  /\
  email_parser.read_email (L := reference.email) sample.extractor "m1"
    (sample.inbox "m1" sample.late_message) =
    (Ok (email_parser.Email.mk "m1" (Some "hi") (Some "a@example.com")
           (datetime.mk 2024 1 2 5 0 0 0 (Some 32400)) "hello"),
     sample.inbox "m1" sample.late_message).
Proof.
  split; [| split].
  - apply (proj1 (@read_email_date reference.json reference.email sample.extractor "m1"
                    (sample.inbox "m1" sample.undated_message) sample.undated_message
                    eq_refl)).
    left. vm_compute. reflexivity.
  - apply (proj1 (proj2 (@read_email_date reference.json reference.email sample.extractor
                           "m1" (sample.inbox "m1" sample.late_message)
                           sample.late_message eq_refl)
                    "Mon, 01 Jan 2024 20:00:00 +0000"
                    (datetime.mk 2024 1 1 20 0 0 0 (Some 0))
                    ltac:(vm_compute; reflexivity) ltac:(vm_compute; reflexivity))).
    vm_compute. reflexivity.
  - apply (proj1 (proj2 (proj2 (proj2 (@read_email_date reference.json reference.email
                                         sample.extractor "m1"
                                         (sample.inbox "m1" sample.late_message)
                                         sample.late_message eq_refl)
                                  "Mon, 01 Jan 2024 20:00:00 +0000"
                                  (datetime.mk 2024 1 1 20 0 0 0 (Some 0))
                                  ltac:(vm_compute; reflexivity)
                                  ltac:(vm_compute; reflexivity))))
             (datetime.mk 2024 1 2 5 0 0 0 (Some 32400)) "hello").
    + vm_compute. reflexivity.
    + vm_compute. reflexivity.
Defined.

(** A record the extractor returns carries a well-formed timestamp, when
    the date parser yields well-formed values and the zone's offsets are
    shorter than a day: the records the daily handler later reads are of
    the kind the round trip above is stated for. *)
Lemma extracted_date_wf {L : EmailLib}
  (env : email_parser.Env) (email_id : string) (w w' : World) (e : email_parser.Email.t) :
  (forall value d, parsedate_to_datetime value = Some d -> datetime.wf d) ->
  (forall u, -86400 < email_parser.timezone env u < 86400) ->
  email_parser.read_email env email_id w = (Ok e, w') ->
  datetime.wf (email_parser.Email.date e).
Proof.
  intros Hparse Hzone. unfold email_parser.read_email.
  destruct (s3.get_object (objects w) (email_parser.raw_key env email_id)) as [raw |];
    [| discriminate].
  unfold email_parser._get_email_date.
  destruct (email_parser.date (parsebytes raw)) as [value |]; [| discriminate].
  destruct (parsedate_to_datetime value) as [d |] eqn:Hd; [| discriminate].
  destruct (datetime.astimezone (email_parser.host_zone env) (email_parser.timezone env) d)
    as [local | err] eqn:Hl; [| discriminate].
  simpl. destruct (email_parser._get_email_body (parsebytes raw)); [| discriminate].
  simpl. intros H; injection H as <- _. simpl.
  destruct (astimezone_spec _ _ _ Hl) as (_ & _ & _ & Hwf).
  apply Hwf; [| apply Hzone].
  destruct (Hparse _ _ Hd) as (_ & _ & _ & _ & _ & _ & Hus & _). exact Hus.
Qed.

(** * Further properties of the handlers *)

(** ** The summarizer and the daily handler *)

Lemma mapM_all_ok {A B} (f : A -> result B) (l : list A) :
  Forall (fun a => exists b, f a = Ok b) l ->
  exists bs, mapM f l = Ok bs /\ Forall2 (fun a b => f a = Ok b) l bs.
Proof.
  induction 1 as [| a l [b Hb] _ (bs & Hbs & Hall)]; simpl.
  - exists []. split; [reflexivity | constructor].
  - exists (b :: bs). rewrite Hb, Hbs. split; [reflexivity | constructor; assumption].
Qed.

Lemma EmailSummary_of_fields {J : JsonCodec} (e : pyobj) (s : analyze_emails.EmailSummary.t) :
  analyze_emails.EmailSummary_of e = Ok s -> summary_of_object e s.
Proof.
  unfold analyze_emails.EmailSummary_of, summary_of_object.
  destruct (getitem e "subject") as [a |]; [| discriminate].
  destruct (getitem e "date") as [b |]; [| discriminate].
  destruct (getitem e "from") as [c |]; [| discriminate].
  destruct (getitem e "summary") as [d |]; [| discriminate].
  simpl. intros H; injection H as <-. simpl. auto.
Qed.

(** X1.  When the reconstructed text is a JSON array whose elements all
    carry the four fields, the summarizer returns a success whose items
    are the elements' values under [subject], [date], [from] and
    [summary], one item per element and in the order of the array (an
    empty array gives a success without items). *)
Theorem request_message_success {J : JsonCodec}
  (env : analyze_emails.Env) (prompt : string) (w : World)
  (completion : string) (l : list pyobj) :
  analyze_emails.model env prompt = Ok completion ->
  json_loads ("[" ++ completion) = Some (PyList l) ->
  Forall (fun x => carries_fields x = true) l ->
  exists summaries,
    analyze_emails.request_message env prompt w =
      (Ok (analyze_emails.Message.mk true summaries None), add_model_request prompt w) /\
    Forall2 summary_of_object l summaries.
Proof.
  intros Hm Hj Hl. rewrite (request_message_unfold _ _ _ Hm).
  destruct (@mapM_all_ok _ _ _ _ (carried_prefix Hl)) as (ss & Hss & Hall).
  exists ss. split.
  - f_equal. unfold analyze_emails.parse_response, analyze_emails.email_summaries.
    rewrite Hj. simpl. rewrite Hss. reflexivity.
  - eapply Forall2_impl; [| exact Hall]. intros a b. apply EmailSummary_of_fields.
Qed.

Lemma request_message_success_witness :
  exists summaries,
    analyze_emails.request_message (J := reference.json)
      (sample.analyzer sample.greeting_completion) "prompt" sample.world =
      (Ok (analyze_emails.Message.mk true summaries None),
       add_model_request "prompt" sample.world) /\
    Forall2 summary_of_object [sample.greeting_object] summaries.
Proof.
  apply (@request_message_success reference.json
           (sample.analyzer sample.greeting_completion) "prompt"
           sample.world sample.greeting_completion [sample.greeting_object]).
  - reflexivity.
  - vm_compute. reflexivity.
  - repeat constructor.
Defined.

(** X2.  An error of the model call is not turned into a failure
    message: with records listed for the day, the daily handler ends in
    that same error, after the one request and without publishing. *)
Theorem lambda_handler_model_error {J : JsonCodec} {I : IsoParser}
  (env : analyze_emails.Env) (path_override : option string) (path : string)
  (w : World) (email : analyze_emails.Email.t) (emails : list analyze_emails.Email.t)
  (e : exn) :
  analyze_emails.event_path env path_override = Ok path ->
  analyze_emails.get_emails path w = (Ok (email :: emails), w) ->
  analyze_emails.model env (analyze_emails.generate_user_prompt env (email :: emails))
    = Raise e ->
  analyze_emails.lambda_handler env path_override w =
    (Raise e,
     add_model_request (analyze_emails.generate_user_prompt env (email :: emails)) w).
Proof.
  intros Hp Hg Hm. unfold analyze_emails.lambda_handler, bind, lift.
  rewrite Hp, Hg. unfold analyze_emails.request_message, bind, analyze_emails.create.
  rewrite Hm. reflexivity.
Qed.

Lemma lambda_handler_model_error_witness :
  exists prompt,
    analyze_emails.lambda_handler (J := reference.json) (I := reference.iso)
      sample.failing_analyzer (Some "json_emails/2024/1/1/") sample.two_records =
      (Raise (TransportError "timed out"), add_model_request prompt sample.two_records).
Proof.
  eexists.
  eapply (@lambda_handler_model_error reference.json reference.iso
            sample.failing_analyzer (Some "json_emails/2024/1/1/")
            "json_emails/2024/1/1/" sample.two_records).
  - reflexivity.
  - vm_compute. reflexivity.
  - reflexivity.
Defined.

(** X3.  Whatever the event, the bucket, the model and the text of the
    completion, one run of the daily handler leaves the bucket and the
    webhook as they were, sends at most one request to the model and
    publishes at most one message, and publishes only after a request. *)
Theorem lambda_handler_footprint {J : JsonCodec} {I : IsoParser}
  (env : analyze_emails.Env) (path_override : option string) (w : World) :
  let w' := snd (analyze_emails.lambda_handler env path_override w) in
  objects w' = objects w /\
  webhook w' = webhook w /\
  ((model_requests w' = model_requests w /\ topic w' = topic w) \/
   exists prompt,
     model_requests w' = (model_requests w ++ [prompt])%list /\
     (topic w' = topic w \/ exists msg, topic w' = (topic w ++ [msg])%list)).
Proof.
  unfold analyze_emails.lambda_handler, bind, lift.
  destruct (analyze_emails.event_path env path_override) as [p | e]; [| simpl; auto].
  pose proof (get_emails_world p w) as Hw.
  destruct (analyze_emails.get_emails p w) as [[[| x xs] | err] w1];
    simpl in Hw; subst w1; simpl; auto.
  pose proof (request_message_world env
                (analyze_emails.generate_user_prompt env (x :: xs)) w) as Hr.
  destruct (analyze_emails.request_message env
              (analyze_emails.generate_user_prompt env (x :: xs)) w) as [[m | err] w2];
    simpl in Hr; subst w2; simpl.
  - destruct (analyze_emails.Message.success m && _)%bool; simpl.
    + repeat split; auto. right. eexists. split; [reflexivity | auto].
    + repeat split; auto. right. eexists. split; [reflexivity |]. right. eexists. reflexivity.
  - repeat split; auto. right. eexists. split; [reflexivity | auto].
Qed.

Lemma forM_first_raise {A B} (f : A -> M B) (pre post : list A) (x : A) (w : World) (e : exn) :
  (forall a, In a pre -> exists b, f a w = (Ok b, w)) ->
  f x w = (Raise e, w) ->
  forM (pre ++ x :: post)%list f w = (Raise e, w).
Proof.
  induction pre as [| a pre IH]; intros Hpre Hx; simpl; unfold bind.
  - rewrite Hx. reflexivity.
  - destruct (Hpre a (or_introl eq_refl)) as [b Hb]. rewrite Hb.
    rewrite IH; [reflexivity | | exact Hx].
    intros a' Ha'. apply Hpre. right. exact Ha'.
Qed.

Lemma get_emails_unfold {J : JsonCodec} {I : IsoParser} (path : string) (w : World) :
  analyze_emails.get_emails path w =
    match firstn s3.max_keys (s3.matching (objects w) path) with
    | [] => (Raise (KeyError "Contents"), w)
    | k :: ks => forM (k :: ks) (read_object (objects w)) w
    end.
Proof.
  unfold analyze_emails.get_emails, s3.list_objects_v2. cbv zeta.
  change (s3.Contents _) with
    (match firstn s3.max_keys (s3.matching (objects w) path) with
     | [] => None
     | k :: ks => Some (firstn s3.max_keys (s3.matching (objects w) path))
     end).
  destruct (firstn s3.max_keys (s3.matching (objects w) path)); reflexivity.
Qed.

(** X4.  One object under the day's path whose body cannot be read makes
    the whole listing fail: when the objects listed before it read as
    records, [get_emails] ends in [UnicodeDecodeError] when the body is
    not UTF-8 and in [JSONDecodeError] when it is UTF-8 text that is not
    JSON, and the daily handler ends with it, without a request to the
    model and without a message, however many good records the day
    holds. *)
Theorem get_emails_damaged_object {J : JsonCodec} {I : IsoParser}
  (env : analyze_emails.Env) (path : string) (w : World)
  (pre post : list string) (key body : string) :
  firstn s3.max_keys (s3.matching (objects w) path) = (pre ++ key :: post)%list ->
  (forall k, In k pre -> stored_record (objects w) k) ->
  s3.lookup key (objects w) = Some body ->
  utf8_valid body = false \/ json_loads body = None ->
  analyze_emails.get_emails path w =
    (Raise (if utf8_valid body then JSONDecodeError else UnicodeDecodeError), w) /\
  analyze_emails.lambda_handler env (Some path) w =
    (Raise (if utf8_valid body then JSONDecodeError else UnicodeDecodeError), w).
Proof.
  intros Hpage Hpre Hl Hbad.
  set (err := if utf8_valid body then JSONDecodeError else UnicodeDecodeError).
  assert (Hg : analyze_emails.get_emails path w = (Raise err, w)).
  { rewrite get_emails_unfold, Hpage.
    destruct (pre ++ key :: post)%list as [| k0 ks] eqn:E;
      [destruct pre; discriminate E |].
    rewrite <- E.
    apply (@forM_first_raise _ _ (read_object (objects w)) pre post key w err).
    - intros k Hk. destruct (Hpre k Hk) as (b & t & v & e & Hlk & Hdec & Hjs & He).
      exists e. exact (@read_object_stored _ _ (objects w) k b t v e w Hlk Hdec Hjs He).
    - unfold read_object, bind, lift, s3.get_object, bytes_decode_utf8, err.
      rewrite Hl. destruct (utf8_valid body); [| reflexivity].
      destruct Hbad as [Hbad | Hbad]; [discriminate Hbad |].
      rewrite Hbad. reflexivity. }
  split; [exact Hg |].
  unfold analyze_emails.lambda_handler, bind, lift. simpl. rewrite Hg. reflexivity.
Qed.

Lemma get_emails_damaged_object_witness :
  (analyze_emails.get_emails (J := reference.json) (I := reference.iso)
     "json_emails/2024/1/1/" sample.damaged_day =
     (Raise JSONDecodeError, sample.damaged_day) /\
   analyze_emails.lambda_handler (J := reference.json) (I := reference.iso)
     (sample.analyzer "]") (Some "json_emails/2024/1/1/") sample.damaged_day =
     (Raise JSONDecodeError, sample.damaged_day))
  /\
  (analyze_emails.get_emails (J := reference.json) (I := reference.iso)
     "json_emails/2024/1/1/" sample.undecodable_day =
     (Raise UnicodeDecodeError, sample.undecodable_day) /\
   analyze_emails.lambda_handler (J := reference.json) (I := reference.iso)
     (sample.analyzer "]") (Some "json_emails/2024/1/1/") sample.undecodable_day =
     (Raise UnicodeDecodeError, sample.undecodable_day)).
Proof.
  split.
  - apply (@get_emails_damaged_object reference.json reference.iso (sample.analyzer "]")
             "json_emails/2024/1/1/" sample.damaged_day
             ["json_emails/2024/1/1/a.json"] [] "json_emails/2024/1/1/b.json" "{not json").
    + vm_compute. reflexivity.
    + intros k [<- | []]. eexists _, _, _, _. repeat split; vm_compute; reflexivity.
    + reflexivity.
    + right. vm_compute. reflexivity.
  - apply (@get_emails_damaged_object reference.json reference.iso (sample.analyzer "]")
             "json_emails/2024/1/1/" sample.undecodable_day
             ["json_emails/2024/1/1/a.json"] [] "json_emails/2024/1/1/b.json"
             (String "255" "{}")).
    + vm_compute. reflexivity.
    + intros k [<- | []]. eexists _, _, _, _. repeat split; vm_compute; reflexivity.
    + reflexivity.
    + left. vm_compute. reflexivity.
Defined.

Lemma forM_Ok_inv {A B} (f : A -> M B) (l : list A) (w w' : World) (ys : list B) :
  (forall x w0, snd (f x w0) = w0) ->
  forM l f w = (Ok ys, w') ->
  Forall2 (fun x y => f x w = (Ok y, w)) l ys.
Proof.
  intros Hf H.
  assert (Hw : w' = w).
  { pose proof (forM_world f l w Hf) as E. rewrite H in E. exact E. }
  subst w'. revert ys H. induction l as [| x l IH]; intros ys; simpl.
  - unfold ret. intros H; injection H as <-. constructor.
  - unfold bind. pose proof (Hf x w) as Hx.
    destruct (f x w) as [[y | e] w1] eqn:Hfx; simpl in Hx; subst w1; [| discriminate].
    pose proof (forM_world f l w Hf) as Hw.
    destruct (forM l f w) as [[zs | e] w2] eqn:Hl; simpl in Hw; subst w2; [| discriminate].
    unfold ret. intros H; injection H as <-.
    constructor; [exact Hfx | apply IH; reflexivity].
Qed.

Lemma read_object_world {J : JsonCodec} {I : IsoParser} (b : s3.bucket) (key : string)
  (w : World) : snd (read_object b key w) = w.
Proof.
  unfold read_object, bind, lift.
  destruct (s3.get_object b key); [| reflexivity].
  destruct (bytes_decode_utf8 a) as [text |]; [| reflexivity].
  destruct (json_loads text); reflexivity.
Qed.

Lemma read_object_Ok_inv {J : JsonCodec} {I : IsoParser} (b : s3.bucket) (key : string)
  (w : World) (e : analyze_emails.Email.t) :
  read_object b key w = (Ok e, w) ->
  exists body v,
    s3.lookup key b = Some body /\ utf8_valid body = true /\
    json_loads body = Some v /\
    analyze_emails.Email_of_json v = Ok e.
Proof.
  unfold read_object, bind, lift, s3.get_object, bytes_decode_utf8.
  destruct (s3.lookup key b) as [body |] eqn:Hl; [| discriminate].
  destruct (utf8_valid body) eqn:Hu; [| discriminate].
  destruct (json_loads body) as [v |] eqn:Hj; [| discriminate].
  destruct (analyze_emails.Email_of_json v) as [e' |] eqn:He; [| discriminate].
  intros H; injection H as <-. exists body, v. repeat split; auto.
Qed.

(** X5.  A listing that succeeds returns one record per listed key, in
    key order and each read from the object under its key, whose body is
    UTF-8 text, and never more than a thousand of them: the number of
    records is the number of keys under the path, capped at the page
    size. *)
Theorem get_emails_page {J : JsonCodec} {I : IsoParser}
  (path : string) (w w' : World) (emails : list analyze_emails.Email.t) :
  analyze_emails.get_emails path w = (Ok emails, w') ->
  List.length emails = Nat.min s3.max_keys (List.length (s3.matching (objects w) path)) /\
  Forall2
    (fun key e =>
       exists body v,
         s3.lookup key (objects w) = Some body /\ utf8_valid body = true /\
         json_loads body = Some v /\
         analyze_emails.Email_of_json v = Ok e)
    (firstn s3.max_keys (s3.matching (objects w) path)) emails.
Proof.
  rewrite get_emails_unfold.
  destruct (firstn s3.max_keys (s3.matching (objects w) path)) as [| k ks] eqn:Hpage;
    [discriminate |].
  intros H.
  assert (Hall : Forall2 (fun x y => read_object (objects w) x w = (Ok y, w)) (k :: ks) emails).
  { apply (@forM_Ok_inv _ _ (read_object (objects w)) (k :: ks) w w' emails).
    - intros x w0. apply read_object_world.
    - exact H. }
  split.
  - rewrite <- (Forall2_length Hall), <- Hpage. apply length_firstn.
  - eapply Forall2_impl; [| exact Hall]. intros key e. apply read_object_Ok_inv.
Qed.

Lemma get_emails_page_witness :
  List.length [read_back (sample.record "a"); read_back (sample.record "b")] =
    Nat.min s3.max_keys
      (List.length (s3.matching (objects sample.two_records) "json_emails/2024/1/1/")).
Proof.
  apply (proj1 (@get_emails_page reference.json reference.iso "json_emails/2024/1/1/"
                  sample.two_records sample.two_records
                  [read_back (sample.record "a"); read_back (sample.record "b")]
                  ltac:(vm_compute; reflexivity))).
Defined.

(** X6.  A stored document becomes a record exactly when it is an object
    with the keys [id], [subject], [from], [date] and [body] whose
    [date] is a string the date parser accepts; the values under the
    other keys are taken as they are. *)
Theorem Email_of_json_returns {J : JsonCodec} {I : IsoParser} (v : pyobj) :
  returns (analyze_emails.Email_of_json v) <-> record_document v.
Proof.
  unfold returns, record_document, analyze_emails.Email_of_json. split.
  - intros [e He]. destruct v; try discriminate He.
    unfold getitem in He.
    destruct (dict_get "id" items) eqn:E1; [| discriminate]. simpl in He.
    destruct (dict_get "subject" items) eqn:E2; [| discriminate]. simpl in He.
    destruct (dict_get "from" items) eqn:E3; [| discriminate]. simpl in He.
    destruct (dict_get "date" items) as [dv |] eqn:E4; [| discriminate]. simpl in He.
    destruct dv; try discriminate He.
    destruct (fromisoformat s) eqn:E5; [| discriminate]. simpl in He.
    destruct (dict_get "body" items) eqn:E6; [| discriminate].
    exists items, s. rewrite E1, E2, E3, E5, E6.
    repeat split; (discriminate || assumption).
  - intros (items & text & -> & H1 & H2 & H3 & H5 & H4 & H6).
    unfold getitem.
    destruct (dict_get "id" items); [| now elim H1].
    destruct (dict_get "subject" items); [| now elim H2].
    destruct (dict_get "from" items); [| now elim H3].
    rewrite H4. simpl.
    destruct (fromisoformat text); [| now elim H6]. simpl.
    destruct (dict_get "body" items); [| now elim H5].
    eexists. reflexivity.
Qed.

(** X7.  When the day's listing returns records, the model receives
    exactly one request, and its prompt is the template rendered over
    all the listed records, in listing order. *)
Theorem lambda_handler_prompt {J : JsonCodec} {I : IsoParser}
  (env : analyze_emails.Env) (path_override : option string) (path : string)
  (w : World) (email : analyze_emails.Email.t) (emails : list analyze_emails.Email.t) :
  analyze_emails.event_path env path_override = Ok path ->
  analyze_emails.get_emails path w = (Ok (email :: emails), w) ->
  model_requests (snd (analyze_emails.lambda_handler env path_override w)) =
    (model_requests w ++ [analyze_emails.prompt_template env (email :: emails)])%list.
Proof.
  intros Hp Hg. unfold analyze_emails.lambda_handler, bind, lift. rewrite Hp, Hg.
  pose proof (request_message_world env
                (analyze_emails.generate_user_prompt env (email :: emails)) w) as Hr.
  destruct (analyze_emails.request_message env
              (analyze_emails.generate_user_prompt env (email :: emails)) w)
    as [[m | err] w2]; simpl in Hr; subst w2; [| reflexivity].
  destruct (analyze_emails.Message.success m && _)%bool; reflexivity.
Qed.

Lemma lambda_handler_prompt_witness :
  model_requests
    (snd (analyze_emails.lambda_handler (J := reference.json) (I := reference.iso)
            (sample.analyzer "]") (Some "json_emails/2024/1/1/") sample.two_records)) =
    ([] ++ ["Summarize 2 emails"])%list.
Proof.
  apply (@lambda_handler_prompt reference.json reference.iso (sample.analyzer "]")
           (Some "json_emails/2024/1/1/") "json_emails/2024/1/1/" sample.two_records
           (read_back (sample.record "a")) [read_back (sample.record "b")]).
  - reflexivity.
  - vm_compute. reflexivity.
Defined.

(** ** From the topic to the chat *)

Lemma kwargs_of_asdict (e : analyze_emails.EmailSummary.t) :
  received.EmailSummary_of_kwargs (analyze_emails.EmailSummary.asdict e) =
    Ok (received_summary e).
Proof. destruct e. reflexivity. Qed.

Lemma mapM_kwargs_of_asdict (es : list analyze_emails.EmailSummary.t) :
  mapM received.EmailSummary_of_kwargs (map analyze_emails.EmailSummary.asdict es) =
    Ok (map received_summary es).
Proof.
  induction es as [| e es IH]; [reflexivity |].
  change (map analyze_emails.EmailSummary.asdict (e :: es))
    with (analyze_emails.EmailSummary.asdict e :: map analyze_emails.EmailSummary.asdict es).
  cbn [mapM]. rewrite kwargs_of_asdict, IH. reflexivity.
Qed.

(** X8.  The notifier's [from_dict] accepts the payload of every message
    the analyzer's [asdict] builds, and recovers the outcome: the
    success flag, and for a success the items in order with their four
    values (and no error), for a failure the error (and no items).  The
    error of a success and the items of a failure do not travel. *)
Theorem from_dict_asdict (m : analyze_emails.Message.t) :
  received.from_dict (analyze_emails.Message.asdict m) =
    Ok (received.mkMessage
          (PyBool (analyze_emails.Message.success m))
          (if analyze_emails.Message.success m
           then map received_summary (analyze_emails.Message.emails m) else [])
          (if analyze_emails.Message.success m
           then PyNone else pyopt (analyze_emails.Message.error m))).
Proof.
  destruct m as [s es err]. unfold analyze_emails.Message.asdict. simpl.
  destruct s; [| reflexivity].
  unfold received.from_dict. simpl. rewrite mapM_kwargs_of_asdict. reflexivity.
Qed.

Lemma failure_payload_received (reason : string) :
  received.from_dict (analyze_emails.Message.asdict (Failure reason)) =
    Ok (received.mkMessage (PyBool false) [] (PyStr reason)).
Proof. reflexivity. Qed.

(** X9.  A completion that is not JSON reaches the chat as an alert that
    quotes it in full: the summarizer's message for it, taken through
    [asdict] and [from_dict], is of the annotated types, and handling it
    posts the one body whose text is ["Error: Failed to parse response: ["]
    followed by the completion. *)
Theorem unparsable_completion_alert {J : JsonCodec} {I : IsoParser}
  (env : analyze_emails.Env) (prompt : string) (w w2 : World) (completion : string) :
  analyze_emails.model env prompt = Ok completion ->
  json_loads ("[" ++ completion) = None ->
  exists m raw tm,
    analyze_emails.request_message env prompt w = (Ok m, add_model_request prompt w) /\
    received.from_dict (analyze_emails.Message.asdict m) = Ok raw /\
    received.typed raw = Some tm /\
    slack_notification.handle tm w2 =
      (Ok tt,
       add_webhook_post
         (PyDict [("text", PyStr ("Error: Failed to parse response: [" ++ completion))]) w2).
Proof.
  intros Hm Hj.
  exists (Failure ("Failed to parse response: " ++ "[" ++ completion)).
  eexists. eexists. split; [| split; [| split]].
  - rewrite (request_message_unfold _ _ _ Hm). f_equal.
    unfold analyze_emails.parse_response, analyze_emails.email_summaries.
    rewrite Hj. reflexivity.
  - apply failure_payload_received.
  - reflexivity.
  - reflexivity.
Qed.

Lemma unparsable_completion_alert_witness :
  exists m raw tm,
    analyze_emails.request_message (J := reference.json) (sample.analyzer "{bad json")
      "prompt" sample.world = (Ok m, add_model_request "prompt" sample.world) /\
    received.from_dict (analyze_emails.Message.asdict m) = Ok raw /\
    received.typed raw = Some tm /\
    slack_notification.handle (I := reference.iso) tm sample.world =
      (Ok tt,
       add_webhook_post
         (PyDict [("text", PyStr ("Error: Failed to parse response: [" ++ "{bad json"))])
         sample.world).
Proof.
  apply (@unparsable_completion_alert reference.json reference.iso
           (sample.analyzer "{bad json") "prompt" sample.world sample.world "{bad json").
  - reflexivity.
  - vm_compute. reflexivity.
Defined.

(** X10.  [from_dict] ends in [TypeError] on a payload whose first item
    that is not an object with the four field names lacks the key
    [from_], as an item keyed [from] does: the items travel under the
    dataclass field names only. *)
Theorem from_dict_rejects_item (items : list (string * pyobj)) (success : pyobj)
  (pre post : list pyobj) (item : list (string * pyobj)) :
  dict_get "success" items = Some success ->
  dict_get "emails" items = Some (PyList (pre ++ PyDict item :: post)%list) ->
  Forall (fun e => exists s, received.EmailSummary_of_kwargs e = Ok s) pre ->
  dict_get "from_" item = None ->
  received.from_dict (PyDict items) = Raise TypeError.
Proof.
  intros Hs He Hpre Hf. unfold received.from_dict. simpl. rewrite Hs. simpl.
  rewrite He. simpl.
  assert (Hk : received.EmailSummary_of_kwargs (PyDict item) = Raise TypeError).
  { unfold received.EmailSummary_of_kwargs. rewrite Hf.
    destruct (forallb _ (dict_keys item)); [| reflexivity].
    destruct (dict_get "subject" item); [| reflexivity].
    destruct (dict_get "date" item); reflexivity. }
  rewrite (mapM_first_raise _ _ post Hpre Hk). reflexivity.
Qed.

Lemma from_dict_rejects_item_witness :
  received.from_dict
    (PyDict [("success", PyBool true);
             ("emails", PyList [PyDict [("subject", PyStr "Hello");
                                        ("date", PyStr "2024-01-01T10:00:00+09:00");
                                        ("from", PyStr "a@example.com");
                                        ("summary", PyStr "A greeting.")]])]) =
    Raise TypeError.
Proof.
  apply (@from_dict_rejects_item _ (PyBool true) [] []
           [("subject", PyStr "Hello"); ("date", PyStr "2024-01-01T10:00:00+09:00");
            ("from", PyStr "a@example.com"); ("summary", PyStr "A greeting.")]).
  - reflexivity.
  - reflexivity.
  - constructor.
  - reflexivity.
Defined.

Section Blocks.
Context {I : IsoParser}.
Import slack_notification.

Lemma append_blocks_concat (emails : list EmailSummary.t) (bss : list (list pyobj))
  (blocks : list pyobj) :
  Forall2 (fun e bs => email_blocks e = Ok bs) emails bss ->
  append_blocks blocks emails = Ok (blocks ++ List.concat bss)%list.
Proof.
  intros H. revert blocks. induction H as [| e bs es bss He _ IH]; intros blocks; simpl.
  - now rewrite app_nil_r.
  - rewrite He, IH, app_assoc. reflexivity.
Qed.

Lemma email_blocks_all (emails : list EmailSummary.t) :
  Forall (fun e => fromisoformat (EmailSummary.date e) <> None) emails ->
  exists bss,
    Forall2 (fun e bs => email_blocks e = Ok bs) emails bss /\
    Forall (fun bs => List.length bs = 4%nat) bss.
Proof.
  induction 1 as [| e es He _ (bss & Hall & Hlen)].
  - exists []. split; constructor.
  - unfold email_blocks at 1.
    destruct (fromisoformat (EmailSummary.date e)) as [d |] eqn:Hd; [| now elim He].
    eexists (_ :: bss). split.
    + constructor; [| exact Hall]. unfold email_blocks. rewrite Hd. reflexivity.
    + constructor; [reflexivity | exact Hlen].
Qed.


End Blocks.



(** ** The notifier's handler *)

Lemma forM_handle {I : IsoParser} (records : list slack_notification.Message.t)
  (payloads : list pyobj) (w : World) :
  Forall2 (fun m p => slack_notification.render m = Ok p) records payloads ->
  forM records slack_notification.handle w =
    (Ok (map (fun _ => tt) records),
     {| objects := objects w; model_requests := model_requests w; topic := topic w;
        webhook := (webhook w ++ payloads)%list |}).
Proof.
  intros H. revert w. induction H as [| m p ms ps Hm _ IH]; intros w; simpl.
  - unfold ret. rewrite app_nil_r. destruct w; reflexivity.
  - unfold bind. rewrite handle_render, Hm, IH. unfold ret. simpl.
    rewrite <- app_assoc. reflexivity.
Qed.

(** X12.  Given messages that all render, the notifier posts one body
    per message, the rendered payloads in the order of the records, and
    touches nothing else. *)
Theorem notifier_posts_in_order {I : IsoParser}
  (records : list slack_notification.Message.t) (payloads : list pyobj) (w : World) :
  Forall2 (fun m p => slack_notification.render m = Ok p) records payloads ->
  slack_notification.lambda_handler records w =
    (Ok tt,
     {| objects := objects w; model_requests := model_requests w; topic := topic w;
        webhook := (webhook w ++ payloads)%list |}).
Proof.
  intros H. unfold slack_notification.lambda_handler, bind.
  rewrite (forM_handle w H). reflexivity.
Qed.

Lemma notifier_posts_in_order_witness :
  slack_notification.lambda_handler (I := reference.iso)
    [slack_notification.Message.mk false [] (Some "boom");
     slack_notification.Message.mk false [] None] sample.world =
    (Ok tt,
     {| objects := objects sample.world; model_requests := model_requests sample.world;
        topic := topic sample.world;
        webhook := (webhook sample.world ++
                    [PyDict [("text", PyStr "Error: boom")];
                     PyDict [("text", PyStr "Error: no error contained")]])%list |}).
Proof.
  apply (@notifier_posts_in_order reference.iso
           [slack_notification.Message.mk false [] (Some "boom");
            slack_notification.Message.mk false [] None]
           [PyDict [("text", PyStr "Error: boom")];
            PyDict [("text", PyStr "Error: no error contained")]] sample.world).
  repeat constructor.
Defined.

(** X13.  The notifier stops at the first message it cannot render (a
    success with a date [fromisoformat] rejects): the bodies of the
    messages before it are posted already, nothing is posted for it or
    for the messages after it, and the run ends in its error. *)
Theorem notifier_stops_at_first_error {I : IsoParser}
  (pre post : list slack_notification.Message.t) (m : slack_notification.Message.t)
  (payloads : list pyobj) (e : exn) (w : World) :
  Forall2 (fun m p => slack_notification.render m = Ok p) pre payloads ->
  slack_notification.render m = Raise e ->
  slack_notification.lambda_handler (pre ++ m :: post)%list w =
    (Raise e,
     {| objects := objects w; model_requests := model_requests w; topic := topic w;
        webhook := (webhook w ++ payloads)%list |}).
Proof.
  intros H Hm. unfold slack_notification.lambda_handler, bind.
  revert w. induction H as [| m0 p ms ps Hm0 _ IH]; intros w; simpl.
  - unfold bind. rewrite handle_render, Hm, app_nil_r. destruct w; reflexivity.
  - unfold bind at 1 2. rewrite handle_render, Hm0.
    specialize (IH (add_webhook_post p w)).
    destruct (forM (ms ++ m :: post)%list slack_notification.handle (add_webhook_post p w))
      as [[ys | err] w1]; [discriminate |].
    injection IH as -> ->. simpl. rewrite <- app_assoc. reflexivity.
Qed.

Lemma notifier_stops_at_first_error_witness :
  slack_notification.lambda_handler (I := reference.iso)
    ([slack_notification.Message.mk false [] (Some "boom")] ++
     slack_notification.Message.mk true
       [slack_notification.EmailSummary.mk "Hello" "yesterday" "a@example.com" "A greeting."]
       None ::
     [slack_notification.Message.mk false [] None])%list sample.world =
    (Raise (ValueError "Invalid isoformat string"),
     {| objects := objects sample.world; model_requests := model_requests sample.world;
        topic := topic sample.world;
        webhook := (webhook sample.world ++ [PyDict [("text", PyStr "Error: boom")]])%list |}).
Proof.
  apply (@notifier_stops_at_first_error reference.iso
           [slack_notification.Message.mk false [] (Some "boom")]
           [slack_notification.Message.mk false [] None]
           (slack_notification.Message.mk true
              [slack_notification.EmailSummary.mk "Hello" "yesterday" "a@example.com"
                 "A greeting."] None)
           [PyDict [("text", PyStr "Error: boom")]]
           (ValueError "Invalid isoformat string") sample.world).
  - repeat constructor.
  - vm_compute. reflexivity.
Defined.

(** ** The extractor: bodies, records, the bucket *)

Lemma scan_parts_no_text {L : EmailLib} (parts : list EmailMessage) (body : option string) :
  Forall (fun p => email_parser.get_content_type p <> "text/plain" /\
                   email_parser.get_content_type p <> "text/html") parts ->
  email_parser.scan_parts parts body = Ok body.
Proof.
  induction 1 as [| p ps [Hp Hh] _ IH]; simpl; [reflexivity |].
  apply String.eqb_neq in Hp, Hh. rewrite Hp, Hh. exact IH.
Qed.

(** X14.  A message none of whose direct parts is plain text or markup
    (attachments only, or text that sits one level down, inside a nested
    multipart part), and a single-part message of any other content
    type, has no body: [_get_email_body] raises [ValueError]. *)
Theorem get_email_body_not_found {L : EmailLib} (message : EmailMessage) :
  (if email_parser.is_multipart message then
     Forall (fun p => email_parser.get_content_type p <> "text/plain" /\
                      email_parser.get_content_type p <> "text/html")
       (email_parser.iter_parts message)
   else
     email_parser.get_content_type message <> "text/plain" /\
     email_parser.get_content_type message <> "text/html") ->
  email_parser._get_email_body message = Raise (ValueError "Email body not found").
Proof.
  intros Hparts. unfold email_parser._get_email_body.
  destruct (email_parser.is_multipart message).
  - rewrite (scan_parts_no_text None Hparts). reflexivity.
  - destruct Hparts as [Hp Hh]. apply String.eqb_neq in Hp, Hh. rewrite Hp, Hh.
    reflexivity.
Qed.

Lemma get_email_body_not_found_witness :
  email_parser._get_email_body (L := reference.email) sample.nested_text =
    Raise (ValueError "Email body not found").
Proof.
  apply (@get_email_body_not_found reference.email sample.nested_text).
  vm_compute. repeat constructor; discriminate.
Defined.

Lemma forM_app {A B} (f : A -> M B) (l1 l2 : list A) (w : World) :
  forM (l1 ++ l2)%list f w =
    match forM l1 f w with
    | (Ok ys, w1) =>
        match forM l2 f w1 with
        | (Ok zs, w2) => (Ok (ys ++ zs)%list, w2)
        | (Raise e, w2) => (Raise e, w2)
        end
    | (Raise e, w1) => (Raise e, w1)
    end.
Proof.
  revert w. induction l1 as [| x l1 IH]; intros w; simpl.
  - unfold ret. destruct (forM l2 f w) as [[zs | e] w2]; reflexivity.
  - unfold bind, ret. destruct (f x w) as [[y | e] w0]; [| reflexivity].
    rewrite IH.
    destruct (forM l1 f w0) as [[ys | e] w1]; [| reflexivity].
    destruct (forM l2 f w1) as [[zs | e] w2]; reflexivity.
Qed.

Lemma read_email_world {L : EmailLib} (env : email_parser.Env) (email_id : string)
  (w : World) :
  snd (email_parser.read_email env email_id w) = w.
Proof.
  unfold email_parser.read_email.
  destruct (s3.get_object (objects w) (email_parser.raw_key env email_id)); reflexivity.
Qed.

(** X15.  The extractor stops at the first message it cannot read (no
    raw object, no usable date, no body, an undecodable part): when the
    messages before it go through, leaving the bucket [w1], the run over
    the whole batch ends in that message's error with the bucket [w1]:
    the earlier records are stored, nothing is written for the failing
    message, and the later messages are not read. *)
Theorem extractor_stops_at_first_failure {J : JsonCodec} {L : EmailLib}
  (env : email_parser.Env) (pre post : list string) (email_id : string)
  (w w1 w2 : World) (e : exn) :
  email_parser.lambda_handler env pre w = (Ok tt, w1) ->
  email_parser.read_email env email_id w1 = (Raise e, w2) ->
  email_parser.lambda_handler env (pre ++ email_id :: post)%list w = (Raise e, w1).
Proof.
  unfold email_parser.lambda_handler. intros Hpre Hread.
  pose proof (read_email_world env email_id w1) as Hw. rewrite Hread in Hw.
  simpl in Hw. subst w2.
  unfold bind at 1. unfold bind at 1 in Hpre. rewrite forM_app.
  destruct (forM pre _ w) as [[ys | err] w0]; [| discriminate].
  unfold ret in Hpre. injection Hpre as ->.
  simpl. unfold bind at 1 2. rewrite Hread. reflexivity.
Qed.

Lemma extractor_stops_at_first_failure_witness :
  email_parser.lambda_handler (J := reference.json) (L := reference.email)
    sample.extractor (["m1"] ++ "m2" :: ["m3"])%list
    (sample.inbox2 "m1" sample.plain_message "m2" sample.attachment_only) =
    (Raise (ValueError "Email body not found"),
     snd (email_parser.write_email (J := reference.json) sample.extractor
            (email_parser.Email.mk "m1" (Some "hi") (Some "a@example.com")
               (datetime.mk 2024 1 1 10 0 0 0 (Some 32400)) "hello")
            (sample.inbox2 "m1" sample.plain_message "m2" sample.attachment_only))).
Proof.
  apply (@extractor_stops_at_first_failure reference.json reference.email
           sample.extractor ["m1"] ["m3"] "m2"
           (sample.inbox2 "m1" sample.plain_message "m2" sample.attachment_only)
           _
           (snd (email_parser.write_email (J := reference.json) sample.extractor
                   (email_parser.Email.mk "m1" (Some "hi") (Some "a@example.com")
                      (datetime.mk 2024 1 1 10 0 0 0 (Some 32400)) "hello")
                   (sample.inbox2 "m1" sample.plain_message "m2" sample.attachment_only)))
           (ValueError "Email body not found")).
  - vm_compute. reflexivity.
  - vm_compute. reflexivity.
Defined.

Lemma forM_invariant {A B} (f : A -> M B) (R : World -> World -> Prop) :
  (forall w, R w w) ->
  (forall w1 w2 w3, R w1 w2 -> R w2 w3 -> R w1 w3) ->
  (forall x w, R w (snd (f x w))) ->
  forall l w, R w (snd (forM l f w)).
Proof.
  intros Hrefl Htrans Hstep l. induction l as [| x l IH]; intros w; simpl.
  - apply Hrefl.
  - unfold bind. specialize (Hstep x w).
    destruct (f x w) as [[y | e] w1]; simpl in Hstep; [| exact Hstep].
    specialize (IH w1). destruct (forM l f w1) as [[ys | e] w2]; simpl in IH |- *;
      exact (Htrans _ _ _ Hstep IH).
Qed.

(** X16.  What a run of the extractor leaves behind, however it ends:
    the prompts, the topic and the chat are untouched, and every key of
    the bucket either holds what it held before (whether something or
    nothing) or holds the document of a record under that record's key.
    The handler deletes nothing, and the only objects it writes are
    record documents. *)
Theorem extractor_footprint {J : JsonCodec} {L : EmailLib}
  (env : email_parser.Env) (records : list string) (w : World) :
  model_requests (snd (email_parser.lambda_handler env records w)) = model_requests w /\
  topic (snd (email_parser.lambda_handler env records w)) = topic w /\
  webhook (snd (email_parser.lambda_handler env records w)) = webhook w /\
  forall key,
    s3.lookup key (objects (snd (email_parser.lambda_handler env records w))) =
      s3.lookup key (objects w) \/
    exists r,
      key = email_parser.json_key env r /\
      s3.lookup key (objects (snd (email_parser.lambda_handler env records w))) =
        Some (json_dumps (email_parser.json_document r)).
Proof.
  pose (R := fun w w' : World =>
    model_requests w' = model_requests w /\ topic w' = topic w /\
    webhook w' = webhook w /\
    forall key,
      s3.lookup key (objects w') = s3.lookup key (objects w) \/
      exists r, key = email_parser.json_key env r /\
                s3.lookup key (objects w') =
                  Some (json_dumps (email_parser.json_document r))).
  change (R w (snd (email_parser.lambda_handler env records w))).
  assert (Hrefl : forall w0, R w0 w0) by (intros w0; repeat split; auto).
  unfold email_parser.lambda_handler, bind at 1.
  assert (Hrun : R w (snd (forM records
                             (fun message_id =>
                                (email <- email_parser.read_email env message_id ;;
                                 email_parser.write_email env email)%M) w))).
  { apply forM_invariant.
    - exact Hrefl.
    - intros w1 w2 w3 (Hm1 & Ht1 & Hh1 & Ho1) (Hm2 & Ht2 & Hh2 & Ho2).
      split; [congruence |]. split; [congruence |]. split; [congruence |].
      intros key. destruct (Ho2 key) as [Heq | Hr]; [| right; exact Hr].
      rewrite Heq. apply Ho1.
    - intros email_id w0. unfold bind.
      pose proof (read_email_world env email_id w0) as Hw.
      destruct (email_parser.read_email env email_id w0) as [[email | e] w1];
        simpl in Hw; subst w1; [| apply Hrefl].
      unfold email_parser.write_email. simpl.
      split; [reflexivity |]. split; [reflexivity |]. split; [reflexivity |].
      intros key.
      destruct (string_dec key (email_parser.json_key env email)) as [-> | Hne].
      + right. exists email. split; [reflexivity | apply lookup_put_same].
      + left. apply lookup_put_other. exact Hne. }
  destruct (forM records _ w) as [[ys | e] w1]; exact Hrun.
Qed.

Lemma compare_refl (s : string) : String.compare s s = Eq.
Proof.
  pose proof (String.compare_antisym s s) as H.
  destruct (String.compare s s); [reflexivity | discriminate | discriminate].
Qed.

Lemma put_object_twice (key body body' : string) (b : s3.bucket) :
  s3.put_object key body' (s3.put_object key body b) = s3.put_object key body' b.
Proof.
  induction b as [| [k v] b IH]; simpl.
  - now rewrite compare_refl.
  - destruct (String.compare key k) eqn:E; simpl.
    + now rewrite compare_refl.
    + now rewrite compare_refl.
    + rewrite E, IH. reflexivity.
Qed.

(** X17.  A record written again under the same id and calendar day
    replaces the earlier one: after the second write the bucket is what
    the second write alone would have left, with one object under the
    key, holding the second document. *)
Theorem write_email_replaces {J : JsonCodec} (env : email_parser.Env)
  (r1 r2 : email_parser.Email.t) (w : World) :
  email_parser.Email.id r1 = email_parser.Email.id r2 ->
  datetime.year (email_parser.Email.date r1) = datetime.year (email_parser.Email.date r2) ->
  datetime.month (email_parser.Email.date r1) = datetime.month (email_parser.Email.date r2) ->
  datetime.day (email_parser.Email.date r1) = datetime.day (email_parser.Email.date r2) ->
  snd (email_parser.write_email env r2 (snd (email_parser.write_email env r1 w))) =
    snd (email_parser.write_email env r2 w) /\
  s3.lookup (email_parser.json_key env r1)
    (objects (snd (email_parser.write_email env r2
                     (snd (email_parser.write_email env r1 w))))) =
    Some (json_dumps (email_parser.json_document r2)).
Proof.
  intros Hid Hy Hm Hd.
  assert (Hk : email_parser.json_key env r1 = email_parser.json_key env r2)
    by (unfold email_parser.json_key; rewrite Hid, Hy, Hm, Hd; reflexivity).
  unfold email_parser.write_email, set_objects. simpl. rewrite Hk. split.
  - rewrite put_object_twice. reflexivity.
  - apply lookup_put_same.
Qed.

Lemma write_email_replaces_witness :
  snd (email_parser.write_email (J := reference.json) sample.extractor
         (email_parser.Email.mk "m1" (Some "hi") None
            (datetime.mk 2024 1 1 23 30 0 0 (Some 32400)) "second")
         (snd (email_parser.write_email (J := reference.json) sample.extractor
                 (sample.record "m1") sample.two_records))) =
    snd (email_parser.write_email (J := reference.json) sample.extractor
           (email_parser.Email.mk "m1" (Some "hi") None
              (datetime.mk 2024 1 1 23 30 0 0 (Some 32400)) "second")
           sample.two_records) /\
  s3.lookup (email_parser.json_key sample.extractor (sample.record "m1"))
    (objects
       (snd (email_parser.write_email (J := reference.json) sample.extractor
               (email_parser.Email.mk "m1" (Some "hi") None
                  (datetime.mk 2024 1 1 23 30 0 0 (Some 32400)) "second")
               (snd (email_parser.write_email (J := reference.json) sample.extractor
                       (sample.record "m1") sample.two_records))))) =
    Some (json_dumps (JsonCodec := reference.json)
            (email_parser.json_document
               (email_parser.Email.mk "m1" (Some "hi") None
                  (datetime.mk 2024 1 1 23 30 0 0 (Some 32400)) "second"))).
Proof.
  apply (@write_email_replaces reference.json sample.extractor (sample.record "m1")
           (email_parser.Email.mk "m1" (Some "hi") None
              (datetime.mk 2024 1 1 23 30 0 0 (Some 32400)) "second")
           sample.two_records); reflexivity.
Defined.

(** ** The day the daily handler reads *)

Lemma ymd2ord_bounds (d : datetime.t) :
  datetime.wf d ->
  1 <= datetime.ymd2ord (datetime.year d) (datetime.month d) (datetime.day d) <= 3652059.
Proof.
  intros (Hy & Hm & Hd & _). unfold datetime.MINYEAR, datetime.MAXYEAR in Hy.
  set (y := datetime.year d) in *. set (m := datetime.month d) in *.
  set (dd := datetime.day d) in *. clearbody y m dd.
  assert (Hmd : 1 <= datetime.days_before_month y m + dd <=
                365 + (if datetime.is_leap y then 1 else 0)).
  { unfold datetime.days_before_month. unfold datetime.days_in_month in Hd. revert Hd.
    assert (Hc : m = 1 \/ m = 2 \/ m = 3 \/ m = 4 \/ m = 5 \/ m = 6 \/ m = 7 \/ m = 8 \/
                 m = 9 \/ m = 10 \/ m = 11 \/ m = 12) by lia.
    destruct (datetime.is_leap y);
      repeat (destruct Hc as [-> | Hc]; [cbv [datetime.days_before_month_table Z.ltb
                Z.compare Pos.compare Pos.compare_cont andb]; lia |]);
      subst m; cbv [datetime.days_before_month_table Z.ltb Z.compare Pos.compare
                    Pos.compare_cont andb]; lia. }
  unfold datetime.ymd2ord.
  assert (Hlo : 0 <= datetime.days_before_year y)
    by (unfold datetime.days_before_year; cbv zeta; Z.div_mod_to_equations; lia).
  split; [lia |].
  destruct (Z.eq_dec y 9999) as [-> | Hne].
  - change (datetime.is_leap 9999) with false in Hmd.
    change (datetime.days_before_year 9999) with 3651694. lia.
  - assert (Hhi : datetime.days_before_year y + 366 <= 3652059)
      by (unfold datetime.days_before_year; cbv zeta; Z.div_mod_to_equations; lia).
    destruct (datetime.is_leap y); lia.
Qed.

(** X18.  Without a path override the daily handler lists the calendar
    day before the date on the clock, in the clock's zone: the target
    is a calendar date of the supported years whose ordinal is one less
    than today's, so the month and the year roll over with it.  On the
    first day of year 1 there is no day before, and the run ends in
    [OverflowError] before anything is listed. *)
Theorem event_path_yesterday {J : JsonCodec} {I : IsoParser} (env : analyze_emails.Env) :
  datetime.wf (analyze_emails.now env) ->
  (1 < datetime.ymd2ord (datetime.year (analyze_emails.now env))
         (datetime.month (analyze_emails.now env)) (datetime.day (analyze_emails.now env)) ->
   exists target,
     analyze_emails.event_path env None = Ok (analyze_emails.day_prefix env target) /\
     datetime.ymd2ord (datetime.year target) (datetime.month target) (datetime.day target) =
       datetime.ymd2ord (datetime.year (analyze_emails.now env))
         (datetime.month (analyze_emails.now env)) (datetime.day (analyze_emails.now env)) - 1 /\
     1 <= datetime.year target <= 9999 /\
     1 <= datetime.month target <= 12 /\
     1 <= datetime.day target <=
       datetime.days_in_month (datetime.year target) (datetime.month target)) /\
  (datetime.ymd2ord (datetime.year (analyze_emails.now env))
     (datetime.month (analyze_emails.now env)) (datetime.day (analyze_emails.now env)) = 1 ->
   forall w, analyze_emails.lambda_handler env None w = (Raise OverflowError, w)).
Proof.
  intros Hwf. pose proof (ymd2ord_bounds Hwf) as Hb.
  set (o := datetime.ymd2ord (datetime.year (analyze_emails.now env))
              (datetime.month (analyze_emails.now env))
              (datetime.day (analyze_emails.now env))) in *.
  split.
  - intros Hlt.
    assert (Hsub : exists target,
              datetime.sub_days (analyze_emails.now env) 1 = Ok target /\
              datetime.ord2ymd (o - 1) =
                (datetime.year target, datetime.month target, datetime.day target)).
    { unfold datetime.sub_days. fold o.
      change (datetime.ymd2ord datetime.MAXYEAR 12 31) with 3652059.
      assert (Hc : ((1 <=? o - 1)%Z && (o - 1 <=? 3652059)%Z)%bool = true)
        by (apply andb_true_iff; split; [apply Z.leb_le | apply Z.leb_le]; lia).
      rewrite Hc. destruct (datetime.ord2ymd (o - 1)) as [[y m] dd].
      eexists. split; reflexivity. }
    destruct Hsub as (target & Hsub & Hord). exists target.
    pose proof (@ord2ymd_spec (o - 1) ltac:(lia)) as Hspec. rewrite Hord in Hspec.
    destruct Hspec as (Ho & Hm & Hd & Hy & Hmax).
    split; [unfold analyze_emails.event_path; rewrite Hsub; reflexivity |].
    split; [exact Ho |]. split; [split; [exact Hy | apply Hmax; lia] |].
    split; assumption.
  - intros Ho w. unfold analyze_emails.lambda_handler, bind, lift,
      analyze_emails.event_path, datetime.sub_days. fold o. rewrite Ho. reflexivity.
Qed.

Lemma event_path_yesterday_witness :
  exists target,
    analyze_emails.event_path
      {| analyze_emails.json_email_path := "json_emails/";
         analyze_emails.now := datetime.mk 2024 3 1 6 0 0 0 (Some 32400);
         analyze_emails.prompt_template := fun _ => "prompt";
         analyze_emails.model := fun _ => Ok "]" |} None =
      Ok (analyze_emails.day_prefix
            {| analyze_emails.json_email_path := "json_emails/";
               analyze_emails.now := datetime.mk 2024 3 1 6 0 0 0 (Some 32400);
               analyze_emails.prompt_template := fun _ => "prompt";
               analyze_emails.model := fun _ => Ok "]" |} target) /\
    datetime.ymd2ord (datetime.year target) (datetime.month target) (datetime.day target) =
      datetime.ymd2ord 2024 3 1 - 1 /\
    1 <= datetime.year target <= 9999 /\
    1 <= datetime.month target <= 12 /\
    1 <= datetime.day target <=
      datetime.days_in_month (datetime.year target) (datetime.month target).
Proof.
  refine (proj1 (@event_path_yesterday reference.json reference.iso
                   {| analyze_emails.json_email_path := "json_emails/";
                      analyze_emails.now := datetime.mk 2024 3 1 6 0 0 0 (Some 32400);
                      analyze_emails.prompt_template := fun _ => "prompt";
                      analyze_emails.model := fun _ => Ok "]" |} _) _).
  - repeat split; vm_compute; (discriminate || reflexivity).
  - vm_compute. reflexivity.
Defined.

(** ** From the model's reply to the chat *)

Lemma mapM_string_fields {J : JsonCodec} (l : list pyobj)
  (items : list slack_notification.EmailSummary.t) :
  Forall2 string_fields l items ->
  mapM analyze_emails.EmailSummary_of l = Ok (map summary_of_strings items).
Proof.
  induction 1 as [| v e l items (Hs & Hd & Hf & Hy) _ IH]; [reflexivity |].
  cbn [mapM map]. unfold analyze_emails.EmailSummary_of at 1.
  rewrite Hs, Hd, Hf, Hy. simpl. rewrite IH. reflexivity.
Qed.

Lemma typed_summaries_of_strings (items : list slack_notification.EmailSummary.t) :
  received.typed_summaries (map received_summary (map summary_of_strings items)) =
    Some items.
Proof.
  induction items as [| e items IH]; [reflexivity |].
  cbn [map received.typed_summaries]. rewrite IH. destruct e. reflexivity.
Qed.

(** X19.  A reply of the model that completes a JSON array of objects
    whose four values are strings, with dates [fromisoformat] accepts,
    reaches the chat as one digest: the summarizer returns a success
    with one item per object, which the daily handler publishes; its
    payload, taken through [asdict] and [from_dict], is of the annotated
    types and carries the same strings in the same order; and handling
    it posts the one body whose blocks are the header followed by the
    blocks of each item. *)
Theorem digest_reaches_chat {J : JsonCodec} {I : IsoParser}
  (env : analyze_emails.Env) (prompt : string) (w w2 : World) (completion : string)
  (l : list pyobj) (items : list slack_notification.EmailSummary.t) :
  analyze_emails.model env prompt = Ok completion ->
  json_loads ("[" ++ completion) = Some (PyList l) ->
  Forall2 string_fields l items ->
  items <> [] ->
  Forall (fun e => fromisoformat (slack_notification.EmailSummary.date e) <> None) items ->
  exists raw bss,
    analyze_emails.request_message env prompt w =
      (Ok (analyze_emails.Message.mk true (map summary_of_strings items) None),
       add_model_request prompt w) /\
    publishable (analyze_emails.Message.mk true (map summary_of_strings items) None) = true /\
    received.from_dict
      (analyze_emails.Message.asdict
         (analyze_emails.Message.mk true (map summary_of_strings items) None)) = Ok raw /\
    received.typed raw = Some (slack_notification.Message.mk true items None) /\
    Forall2 (fun e bs => slack_notification.email_blocks e = Ok bs) items bss /\
    slack_notification.handle (slack_notification.Message.mk true items None) w2 =
      (Ok tt,
       add_webhook_post
         (PyDict [("blocks", PyList (slack_notification.header_block :: List.concat bss))])
         w2).
Proof.
  intros Hm Hj Hl Hne Hd.
  destruct (email_blocks_all Hd) as (bss & Hall & _).
  exists (received.mkMessage (PyBool true)
            (map received_summary (map summary_of_strings items)) PyNone), bss.
  split; [| split; [| split; [| split; [| split]]]].
  - rewrite (request_message_unfold _ _ _ Hm). f_equal.
    unfold analyze_emails.parse_response, analyze_emails.email_summaries.
    rewrite Hj. simpl. rewrite (mapM_string_fields Hl). reflexivity.
  - destruct items; [now elim Hne | reflexivity].
  - unfold analyze_emails.Message.asdict, received.from_dict. simpl.
    rewrite mapM_kwargs_of_asdict. reflexivity.
  - unfold received.typed. simpl. rewrite typed_summaries_of_strings. reflexivity.
  - exact Hall.
  - rewrite handle_render. unfold slack_notification.render. simpl.
    unfold slack_notification.generate_payload.
    rewrite (append_blocks_concat [slack_notification.header_block] Hall). reflexivity.
Qed.

Lemma digest_reaches_chat_witness :
  exists raw bss,
    analyze_emails.request_message (J := reference.json)
      (sample.analyzer sample.greeting_completion) "prompt" sample.world =
      (Ok (analyze_emails.Message.mk true (map summary_of_strings [sample.greeting]) None),
       add_model_request "prompt" sample.world) /\
    publishable
      (analyze_emails.Message.mk true (map summary_of_strings [sample.greeting]) None) = true /\
    received.from_dict
      (analyze_emails.Message.asdict
         (analyze_emails.Message.mk true (map summary_of_strings [sample.greeting]) None))
      = Ok raw /\
    received.typed raw = Some (slack_notification.Message.mk true [sample.greeting] None) /\
    Forall2 (fun e bs => slack_notification.email_blocks (I := reference.iso) e = Ok bs)
      [sample.greeting] bss /\
    slack_notification.handle (I := reference.iso)
      (slack_notification.Message.mk true [sample.greeting] None) sample.world =
      (Ok tt,
       add_webhook_post
         (PyDict [("blocks", PyList (slack_notification.header_block :: List.concat bss))])
         sample.world).
Proof.
  apply (@digest_reaches_chat reference.json reference.iso
           (sample.analyzer sample.greeting_completion) "prompt" sample.world sample.world
           sample.greeting_completion [sample.greeting_object] [sample.greeting]).
  - reflexivity.
  - vm_compute. reflexivity.
  - constructor; [| constructor]. repeat split.
  - discriminate.
  - constructor; [| constructor]. vm_compute. discriminate.
Defined.

(** ** One day's listing holds that day's records only *)

Lemma zfill_length (k : nat) (n : Z) : String.length (zfill k n) = k.
Proof.
  revert n. induction k as [| k IH]; intros n; [reflexivity |].
  cbn [zfill]. rewrite length_append, IH. simpl. lia.
Qed.

Lemma str_nat_fuel_zfill (f : nat) (n : Z) :
  (1 <= f)%nat -> 0 <= n < 2 ^ Z.of_nat f ->
  exists k, (1 <= k)%nat /\ str_nat_fuel f n = zfill k n /\ n < 10 ^ Z.of_nat k.
Proof.
  revert n. induction f as [| f IH]; intros n Hf Hn; [lia |].
  cbn [str_nat_fuel]. destruct (n <? 10)%Z eqn:E.
  - apply Z.ltb_lt in E. exists 1%nat. split; [lia |]. split.
    + cbn [zfill]. rewrite Z.mod_small by lia. reflexivity.
    + change (10 ^ Z.of_nat 1) with 10. exact E.
  - apply Z.ltb_ge in E.
    rewrite Nat2Z.inj_succ, Z.pow_succ_r in Hn by lia.
    assert (Hf' : (1 <= f)%nat).
    { destruct f; [change (2 ^ Z.of_nat 0) with 1 in Hn; lia | lia]. }
    destruct (IH (n / 10) Hf') as (k & Hk & Hz & Hlt).
    { split; [apply Z.div_pos; lia | apply Z.div_lt_upper_bound; lia]. }
    exists (S k). split; [lia |]. split.
    + cbn [zfill]. rewrite Hz. reflexivity.
    + rewrite Nat2Z.inj_succ, Z.pow_succ_r by lia.
      set (P := 10 ^ Z.of_nat k) in *. clearbody P.
      pose proof (Z.div_mod n 10 ltac:(lia)). pose proof (Z.mod_pos_bound n 10 ltac:(lia)).
      lia.
Qed.

Lemma str_int_zfill (n : Z) :
  0 <= n -> exists k, (1 <= k)%nat /\ str_int n = zfill k n /\ n < 10 ^ Z.of_nat k.
Proof.
  intros Hn. unfold str_int.
  assert (E : (n <? 0)%Z = false) by (apply Z.ltb_ge; lia). rewrite E.
  apply str_nat_fuel_zfill; [lia |]. split; [lia |].
  rewrite Nat2Z.inj_succ, Z2Nat.id by apply Z.log2_nonneg.
  destruct (Z.eq_dec n 0) as [-> | Hne]; [reflexivity |].
  apply Z.log2_spec. lia.
Qed.

(** Distinct numbers print differently. *)
Lemma str_int_inj (n n' : Z) : 0 <= n -> 0 <= n' -> str_int n = str_int n' -> n = n'.
Proof.
  intros Hn Hn' H.
  destruct (str_int_zfill Hn) as (k & _ & Hz & Hlt).
  destruct (str_int_zfill Hn') as (k' & _ & Hz' & Hlt').
  rewrite Hz, Hz' in H.
  assert (Hk : k = k').
  { rewrite <- (zfill_length k n), <- (zfill_length k' n'), H. reflexivity. }
  subst k'.
  pose proof (@parse_digits_zfill0 k n EmptyString (conj Hn Hlt)) as P.
  pose proof (@parse_digits_zfill0 k n' EmptyString (conj Hn' Hlt')) as P'.
  rewrite append_nil_r in P, P'. rewrite H, P' in P. now injection P.
Qed.

Lemma digit_char_not_slash (d : Z) :
  0 <= d <= 9 -> Ascii.eqb (digit_char d) pathlib.slash = false.
Proof.
  intros H.
  assert (Hd : d = 0 \/ d = 1 \/ d = 2 \/ d = 3 \/ d = 4 \/ d = 5 \/ d = 6 \/ d = 7 \/
               d = 8 \/ d = 9) by lia.
  repeat (destruct Hd as [-> | Hd]; [reflexivity |]). subst; reflexivity.
Qed.

Lemma slash_free_append (a b : string) :
  slash_free (a ++ b) = (slash_free a && slash_free b)%bool.
Proof.
  induction a as [| c a IH]; [reflexivity |].
  cbn [append slash_free]. rewrite IH. now rewrite andb_assoc.
Qed.

Lemma zfill_slash_free (k : nat) (n : Z) : slash_free (zfill k n) = true.
Proof.
  revert n. induction k as [| k IH]; intros n; [reflexivity |].
  cbn [zfill]. rewrite slash_free_append, IH. cbn [slash_free andb].
  rewrite digit_char_not_slash; [reflexivity |].
  pose proof (Z.mod_pos_bound n 10 ltac:(lia)). lia.
Qed.

Lemma split_slash_free (s : string) : slash_free s = true -> pathlib.split s = [s].
Proof.
  induction s as [| c s IH]; [reflexivity |].
  cbn [slash_free pathlib.split]. intros H. apply andb_prop in H. destruct H as [Hc Hs].
  apply negb_true_iff in Hc. rewrite Hc, (IH Hs). reflexivity.
Qed.

Lemma keep_digit_last (a : string) (c : ascii) :
  is_digit c = true -> pathlib.keep (a ++ String c EmptyString) = true.
Proof.
  intros Hc. unfold pathlib.keep. apply andb_true_iff. split; apply negb_true_iff.
  - apply String.eqb_neq. destruct a; discriminate.
  - apply String.eqb_neq. intros H. destruct a as [| x a].
    + injection H as ->. discriminate Hc.
    + injection H as _ H. destruct a; discriminate.
Qed.

(** A number from 0 on prints as one kept component. *)
Lemma parts_str_int (n : Z) : 0 <= n -> pathlib.parts (str_int n) = [str_int n].
Proof.
  intros Hn. destruct (str_int_zfill Hn) as (k & Hk & Hz & _). rewrite Hz.
  unfold pathlib.parts. rewrite (split_slash_free _ (zfill_slash_free k n)).
  destruct k as [| k]; [lia |]. cbn [filter].
  assert (Hkeep : pathlib.keep (zfill (S k) n) = true).
  { cbn [zfill]. apply keep_digit_last. apply digit_char_is_digit.
    pose proof (Z.mod_pos_bound n 10 ltac:(lia)). lia. }
  rewrite Hkeep. reflexivity.
Qed.

Lemma str_int_head (n : Z) :
  0 <= n -> exists c rest, str_int n = String c rest /\ c <> pathlib.slash.
Proof.
  intros Hn. destruct (str_int_zfill Hn) as (k & Hk & Hz & _). rewrite Hz.
  pose proof (zfill_slash_free k n) as Hs. pose proof (zfill_length k n) as Hl.
  destruct (zfill k n) as [| c rest]; [simpl in Hl; lia |].
  exists c, rest. split; [reflexivity |].
  cbn [slash_free] in Hs. apply andb_prop in Hs. destruct Hs as [Hc _].
  apply negb_true_iff in Hc. intros ->. discriminate Hc.
Qed.

Lemma str_int_slash_free (n : Z) : 0 <= n -> slash_free (str_int n) = true.
Proof.
  intros Hn. destruct (str_int_zfill Hn) as (k & _ & Hz & _). rewrite Hz.
  apply zfill_slash_free.
Qed.

Lemma prefix_cancel (a x y : string) : String.prefix (a ++ x) (a ++ y) = String.prefix x y.
Proof.
  induction a as [| c a IH]; [reflexivity |].
  cbn [append String.prefix]. destruct (ascii_dec c c) as [_ | Hn]; [exact IH | now elim Hn].
Qed.

(** Component by component: a path that starts with a component and a
    slash starts with that very component. *)
Lemma prefix_component (a a' x y : string) :
  slash_free a = true -> slash_free a' = true ->
  String.prefix (a ++ String pathlib.slash x) (a' ++ String pathlib.slash y) = true ->
  a = a' /\ String.prefix x y = true.
Proof.
  revert a'. induction a as [| c a IH]; intros [| c' a'] Ha Ha'; cbn [append String.prefix].
  - destruct (ascii_dec pathlib.slash pathlib.slash) as [_ | Hn]; [auto | now elim Hn].
  - destruct (ascii_dec pathlib.slash c') as [<- | _]; [| discriminate].
    discriminate Ha'.
  - destruct (ascii_dec c pathlib.slash) as [-> | _]; [| discriminate].
    discriminate Ha.
  - destruct (ascii_dec c c') as [<- | _]; [| discriminate].
    intros H. cbn [slash_free] in Ha, Ha'.
    apply andb_prop in Ha, Ha'. destruct Ha as [_ Ha]. destruct Ha' as [_ Ha'].
    destruct (IH a' Ha Ha' H) as [-> Hp]. auto.
Qed.

Lemma root_other (c : ascii) (rest : string) :
  c <> pathlib.slash -> pathlib.root (String c rest) = EmptyString.
Proof.
  intros H. destruct c as [[] [] [] [] [] [] [] []]; try reflexivity.
  elim H. reflexivity.
Qed.

Lemma root_one (c : ascii) (rest : string) :
  c <> pathlib.slash -> pathlib.root (String pathlib.slash (String c rest)) = "/".
Proof.
  intros H. destruct c as [[] [] [] [] [] [] [] []]; try reflexivity.
  elim H. reflexivity.
Qed.

Lemma root_two (c : ascii) (rest : string) :
  c <> pathlib.slash ->
  pathlib.root (String pathlib.slash (String pathlib.slash (String c rest))) = "//".
Proof.
  intros H. destruct c as [[] [] [] [] [] [] [] []]; try reflexivity.
  elim H. reflexivity.
Qed.

(** The root of a path is decided before its first numeric component. *)
Lemma root_component (base : string) (c c' : ascii) (rest rest' : string) :
  c <> pathlib.slash -> c' <> pathlib.slash ->
  pathlib.root (base ++ String pathlib.slash (String c rest)) =
  pathlib.root (base ++ String pathlib.slash (String c' rest')).
Proof.
  intros Hc Hc'. destruct base as [| b0 [| b1 [| b2 base]]]; cbn [append].
  - now rewrite !root_one.
  - destruct (ascii_dec b0 pathlib.slash) as [-> | Hb].
    + now rewrite !root_two.
    + now rewrite !root_other.
  - change (String b0 (String b1 (String pathlib.slash (String c rest))))
      with (String b0 (String b1 (String pathlib.slash EmptyString)) ++ String c rest).
    change (String b0 (String b1 (String pathlib.slash (String c' rest'))))
      with (String b0 (String b1 (String pathlib.slash EmptyString)) ++ String c' rest').
    rewrite !root_append by (simpl; lia). reflexivity.
  - change (String b0 (String b1 (String b2 (base ++ String pathlib.slash (String c rest)))))
      with (String b0 (String b1 (String b2 EmptyString)) ++
            (base ++ String pathlib.slash (String c rest))).
    change (String b0 (String b1 (String b2 (base ++ String pathlib.slash (String c' rest')))))
      with (String b0 (String b1 (String b2 EmptyString)) ++
            (base ++ String pathlib.slash (String c' rest'))).
    rewrite !root_append by (simpl; lia). reflexivity.
Qed.

(** The path of a day: its components are those of the base followed by
    the three numbers. *)
Lemma parts_day_path (base : string) (y m d : Z) :
  0 <= y -> 0 <= m -> 0 <= d ->
  pathlib.parts (base ++ "/" ++ str_int y ++ "/" ++ str_int m ++ "/" ++ str_int d) =
    (pathlib.parts base ++ [str_int y; str_int m; str_int d])%list.
Proof.
  intros Hy Hm Hd.
  replace (base ++ "/" ++ str_int y ++ "/" ++ str_int m ++ "/" ++ str_int d)
    with (((base ++ String pathlib.slash (str_int y)) ++ String pathlib.slash (str_int m)) ++
          String pathlib.slash (str_int d))
    by (rewrite !append_assoc; reflexivity).
  rewrite !parts_append_slash, !parts_str_int by assumption.
  rewrite <- !app_assoc. reflexivity.
Qed.

Lemma Path_str_day_path (base : string) (y m d : Z) :
  0 <= y -> 0 <= m -> 0 <= d ->
  pathlib.Path_str (base ++ "/" ++ str_int y ++ "/" ++ str_int m ++ "/" ++ str_int d) =
    pathlib.root (base ++ "/" ++ str_int y ++ "/" ++ str_int m ++ "/" ++ str_int d) ++
    match pathlib.parts base with
    | [] => EmptyString
    | _ :: _ => String.concat "/" (pathlib.parts base) ++ "/"
    end ++ str_int y ++ "/" ++ str_int m ++ "/" ++ str_int d.
Proof.
  intros Hy Hm Hd. rewrite Path_str_parts; rewrite (parts_day_path base Hy Hm Hd).
  - f_equal. destruct (pathlib.parts base) as [| b bs] eqn:Hb.
    + reflexivity.
    + rewrite (@concat_app "/" (b :: bs) [str_int y; str_int m; str_int d])
        by discriminate.
      rewrite !append_assoc. reflexivity.
  - destruct (pathlib.parts base); discriminate.
Qed.

(** X20.  The listing of one day never holds the key of a record of
    another day, whatever the bucket and the record's id: the path the
    daily handler lists ends in a slash, so that the first of a month
    does not match the tenth, nor January the months 10 to 12. *)
Theorem other_day_not_listed
  (penv : email_parser.Env) (aenv : analyze_emails.Env)
  (r : email_parser.Email.t) (target : datetime.t) (b : s3.bucket) :
  analyze_emails.json_email_path aenv = email_parser.json_email_path penv ->
  datetime.wf (email_parser.Email.date r) ->
  datetime.wf target ->
  (datetime.year target, datetime.month target, datetime.day target) <>
    (datetime.year (email_parser.Email.date r), datetime.month (email_parser.Email.date r),
     datetime.day (email_parser.Email.date r)) ->
  String.prefix (analyze_emails.day_prefix aenv target) (email_parser.json_key penv r)
    = false /\
  forallb (fun key => negb (String.eqb key (email_parser.json_key penv r)))
    (s3.matching b (analyze_emails.day_prefix aenv target)) = true.
Proof.
  intros Hpath Hwf Hwf' Hne.
  assert (Hfalse : String.prefix (analyze_emails.day_prefix aenv target)
                     (email_parser.json_key penv r) <> true).
  { intros Hp.
  destruct Hwf as ([Hy _] & [Hm _] & [Hd _] & _).
  destruct Hwf' as ([Hy' _] & [Hm' _] & [Hd' _] & _).
  unfold datetime.MINYEAR in Hy, Hy'.
  set (date := email_parser.Email.date r) in *.
  assert (Ny : 0 <= datetime.year date) by lia.
  assert (Nm : 0 <= datetime.month date) by lia.
  assert (Nd : 0 <= datetime.day date) by lia.
  assert (Ny' : 0 <= datetime.year target) by lia.
  assert (Nm' : 0 <= datetime.month target) by lia.
  assert (Nd' : 0 <= datetime.day target) by lia.
  unfold analyze_emails.day_prefix, email_parser.json_key in Hp. rewrite Hpath in Hp.
  fold date in Hp.
  set (base := email_parser.json_email_path penv) in *.
  set (p := base ++ "/" ++ str_int (datetime.year date) ++ "/" ++
            str_int (datetime.month date) ++ "/" ++ str_int (datetime.day date)) in *.
  replace (base ++ "/" ++ str_int (datetime.year date) ++ "/" ++
           str_int (datetime.month date) ++ "/" ++ str_int (datetime.day date) ++ "/" ++
           email_parser.Email.id r ++ ".json")
    with (p ++ String pathlib.slash (email_parser.Email.id r ++ ".json")) in Hp
    by (unfold p; rewrite !append_assoc; reflexivity).
  assert (Hparts : pathlib.parts p <> []).
  { unfold p. rewrite (parts_day_path base Ny Nm Nd).
    destruct (pathlib.parts base); discriminate. }
  assert (Hlen : (3 <= String.length p)%nat).
  { unfold p. rewrite !length_append. simpl. lia. }
  rewrite (@Path_str_append _ _ Hlen Hparts (@parts_json_name _)) in Hp.
  unfold p in Hp.
  rewrite (Path_str_day_path base Ny Nm Nd), (Path_str_day_path base Ny' Nm' Nd') in Hp.
  destruct (str_int_head Ny) as (c & rest & Ec & Hc).
  destruct (str_int_head Ny') as (c' & rest' & Ec' & Hc').
  assert (Hroot :
    pathlib.root (base ++ "/" ++ str_int (datetime.year target) ++ "/" ++
                  str_int (datetime.month target) ++ "/" ++ str_int (datetime.day target)) =
    pathlib.root (base ++ "/" ++ str_int (datetime.year date) ++ "/" ++
                  str_int (datetime.month date) ++ "/" ++ str_int (datetime.day date))).
  { rewrite Ec, Ec'. apply (@root_component base c' c _ _ Hc' Hc). }
  rewrite Hroot in Hp. rewrite !append_assoc in Hp. rewrite prefix_cancel in Hp.
  assert (Hcore :
    String.prefix
      (str_int (datetime.year target) ++ "/" ++ str_int (datetime.month target) ++ "/" ++
       str_int (datetime.day target) ++ "/")
      (str_int (datetime.year date) ++ "/" ++ str_int (datetime.month date) ++ "/" ++
       str_int (datetime.day date) ++ "/" ++
       String.concat "/" (pathlib.parts (email_parser.Email.id r ++ ".json"))) = true).
  { destruct (pathlib.parts base) as [| b0 bs].
    - exact Hp.
    - rewrite !append_assoc in Hp. rewrite !prefix_cancel in Hp. exact Hp. }
  apply (@prefix_component _ _ _ _ (str_int_slash_free Ny') (str_int_slash_free Ny)) in Hcore.
  destruct Hcore as [Ey Hcore].
  apply (@prefix_component _ _ _ _ (str_int_slash_free Nm') (str_int_slash_free Nm)) in Hcore.
  destruct Hcore as [Em Hcore].
  apply (@prefix_component _ _ _ _ (str_int_slash_free Nd') (str_int_slash_free Nd)) in Hcore.
  destruct Hcore as [Ed _].
  apply Hne. rewrite (str_int_inj Ny' Ny Ey), (str_int_inj Nm' Nm Em), (str_int_inj Nd' Nd Ed).
  reflexivity. }
  split.
  - destruct (String.prefix _ _); [now elim Hfalse | reflexivity].
  - apply forallb_forall. intros key Hin. apply negb_true_iff, String.eqb_neq.
    intros ->. unfold s3.matching in Hin. apply filter_In in Hin.
    destruct Hin as [_ Hp]. exact (Hfalse Hp).
Qed.

Lemma other_day_not_listed_witness :
  String.prefix
    (analyze_emails.day_prefix (sample.analyzer "]")
       (datetime.mk 2024 1 1 0 0 0 0 (Some 32400)))
    (email_parser.json_key sample.extractor
       (email_parser.Email.mk "m1" (Some "hi") None
          (datetime.mk 2024 1 10 10 0 0 0 (Some 32400)) "hello")) = false /\
  forallb
    (fun key =>
       negb (String.eqb key
               (email_parser.json_key sample.extractor
                  (email_parser.Email.mk "m1" (Some "hi") None
                     (datetime.mk 2024 1 10 10 0 0 0 (Some 32400)) "hello"))))
    (s3.matching
       [(email_parser.json_key sample.extractor
           (email_parser.Email.mk "m1" (Some "hi") None
              (datetime.mk 2024 1 10 10 0 0 0 (Some 32400)) "hello"), "{}")]
       (analyze_emails.day_prefix (sample.analyzer "]")
          (datetime.mk 2024 1 1 0 0 0 0 (Some 32400)))) = true.
Proof.
  apply (@other_day_not_listed sample.extractor (sample.analyzer "]")
           (email_parser.Email.mk "m1" (Some "hi") None
              (datetime.mk 2024 1 10 10 0 0 0 (Some 32400)) "hello")
           (datetime.mk 2024 1 1 0 0 0 0 (Some 32400))).
  - reflexivity.
  - repeat split; vm_compute; (discriminate || reflexivity).
  - repeat split; vm_compute; (discriminate || reflexivity).
  - discriminate.
Defined.

(** ** The day a record is filed under *)

Lemma of_wall_seconds_day (w us : Z) (off : option Z) :
  datetime.representable w = true ->
  datetime.ymd2ord (datetime.year (datetime.of_wall_seconds w us off))
    (datetime.month (datetime.of_wall_seconds w us off))
    (datetime.day (datetime.of_wall_seconds w us off)) = w / 86400.
Proof.
  unfold datetime.representable. change (datetime.ymd2ord datetime.MAXYEAR 12 31) with 3652059.
  rewrite andb_true_iff, Z.leb_le, Z.ltb_lt. intros [Hlo Hhi].
  assert (Hn : 1 <= w / 86400) by (Z.div_mod_to_equations; lia).
  pose proof (@ord2ymd_spec (w / 86400) Hn) as Hspec.
  unfold datetime.of_wall_seconds.
  destruct (datetime.ord2ymd (w / 86400)) as [[y m] dd]. simpl.
  exact (proj1 Hspec).
Qed.

(** X21.  The day a message is filed under is the calendar day of its
    instant in the configured zone, whatever offset the sender's date
    header carries: the ordinal of the day in the record's key is the
    instant of the header, moved by the zone's offset at that instant,
    in whole days.  The stored timestamp is on that same day. *)
Theorem record_filed_under_local_day {J : JsonCodec} {L : EmailLib}
  (env : email_parser.Env) (email_id raw value : string) (d : datetime.t)
  (w w' : World) (e : email_parser.Email.t) :
  s3.get_object (objects w) (email_parser.raw_key env email_id) = Ok raw ->
  email_parser.date (parsebytes raw) = Some value ->
  parsedate_to_datetime value = Some d ->
  email_parser.read_email env email_id w = (Ok e, w') ->
  datetime.ymd2ord (datetime.year (email_parser.Email.date e))
    (datetime.month (email_parser.Email.date e))
    (datetime.day (email_parser.Email.date e)) =
    (datetime.utc_seconds (email_parser.host_zone env) d +
     email_parser.timezone env (datetime.utc_seconds (email_parser.host_zone env) d)) / 86400
  /\
  email_parser.lambda_handler env [email_id] w =
    (Ok tt,
     set_objects
       (s3.put_object
          (pathlib.Path_str
             (email_parser.json_email_path env ++ "/" ++
              str_int (datetime.year (email_parser.Email.date e)) ++ "/" ++
              str_int (datetime.month (email_parser.Email.date e)) ++ "/" ++
              str_int (datetime.day (email_parser.Email.date e)) ++ "/" ++
              email_id ++ ".json"))
          (json_dumps (email_parser.json_document e)) (objects w)) w).
Proof.
  intros Hraw Hv Hp Hread.
  pose proof (read_email_world env email_id w) as Hw. rewrite Hread in Hw.
  simpl in Hw. subst w'. split.
  - revert Hread. unfold email_parser.read_email. rewrite Hraw.
    unfold email_parser._get_email_date. rewrite Hv, Hp.
    unfold datetime.astimezone.
    destruct (datetime.representable (datetime.utc_seconds (email_parser.host_zone env) d));
      [| discriminate].
    destruct (datetime.representable
                (datetime.utc_seconds (email_parser.host_zone env) d +
                 email_parser.timezone env
                   (datetime.utc_seconds (email_parser.host_zone env) d))) eqn:Hr;
      [| discriminate].
    simpl. destruct (email_parser._get_email_body (parsebytes raw)); [| discriminate].
    simpl. intros H; injection H as <-. simpl.
    apply of_wall_seconds_day. exact Hr.
  - assert (Hid : email_parser.Email.id e = email_id).
    { revert Hread. unfold email_parser.read_email. rewrite Hraw.
      destruct (email_parser._get_email_date env (parsebytes raw)); [| discriminate].
      simpl. destruct (email_parser._get_email_body (parsebytes raw)); [| discriminate].
      simpl. intros H; injection H as <-. reflexivity. }
    unfold email_parser.lambda_handler. simpl. unfold bind. rewrite Hread.
    unfold email_parser.write_email, email_parser.json_key, ret. rewrite Hid. reflexivity.
Qed.

Lemma record_filed_under_local_day_witness :
  exists e,
    email_parser.read_email (L := reference.email) sample.extractor "m1"
      (sample.inbox "m1" sample.late_message) =
      (Ok e, sample.inbox "m1" sample.late_message) /\
    datetime.ymd2ord (datetime.year (email_parser.Email.date e))
      (datetime.month (email_parser.Email.date e))
      (datetime.day (email_parser.Email.date e)) = datetime.ymd2ord 2024 1 2 /\
    email_parser.lambda_handler (J := reference.json) (L := reference.email)
      sample.extractor ["m1"] (sample.inbox "m1" sample.late_message) =
      (Ok tt,
       set_objects
         (s3.put_object "json_emails/2024/1/2/m1.json"
            (json_dumps (JsonCodec := reference.json) (email_parser.json_document e))
            (objects (sample.inbox "m1" sample.late_message)))
         (sample.inbox "m1" sample.late_message)).
Proof.
  exists (email_parser.Email.mk "m1" (Some "hi") (Some "a@example.com")
            (datetime.mk 2024 1 2 5 0 0 0 (Some 32400)) "hello").
  split; [vm_compute; reflexivity |].
  exact (@record_filed_under_local_day reference.json reference.email sample.extractor
           "m1" sample.late_message "Mon, 01 Jan 2024 20:00:00 +0000"
           (datetime.mk 2024 1 1 20 0 0 0 (Some 0))
           (sample.inbox "m1" sample.late_message) (sample.inbox "m1" sample.late_message)
           (email_parser.Email.mk "m1" (Some "hi") (Some "a@example.com")
              (datetime.mk 2024 1 2 5 0 0 0 (Some 32400)) "hello")
           eq_refl eq_refl eq_refl eq_refl).
Defined.
